(** * notes-mgr: the knowledge-graph query tool (scripts/query_kg.py)

    A shallow embedding of the six query operations of [query_kg.py]
    ([find_entity], [find_related], [list_types], [list_entities_by_type],
    [search], [show_info]), of [load_knowledge_graph] and of [main] once
    [argparse] has split the command line, with the properties the
    specification states about them and further properties read off the
    code: what is printed, and how the operations behave on documents
    that do not follow the data model.

    Conventions of the model.
    - A Python [str] is a [string]; each character is a code point below
      256, and [str.lower] is Python's on that range.
    - A parsed JSON value is a [json] tree.  JSON numbers are integers; a
      float (a confidence such as 0.9) is outside the model.
    - Python exceptions are values of [exn]; an expression that can raise
      has type [result A].
    - Python lists that a function creates, and the top-level sequences of
      the loaded document, are objects on a heap and are mutated in place
      ([append], [sort_in_place]); statements run in the monad [prog].
      The list objects a function created are reclaimed when it is left
      ([scoped]).
    - [print] appends a [line] to the output of the run; an interpolated
      value [v] of an f-string is recorded as [Val v] (standing for the
      text [str(v)]).
    - The order in which a run iterates over a set, which depends on the
      hash seed of the process, is a parameter [order] of [list_types].
    - Each operation returns, besides printing, the local list(s) it
      printed from, so that statements about result sets can be made. *)

From Stdlib Require Import ZArith Ascii String DecimalString Permutation Sorted.
From stdpp Require Import base tactics option list strings.

Set Warnings "-register-all".

Local Open Scope string_scope.
Local Open Scope list_scope.
Local Open Scope Z_scope.

(** ** Strings *)

Module Str.

(** [chr(c).lower()] for a code point below 256: the upper-case letters are
    A-Z, and 0xC0-0xDE without the multiplication sign 0xD7. *)
Definition lower_char (c : ascii) : ascii :=
  let n := N_of_ascii c in
  if (((65 <=? n) && (n <=? 90)) ||
      ((192 <=? n) && (n <=? 222) && negb (n =? 215)))%N
  then ascii_of_N (n + 32) else c.

(** [s.lower()] *)
Fixpoint lower (s : string) : string :=
  match s with
  | EmptyString => EmptyString
  | String c r => String (lower_char c) (lower r)
  end.

(** [needle in hay] on two strings *)
Fixpoint contains (needle hay : string) : bool :=
  String.prefix needle hay ||
  match hay with
  | EmptyString => false
  | String _ r => contains needle r
  end.

(** [a < b] on two strings: lexicographic on code points *)
Fixpoint ltb (a b : string) : bool :=
  match a, b with
  | _, EmptyString => false
  | EmptyString, String _ _ => true
  | String x a', String y b' =>
      let nx := N_of_ascii x in
      let ny := N_of_ascii y in
      if (nx <? ny)%N then true
      else if (ny <? nx)%N then false
      else ltb a' b'
  end.

(** [c * n] for a one-character string [c] *)
Fixpoint repeat (c : ascii) (n : nat) : string :=
  match n with
  | O => EmptyString
  | S n' => String c (repeat c n')
  end.

(** the characters of a string, as Python iterates over it *)
Fixpoint chars (s : string) : list string :=
  match s with
  | EmptyString => []
  | String c r => String c EmptyString :: chars r
  end.

End Str.

(** ** JSON values, as [json.load] builds them *)

Inductive json : Type :=
| JNull
| JBool (b : bool)
| JNum (n : Z)
| JStr (s : string)
| JArr (l : list json)
| JObj (d : list (string * json)).

(** Python exceptions the query functions can raise *)
Inductive exn : Type := KeyError | AttributeError | TypeError.

Inductive result (A : Type) : Type :=
| Done (a : A)
| Fail (e : exn).
Arguments Done {A} a.
Arguments Fail {A} e.

Definition rbind {A B} (r : result A) (k : A -> result B) : result B :=
  match r with
  | Done a => k a
  | Fail e => Fail e
  end.

Notation "'let?' x := r 'in' k" := (rbind r (fun x => k))
  (at level 10, x name, r at level 100, k at level 200).

Module Py.

(** first binding of a key in a dict *)
Fixpoint assoc {V} (k : string) (d : list (string * V)) : option V :=
  match d with
  | [] => None
  | (k', v) :: d' => if String.eqb k' k then Some v else assoc k d'
  end.

(** [d[k]] *)
Definition getitem (d : json) (k : string) : result json :=
  match d with
  | JObj kvs =>
      match assoc k kvs with
      | Some v => Done v
      | None => Fail KeyError
      end
  | _ => Fail TypeError
  end.

(** [d.get(k, dflt)] *)
Definition get (d : json) (k : string) (dflt : json) : result json :=
  match d with
  | JObj kvs =>
      match assoc k kvs with
      | Some v => Done v
      | None => Done dflt
      end
  | _ => Fail AttributeError
  end.

(** [v.lower()] *)
Definition lower (v : json) : result string :=
  match v with
  | JStr s => Done (Str.lower s)
  | _ => Fail AttributeError
  end.

(** [d.items()] *)
Definition items (v : json) : result (list (string * json)) :=
  match v with
  | JObj kvs => Done kvs
  | _ => Fail AttributeError
  end.

(** the integer a number or a boolean stands for *)
Definition as_int (v : json) : option Z :=
  match v with
  | JNum n => Some n
  | JBool true => Some 1
  | JBool false => Some 0
  | _ => None
  end.

(** [a == b] *)
Fixpoint eqb (a b : json) : bool :=
  match a, b with
  | JNull, JNull => true
  | JBool x, JBool y => Bool.eqb x y
  | JBool x, JNum n => n =? (if x then 1 else 0)
  | JNum n, JBool x => n =? (if x then 1 else 0)
  | JNum x, JNum y => x =? y
  | JStr x, JStr y => String.eqb x y
  | JArr l1, JArr l2 =>
      (fix go (l1 l2 : list json) : bool :=
         match l1, l2 with
         | [], [] => true
         | x :: l1', y :: l2' => eqb x y && go l1' l2'
         | _, _ => false
         end) l1 l2
  | JObj d1, JObj d2 =>
      (length d1 =? length d2)%nat &&
      (fix go (d : list (string * json)) : bool :=
         match d with
         | [] => true
         | (k, v) :: d' =>
             match assoc k d2 with
             | Some w => eqb v w
             | None => false
             end && go d'
         end) d1
  | _, _ => false
  end.

(** [a < b]; [TypeError] where Python does not order the two values *)
Fixpoint ltb (a b : json) : result bool :=
  match a, b with
  | JStr x, JStr y => Done (Str.ltb x y)
  | JArr l1, JArr l2 =>
      (fix go (l1 l2 : list json) : result bool :=
         match l1, l2 with
         | [], [] => Done false
         | [], _ :: _ => Done true
         | _ :: _, [] => Done false
         | x :: l1', y :: l2' => if eqb x y then go l1' l2' else ltb x y
         end) l1 l2
  | _, _ =>
      match as_int a, as_int b with
      | Some x, Some y => Done (x <? y)
      | _, _ => Fail TypeError
      end
  end.

(** truth value of [v] in a condition *)
Definition truthy (v : json) : bool :=
  match v with
  | JNull => false
  | JBool b => b
  | JNum n => negb (n =? 0)
  | JStr s => negb (String.eqb s EmptyString)
  | JArr l => match l with [] => false | _ => true end
  | JObj d => match d with [] => false | _ => true end
  end.

(** lists and dicts cannot be members of a set *)
Definition hashable (v : json) : bool :=
  match v with
  | JArr _ | JObj _ => false
  | _ => true
  end.

(** [isinstance(v, list)] *)
Definition is_list (v : json) : bool :=
  match v with
  | JArr _ => true
  | _ => false
  end.

(** [sep.join(l)]: every element must be a [str] *)
Fixpoint join (sep : string) (l : list json) : result string :=
  match l with
  | [] => Done EmptyString
  | [JStr s] => Done s
  | JStr s :: l' => let? r := join sep l' in Done (s +:+ sep +:+ r)
  | _ :: _ => Fail TypeError
  end.

(** [len(v)] *)
Definition len (v : json) : result nat :=
  match v with
  | JStr s => Done (String.length s)
  | JArr l => Done (length l)
  | JObj d => Done (length d)
  | _ => Fail TypeError
  end.

(** [str(v)]; [repr] stands for the text Python writes for a list or a
    dict, which is not modelled *)
Definition str (repr : json -> string) (v : json) : string :=
  match v with
  | JNull => "None"
  | JBool true => "True"
  | JBool false => "False"
  | JNum n => NilZero.string_of_int (Z.to_int n)
  | JStr s => s
  | _ => repr v
  end.

(** the elements [for x in v] runs over *)
Definition iter (v : json) : result (list json) :=
  match v with
  | JArr l => Done l
  | JObj d => Done (map (fun kv => JStr (fst kv)) d)
  | JStr s => Done (map JStr (Str.chars s))
  | _ => Fail TypeError
  end.

End Py.

(** ** [json.dumps] with its defaults (separators [", "] and [": "],
    [ensure_ascii=True]) *)

Module Dumps.

Definition hex_digit (n : N) : ascii :=
  if (n <? 10)%N then ascii_of_N (48 + n) else ascii_of_N (87 + n).

(** what [json.dumps] writes for one character of a string *)
Definition escape_char (c : ascii) : string :=
  let n := N_of_ascii c in
  if (n =? 34)%N then "\" +:+ String c EmptyString
  else if (n =? 92)%N then "\\"
  else if (n =? 8)%N then "\b"
  else if (n =? 12)%N then "\f"
  else if (n =? 10)%N then "\n"
  else if (n =? 13)%N then "\r"
  else if (n =? 9)%N then "\t"
  else if ((32 <=? n) && (n <=? 126))%N then String c EmptyString
  else "\u00" +:+ String (hex_digit (n / 16)) (String (hex_digit (n mod 16)) EmptyString).

Fixpoint escape (s : string) : string :=
  match s with
  | EmptyString => EmptyString
  | String c r => escape_char c +:+ escape r
  end.

Definition quote : string := String (ascii_of_N 34) EmptyString.

Definition dumps_str (s : string) : string := quote +:+ escape s +:+ quote.

Definition dumps_int (n : Z) : string := NilZero.string_of_int (Z.to_int n).

Fixpoint dumps (v : json) : string :=
  match v with
  | JNull => "null"
  | JBool true => "true"
  | JBool false => "false"
  | JNum n => dumps_int n
  | JStr s => dumps_str s
  | JArr l =>
      "[" +:+
      (fix go (l : list json) : string :=
         match l with
         | [] => EmptyString
         | [x] => dumps x
         | x :: l' => dumps x +:+ ", " +:+ go l'
         end) l +:+ "]"
  | JObj d =>
      "{" +:+
      (fix go (d : list (string * json)) : string :=
         match d with
         | [] => EmptyString
         | [(k, x)] => dumps_str k +:+ ": " +:+ dumps x
         | (k, x) :: d' => dumps_str k +:+ ": " +:+ dumps x +:+ ", " +:+ go d'
         end) d +:+ "}"
  end.

End Dumps.

(** ** The heap of list objects and the statement monad *)

Abbreviation addr := nat.
Abbreviation heap := (list (list json)).

(** one printed line: literal text and interpolated values *)
Inductive piece : Type :=
| Lit (s : string)
| Val (v : json).
Definition line := list piece.

Inductive outcome (A : Type) : Type :=
| Ok (a : A) (h : heap) (o : list line)
| Raise (e : exn) (h : heap) (o : list line).
Arguments Ok {A} a h o.
Arguments Raise {A} e h o.

Definition prog (A : Type) : Type := heap -> outcome A.

Definition ret {A} (a : A) : prog A := fun h => Ok a h [].

Definition raise {A} (e : exn) : prog A := fun h => Raise e h [].

Definition bind {A B} (m : prog A) (k : A -> prog B) : prog B :=
  fun h =>
    match m h with
    | Ok a h1 o1 =>
        match k a h1 with
        | Ok b h2 o2 => Ok b h2 (o1 ++ o2)
        | Raise e h2 o2 => Raise e h2 (o1 ++ o2)
        end
    | Raise e h1 o1 => Raise e h1 o1
    end.

Notation "'let*' x := m 'in' k" := (bind m (fun x => k))
  (at level 10, x name, m at level 100, k at level 200).
Notation "m ;; k" := (bind m (fun _ => k))
  (at level 100, k at level 200, right associativity).

(** an expression evaluated inside a statement *)
Definition lift {A} (r : result A) : prog A :=
  match r with
  | Done a => ret a
  | Fail e => raise e
  end.

(** [x = [...]]: a new list object *)
Definition alloc (l : list json) : prog addr :=
  fun h => Ok (length h) (h ++ [l]) [].

(** the current elements of a list object *)
Definition read (a : addr) : prog (list json) :=
  fun h => Ok (default [] (h !! a)) h [].

(** [x.append(v)] *)
Definition append (a : addr) (v : json) : prog unit :=
  fun h => Ok tt (alter (fun l => l ++ [v]) a h) [].

(** overwrite the elements of a list object *)
Definition store (a : addr) (l : list json) : prog unit :=
  fun h => Ok tt (<[a := l]> h) [].

Definition print (ln : line) : prog unit := fun h => Ok tt h [ln].

(** [for x in l: body], over the elements [l] the loop starts with; no
    loop body of the program changes the list it runs over *)
Fixpoint for_each {A} (l : list A) (body : A -> prog unit) : prog unit :=
  match l with
  | [] => ret tt
  | x :: l' => body x ;; for_each l' body
  end.

(** a loop that also updates a local variable *)
Fixpoint for_fold {A S} (l : list A) (acc : S) (body : S -> A -> prog S) : prog S :=
  match l with
  | [] => ret acc
  | x :: l' => let* acc' := body acc x in for_fold l' acc' body
  end.

(** the body of a function: the list objects it created are unreachable
    once it returns or raises, and are reclaimed *)
Definition scoped {A} (m : prog A) : prog A :=
  fun h =>
    match m h with
    | Ok a h1 o => Ok a (take (length h) h1) o
    | Raise e h1 o => Raise e (take (length h) h1) o
    end.

(** ** The loaded document *)

(** a value of the top-level mapping: a list object, or any other value *)
Inductive pyval : Type :=
| Imm (v : json)
| ListAt (a : addr).

Definition kgdoc := list (string * pyval).

(** [load_knowledge_graph], after the file is read and parsed into [doc]:
    the top-level arrays of the document become list objects *)
Fixpoint load_knowledge_graph (doc : list (string * json)) : prog kgdoc :=
  match doc with
  | [] => ret []
  | (k, JArr l) :: doc' =>
      let* a := alloc l in
      let* rest := load_knowledge_graph doc' in
      ret ((k, ListAt a) :: rest)
  | (k, v) :: doc' =>
      let* rest := load_knowledge_graph doc' in
      ret ((k, Imm v) :: rest)
  end.

Module Kg.

(** [kg.get(key, dflt)] *)
Definition get (kg : kgdoc) (key : string) (dflt : json) : pyval :=
  match Py.assoc key kg with
  | Some v => v
  | None => Imm dflt
  end.

(** the elements [for x in v] runs over *)
Definition iter (v : pyval) : prog (list json) :=
  match v with
  | ListAt a => read a
  | Imm j => lift (Py.iter j)
  end.

(** [len(v)] *)
Definition len (v : pyval) : prog nat :=
  match v with
  | ListAt a => let* l := read a in ret (length l)
  | Imm j => lift (Py.len j)
  end.

(** [v.items()]: a list has no [items] *)
Definition items (v : pyval) : prog (list (string * json)) :=
  match v with
  | ListAt _ => raise AttributeError
  | Imm j => lift (Py.items j)
  end.

End Kg.

(** ** Sorting and sets *)

Module Sort.

(** [list.sort] and [sorted] are stable and compare keys with [<] only.
    Insertion from the right gives the one stable sorted arrangement when
    every comparison succeeds; a failing comparison raises [TypeError]. *)
Fixpoint insert (k x : json) (l : list (json * json)) : result (list (json * json)) :=
  match l with
  | [] => Done [(k, x)]
  | (k', y) :: l' =>
      let? b := Py.ltb k' k in
      if b then let? r := insert k x l' in Done ((k', y) :: r)
      else Done ((k, x) :: (k', y) :: l')
  end.

Fixpoint sort (l : list (json * json)) : result (list (json * json)) :=
  match l with
  | [] => Done []
  | (k, x) :: l' => let? r := sort l' in insert k x r
  end.

(** the keys of the elements, computed before any comparison *)
Fixpoint keyed (key : json -> result json) (l : list json) : result (list (json * json)) :=
  match l with
  | [] => Done []
  | x :: l' =>
      let? k := key x in
      let? r := keyed key l' in
      Done ((k, x) :: r)
  end.

(** the sorted elements of [l] under [key] *)
Definition by_key (key : json -> result json) (l : list json) : result (list json) :=
  let? kl := keyed key l in
  let? r := sort kl in
  Done (map snd r).

End Sort.

(** [x.sort(key=...)]: a list of at most one element is left as it is
    without calling [<] *)
Definition sort_in_place (a : addr) (key : json -> result json) : prog unit :=
  let* l := read a in
  let* r := lift (Sort.by_key key l) in
  store a r.

(** [sorted(s)] for the elements [s] in the order the iteration gives them *)
Definition sorted (l : list json) : result (list json) :=
  Sort.by_key (fun x => Done x) l.

(** A set object is kept as the list of its members in insertion order.
    [s.add(v)] *)
Definition set_add (a : addr) (v : json) : prog unit :=
  if Py.hashable v then
    let* l := read a in
    if existsb (Py.eqb v) l then ret tt else append a v
  else raise TypeError.

(** ** The query operations *)

Definition nl : string := String (ascii_of_N 10) EmptyString.

(** [print("="*n)] *)
Definition rule (n : nat) : line := [Lit (Str.repeat "="%char n)].

(** [next((e for e in kg.get('entities', []) if e['id'] == rel[endpoint]), None)] *)
Fixpoint first_match (p : json -> result bool) (l : list json) : result json :=
  match l with
  | [] => Done JNull
  | e :: l' => let? b := p e in if b then Done e else first_match p l'
  end.

Definition same_id (rel : json) (endpoint : string) (e : json) : result bool :=
  let? i := Py.getitem e "id" in
  let? t := Py.getitem rel endpoint in
  Done (Py.eqb i t).

Definition next_entity (kg : kgdoc) (rel : json) (endpoint : string) : prog json :=
  let* es := Kg.iter (Kg.get kg "entities" (JArr [])) in
  lift (first_match (same_id rel endpoint) es).

(** lines 53-57 and 101-104: the entities whose name contains [name] *)
Definition collect_by_name (kg : kgdoc) (name : string) : prog addr :=
  let* matches := alloc [] in
  let* es := Kg.iter (Kg.get kg "entities" (JArr [])) in
  for_each es (fun entity =>
    let* nm := lift (Py.get entity "name" (JStr EmptyString)) in
    let* low := lift (Py.lower nm) in
    if Str.contains name low then append matches entity else ret tt) ;;
  ret matches.

(** lines 70-75 *)
Definition print_properties (entity : json) : prog unit :=
  print [Lit nl; Lit "Properties:"] ;;
  let* props := lift (Py.get entity "properties" (JObj [])) in
  let* kvs := lift (Py.items props) in
  for_each kvs (fun kv =>
    match snd kv with
    | JArr l =>
        let* s := lift (Py.join ", " l) in
        print [Lit "  - "; Val (JStr (fst kv)); Lit ": "; Val (JStr s)]
    | v => print [Lit "  - "; Val (JStr (fst kv)); Lit ": "; Val v]
    end).

(** lines 77-93 *)
Definition print_relationships (kg : kgdoc) (entity : json) : prog unit :=
  print [Lit nl; Lit "Relationships:"] ;;
  let* rels := Kg.iter (Kg.get kg "relationships" (JArr [])) in
  let* rel_found :=
    for_fold rels false (fun rel_found rel =>
      let* src := lift (Py.getitem rel "source") in
      let* eid := lift (Py.getitem entity "id") in
      if Py.eqb src eid then
        let* target := next_entity kg rel "target" in
        if Py.truthy target then
          let* ty := lift (Py.getitem rel "type") in
          let* tn := lift (Py.getitem target "name") in
          let* tty := lift (Py.getitem target "type") in
          print [Lit "  - "; Val ty; Lit " → "; Val tn; Lit " ("; Val tty; Lit ")"] ;;
          ret true
        else ret rel_found
      else
        let* tgt := lift (Py.getitem rel "target") in
        let* eid := lift (Py.getitem entity "id") in
        if Py.eqb tgt eid then
          let* source := next_entity kg rel "source" in
          if Py.truthy source then
            let* sn := lift (Py.getitem source "name") in
            let* st := lift (Py.getitem source "type") in
            let* ty := lift (Py.getitem rel "type") in
            print [Lit "  - "; Val sn; Lit " ("; Val st; Lit ") → "; Val ty] ;;
            ret true
          else ret rel_found
        else ret rel_found) in
  if rel_found then ret tt else print [Lit "  No relationships found"].

(** [find_entity(kg, name)]; returns the list [matches] *)
Definition find_entity (kg : kgdoc) (name : string) : prog (list json) :=
  scoped (
    let name := Str.lower name in
    let* matches := collect_by_name kg name in
    let* ms := read matches in
    match ms with
    | [] =>
        print [Lit "No entities found matching '"; Val (JStr name); Lit "'"] ;;
        ret ms
    | _ =>
        for_each ms (fun entity =>
          let* n := lift (Py.getitem entity "name") in
          let* t := lift (Py.getitem entity "type") in
          print [Lit nl; Val n; Lit " ("; Val t; Lit ")"] ;;
          print (rule 40) ;;
          let* i := lift (Py.getitem entity "id") in
          print [Lit "ID: "; Val i] ;;
          let* sf := lift (Py.getitem entity "source_file") in
          print [Lit "Source: "; Val sf] ;;
          let* c := lift (Py.getitem entity "confidence") in
          print [Lit "Confidence: "; Val c] ;;
          print_properties entity ;;
          print_relationships kg entity) ;;
        ret ms
    end).

(** the dict appended to [related] (lines 122-126 and 133-137) *)
Definition related_item (e ty : json) (direction : string) : json :=
  JObj [("entity", e); ("relationship", ty); ("direction", JStr direction)].

(** lines 117-126 (with [mine] = "source", [other] = "target", "outgoing")
    and lines 128-137 (with [mine] = "target", [other] = "source",
    "incoming") *)
Definition collect_related (kg : kgdoc) (entity : json) (related : addr)
    (mine other direction : string) : prog unit :=
  let* rels := Kg.iter (Kg.get kg "relationships" (JArr [])) in
  for_each rels (fun rel =>
    let* end_id := lift (Py.getitem rel mine) in
    let* eid := lift (Py.getitem entity "id") in
    if Py.eqb end_id eid then
      let* found := next_entity kg rel other in
      if Py.truthy found then
        let* ty := lift (Py.getitem rel "type") in
        append related (related_item found ty direction)
      else ret tt
    else ret tt).

(** the sort key of line 143: [x['entity']['name']] *)
Definition neighbor_name (x : json) : result json :=
  let? e := Py.getitem x "entity" in
  Py.getitem e "name".

(** lines 144-148 *)
Definition print_related (item : json) : prog unit :=
  let* d := lift (Py.getitem item "direction") in
  let* ty := lift (Py.getitem item "relationship") in
  let* e := lift (Py.getitem item "entity") in
  let* n := lift (Py.getitem e "name") in
  let* e' := lift (Py.getitem item "entity") in
  let* t := lift (Py.getitem e' "type") in
  if Py.eqb d (JStr "outgoing") then
    print [Lit "  → "; Val ty; Lit " → "; Val n; Lit " ("; Val t; Lit ")"]
  else
    print [Lit "  ← "; Val ty; Lit " ← "; Val n; Lit " ("; Val t; Lit ")"].

(** lines 111-148, for one matched entity; returns the list [related] as
    it is printed *)
Definition related_of (kg : kgdoc) (entity : json) : prog (list json) :=
  let* n := lift (Py.getitem entity "name") in
  let* t := lift (Py.getitem entity "type") in
  print [Lit nl; Lit "Entities related to "; Val n; Lit " ("; Val t; Lit "):"] ;;
  print (rule 50) ;;
  let* related := alloc [] in
  collect_related kg entity related "source" "target" "outgoing" ;;
  collect_related kg entity related "target" "source" "incoming" ;;
  let* r := read related in
  match r with
  | [] => print [Lit "  No related entities found"] ;; ret r
  | _ =>
      sort_in_place related neighbor_name ;;
      let* items := read related in
      for_each items print_related ;;
      ret items
  end.

(** [find_related(kg, name)]; returns each matched entity with its list
    [related] *)
Definition find_related (kg : kgdoc) (name : string) : prog (list (json * list json)) :=
  scoped (
    let name := Str.lower name in
    let* entities := collect_by_name kg name in
    let* es := read entities in
    match es with
    | [] =>
        print [Lit "No entities found matching '"; Val (JStr name); Lit "'"] ;;
        ret []
    | _ =>
        for_fold es [] (fun acc entity =>
          let* r := related_of kg entity in
          ret (acc ++ [(entity, r)]))
    end).

(** lines 153-155 and 157-159: the set of the [type] fields *)
Definition collect_types (kg : kgdoc) (key : string) : prog addr :=
  let* types := alloc [] in
  let* xs := Kg.iter (Kg.get kg key (JArr [])) in
  for_each xs (fun x =>
    let* t := lift (Py.get x "type" (JStr "unknown")) in
    set_add types t) ;;
  ret types.

(** [sum(1 for x in kg.get(key, []) if x.get('type') == t)] *)
Fixpoint count_type (t : json) (xs : list json) : result nat :=
  match xs with
  | [] => Done O
  | x :: xs' =>
      let? ty := Py.get x "type" JNull in
      let? n := count_type t xs' in
      Done (if Py.eqb ty t then S n else n)
  end.

(** lines 163-165 and 169-171; [order] is the order in which this run
    iterates over a set; returns the printed (type, count) pairs *)
Definition print_types (order : list json -> list json) (kg : kgdoc)
    (types : addr) (key what : string) : prog (list (json * nat)) :=
  let* members := read types in
  let* ts := lift (sorted (order members)) in
  for_fold ts [] (fun acc t =>
    let* xs := Kg.iter (Kg.get kg key (JArr [])) in
    let* count := lift (count_type t xs) in
    print [Lit "  - "; Val t; Lit " ("; Val (JNum (Z.of_nat count)); Lit (" " +:+ what +:+ ")")] ;;
    ret (acc ++ [(t, count)])).

(** [list_types(kg)] *)
Definition list_types (order : list json -> list json) (kg : kgdoc)
    : prog (list (json * nat) * list (json * nat)) :=
  scoped (
    let* types := collect_types kg "entities" in
    let* rel_types := collect_types kg "relationships" in
    print [Lit nl; Lit "Entity Types:"] ;;
    print (rule 40) ;;
    let* ec := print_types order kg types "entities" "entities" in
    print [Lit nl; Lit "Relationship Types:"] ;;
    print (rule 40) ;;
    let* rc := print_types order kg rel_types "relationships" "relationships" in
    ret (ec, rc)).

(** [list_entities_by_type(kg, entity_type)]; returns the list [entities]
    as it is printed *)
Definition list_entities_by_type (kg : kgdoc) (entity_type : string) : prog (list json) :=
  scoped (
    let entity_type := Str.lower entity_type in
    let* entities := alloc [] in
    let* es := Kg.iter (Kg.get kg "entities" (JArr [])) in
    for_each es (fun entity =>
      let* t := lift (Py.get entity "type" (JStr EmptyString)) in
      let* low := lift (Py.lower t) in
      if String.eqb low entity_type then append entities entity else ret tt) ;;
    let* found := read entities in
    match found with
    | [] =>
        print [Lit "No entities found of type '"; Val (JStr entity_type); Lit "'"] ;;
        ret found
    | _ =>
        print [Lit nl; Lit "Entities of type '"; Val (JStr entity_type); Lit "':"] ;;
        print (rule 40) ;;
        sort_in_place entities (fun x => Py.get x "name" (JStr EmptyString)) ;;
        let* ordered := read entities in
        for_each ordered (fun entity =>
          let* source_file := lift (Py.get entity "source_file" (JStr "unknown")) in
          let* n := lift (Py.getitem entity "name") in
          print [Lit "  - "; Val n; Lit " (from "; Val source_file; Lit ")"]) ;;
        ret ordered
    end).

(** lines 204-209 *)
Definition search_entities (kg : kgdoc) (term : string) (results : addr) : prog unit :=
  let* es := Kg.iter (Kg.get kg "entities" (JArr [])) in
  for_each es (fun entity =>
    if Str.contains term (Str.lower (Dumps.dumps entity)) then
      append results (JObj [("type", JStr "entity"); ("data", entity)])
    else ret tt).

(** lines 212-224 *)
Definition search_relationships (kg : kgdoc) (term : string) (results : addr) : prog unit :=
  let* rels := Kg.iter (Kg.get kg "relationships" (JArr [])) in
  for_each rels (fun rel =>
    if Str.contains term (Str.lower (Dumps.dumps rel)) then
      let* source := next_entity kg rel "source" in
      let* target := next_entity kg rel "target" in
      if Py.truthy source && Py.truthy target then
        append results
          (JObj [("type", JStr "relationship"); ("data", rel);
                 ("source", source); ("target", target)])
      else ret tt
    else ret tt).

(** lines 240-241: the properties whose key or value contains the term *)
Definition matching_props (repr : json -> string) (term : string)
    (kvs : list (string * json)) : list (string * json) :=
  List.filter (fun kv =>
    Str.contains term (Str.lower (fst kv)) ||
    Str.contains term (Str.lower (Py.str repr (snd kv)))) kvs.

(** lines 233-253 *)
Definition print_result (repr : json -> string) (term : string) (result : json) : prog unit :=
  let* ty := lift (Py.getitem result "type") in
  if Py.eqb ty (JStr "entity") then
    let* entity := lift (Py.getitem result "data") in
    let* n := lift (Py.getitem entity "name") in
    let* t := lift (Py.getitem entity "type") in
    print [Lit nl; Lit "Entity: "; Val n; Lit " ("; Val t; Lit ")"] ;;
    let* sf := lift (Py.get entity "source_file" (JStr "unknown")) in
    print [Lit "  Source: "; Val sf] ;;
    let* props := lift (Py.get entity "properties" (JObj [])) in
    let* kvs := lift (Py.items props) in
    match matching_props repr term kvs with
    | [] => ret tt
    | shown =>
        print [Lit "  Matching properties:"] ;;
        for_each shown (fun kv =>
          print [Lit "    - "; Val (JStr (fst kv)); Lit ": "; Val (snd kv)])
    end
  else if Py.eqb ty (JStr "relationship") then
    let* rel := lift (Py.getitem result "data") in
    let* source := lift (Py.getitem result "source") in
    let* target := lift (Py.getitem result "target") in
    let* sn := lift (Py.getitem source "name") in
    let* rt := lift (Py.getitem rel "type") in
    let* tn := lift (Py.getitem target "name") in
    print [Lit nl; Lit "Relationship: "; Val sn; Lit " → "; Val rt; Lit " → "; Val tn] ;;
    let* sf := lift (Py.get rel "source_file" (JStr "unknown")) in
    print [Lit "  Source: "; Val sf] ;;
    let* c := lift (Py.get rel "confidence" (JStr "unknown")) in
    print [Lit "  Confidence: "; Val c]
  else ret tt.

(** [search(kg, term)]; returns the list [results] *)
Definition search (repr : json -> string) (kg : kgdoc) (term : string) : prog (list json) :=
  scoped (
    let term := Str.lower term in
    let* results := alloc [] in
    search_entities kg term results ;;
    search_relationships kg term results ;;
    print [Lit nl; Lit "Search results for '"; Val (JStr term); Lit "':"] ;;
    print (rule 40) ;;
    let* rs := read results in
    match rs with
    | [] => print [Lit "  No results found"] ;; ret rs
    | _ => for_each rs (print_result repr term) ;; ret rs
    end).

(** [set(x.get('type') for x in kg.get(key, []))] *)
Definition type_set (kg : kgdoc) (key : string) : prog addr :=
  let* xs := Kg.iter (Kg.get kg key (JArr [])) in
  let* types := alloc [] in
  for_each xs (fun x =>
    let* t := lift (Py.get x "type" JNull) in
    set_add types t) ;;
  ret types.

(** the numbers [show_info] prints *)
Record info : Type := {
  entity_count : nat;
  rel_count : nat;
  note_count : nat;
  entity_type_count : nat;
  rel_type_count : nat
}.

(** [show_info(kg)]; returns the five counts *)
Definition show_info (kg : kgdoc) : prog info :=
  scoped (
    let* entity_count := Kg.len (Kg.get kg "entities" (JArr [])) in
    let* rel_count := Kg.len (Kg.get kg "relationships" (JArr [])) in
    let* note_count := Kg.len (Kg.get kg "notes" (JObj [])) in
    let* entity_types := type_set kg "entities" in
    let* rel_types := type_set kg "relationships" in
    let metadata := Kg.get kg "metadata" (JObj []) in
    print [Lit nl; Lit "Knowledge Graph Statistics:"] ;;
    print (rule 40) ;;
    print [Lit "Entities: "; Val (JNum (Z.of_nat entity_count))] ;;
    print [Lit "Relationships: "; Val (JNum (Z.of_nat rel_count))] ;;
    print [Lit "Notes: "; Val (JNum (Z.of_nat note_count))] ;;
    let* ets := read entity_types in
    print [Lit "Entity types: "; Val (JNum (Z.of_nat (length ets)))] ;;
    let* rts := read rel_types in
    print [Lit "Relationship types: "; Val (JNum (Z.of_nat (length rts)))] ;;
    print [Lit nl; Lit "Metadata:"] ;;
    let* kvs := Kg.items metadata in
    for_each kvs (fun kv =>
      print [Lit "  - "; Val (JStr (fst kv)); Lit ": "; Val (snd kv)]) ;;
    ret {| entity_count := entity_count; rel_count := rel_count;
           note_count := note_count; entity_type_count := length ets;
           rel_type_count := length rts |}).

(** ** Documents in memory *)

(** running a query on a freshly loaded document *)
Definition query {A} (doc : list (string * json)) (q : kgdoc -> prog A) : outcome A :=
  match load_knowledge_graph doc [] with
  | Ok kg h _ => q kg h
  | Raise e h o => Raise e h o
  end.

(** [kg.get(key, [])] runs over the elements [l] in the heap [h] *)
Definition has_seq (kg : kgdoc) (h : heap) (key : string) (l : list json) : Prop :=
  match Py.assoc key kg with
  | Some (ListAt a) => h !! a = Some l
  | Some (Imm j) => Py.iter j = Done l
  | None => l = []
  end.

(** the value of a field, [None] (null) when it is missing *)
Definition field (k : string) (x : json) : json :=
  match Py.getitem x k with
  | Done v => v
  | Fail _ => JNull
  end.

(** the text of a string-valued field *)
Definition text (k : string) (x : json) : string :=
  match field k x with
  | JStr s => s
  | _ => EmptyString
  end.

(** the data model of the specification: an entity is a mapping with
    string [id], [name] and [type], a [source_file], a [confidence], and
    optional [properties] whose values are scalars or lists of strings; a
    relationship is a mapping with string [source], [target] and [type] *)
Definition is_strb (v : json) : bool :=
  match v with
  | JStr _ => true
  | _ => false
  end.

Definition has_str (d : list (string * json)) (k : string) : bool :=
  match Py.assoc k d with
  | Some (JStr _) => true
  | _ => false
  end.

Definition has_key (d : list (string * json)) (k : string) : bool :=
  match Py.assoc k d with
  | Some _ => true
  | None => false
  end.

Definition props_ok (d : list (string * json)) : bool :=
  match Py.assoc "properties" d with
  | None => true
  | Some (JObj kvs) =>
      forallb (fun kv =>
        match snd kv with
        | JArr l => forallb is_strb l
        | _ => true
        end) kvs
  | Some _ => false
  end.

Definition wf_entity (e : json) : bool :=
  match e with
  | JObj d =>
      has_str d "id" && has_str d "name" && has_str d "type" &&
      has_key d "source_file" && has_key d "confidence" && props_ok d
  | _ => false
  end.

Definition wf_rel (r : json) : bool :=
  match r with
  | JObj d => has_str d "source" && has_str d "target" && has_str d "type"
  | _ => false
  end.

(** [notes] is absent or has a length; [metadata] is absent or a mapping *)
Definition extras_ok (kg : kgdoc) : bool :=
  match Py.assoc "notes" kg with
  | None | Some (ListAt _) | Some (Imm (JObj _)) | Some (Imm (JArr _))
  | Some (Imm (JStr _)) => true
  | Some (Imm _) => false
  end &&
  match Py.assoc "metadata" kg with
  | None | Some (Imm (JObj _)) => true
  | Some _ => false
  end.

(** a well-formed document in memory, with its two sequences *)
Record loaded (kg : kgdoc) (h : heap) (ents rels : list json) : Prop := {
  ld_ents : has_seq kg h "entities" ents;
  ld_rels : has_seq kg h "relationships" rels;
  ld_wf_ents : forallb wf_entity ents = true;
  ld_wf_rels : forallb wf_rel rels = true
}.

(** ** Reasoning about runs *)

(** the heap a run ends with, whether it returns or raises *)
Definition final {A} (o : outcome A) : heap :=
  match o with
  | Ok _ h _ => h
  | Raise _ h _ => h
  end.

(** the lines a run prints *)
Definition printed {A} (o : outcome A) : list line :=
  match o with
  | Ok _ _ o => o
  | Raise _ _ o => o
  end.

(** [m] leaves the first [n] list objects as they are, creates objects
    only behind them, and returns values that satisfy [P] *)
Definition keeps (n : nat) {A} (m : prog A) (P : A -> Prop) : Prop :=
  forall h, (n <= length h)%nat ->
    take n (final (m h)) = take n h /\
    (length h <= length (final (m h)))%nat /\
    (forall a h' o, m h = Ok a h' o -> P a).

(** [m], run from [h], returns [a] and leaves the heap [h'] *)
Definition returns {A} (m : prog A) (h : heap) (a : A) (h' : heap) : Prop :=
  exists o, m h = Ok a h' o.

(** ** What the operations compute, on a well-formed document *)

(** the name of [e] contains the pattern, both in lower case *)
Definition name_matches (pat : string) (e : json) : bool :=
  Str.contains (Str.lower pat) (Str.lower (text "name" e)).

(** an endpoint of a relationship is [source] or [target] *)
Definition endpoint (k : string) : Prop := k = "source" \/ k = "target".

(** the first entity, in load order, whose id equals [i] *)
Definition resolve (ents : list json) (i : json) : option json :=
  List.find (fun e => Py.eqb (field "id" e) i) ents.

(** the triples one pass over the relationships appends for [e]: the
    relationships whose [mine] end is [e], with the entity at the [other]
    end when it resolves *)
Definition links (ents rels : list json) (e : json) (mine other direction : string)
    : list json :=
  flat_map (fun rel =>
    if Py.eqb (field mine rel) (field "id" e) then
      match resolve ents (field other rel) with
      | Some x => [related_item x (field "type" rel) direction]
      | None => []
      end
    else []) rels.

(** the list [related] before it is sorted *)
Definition collected (ents rels : list json) (e : json) : list json :=
  links ents rels e "source" "target" "outgoing" ++
  links ents rels e "target" "source" "incoming".

(** stable insertion sort on a string key *)
Fixpoint insert_str (f : json -> string) (x : json) (l : list json) : list json :=
  match l with
  | [] => [x]
  | y :: l' =>
      if Str.ltb (f y) (f x) then y :: insert_str f x l' else x :: y :: l'
  end.

Fixpoint sort_str (f : json -> string) (l : list json) : list json :=
  match l with
  | [] => []
  | x :: l' => insert_str f x (sort_str f l')
  end.

(** the name of the neighbor in a triple of [related] *)
Definition item_name (x : json) : string := text "name" (field "entity" x).

(** [a <= b] on names: not [b < a] *)
Definition name_le (a b : string) : Prop := Str.ltb b a = false.

(** the type of [e] is [ty], both in lower case *)
Definition type_matches (ty : string) (e : json) : bool :=
  String.eqb (Str.lower (text "type" e)) (Str.lower ty).

(** the serialized text of [x] contains the term, both in lower case *)
Definition mentions (term : string) (x : json) : bool :=
  Str.contains (Str.lower term) (Str.lower (Dumps.dumps x)).

(** the dicts appended to [results] (lines 206-209 and 219-224) *)
Definition entity_hit (e : json) : json :=
  JObj [("type", JStr "entity"); ("data", e)].

Definition rel_hit (rel source target : json) : json :=
  JObj [("type", JStr "relationship"); ("data", rel);
        ("source", source); ("target", target)].

(** the relationship results of a search *)
Definition rel_hits (ents rels : list json) (term : string) : list json :=
  flat_map (fun rel =>
    if mentions term rel then
      match resolve ents (field "source" rel), resolve ents (field "target" rel) with
      | Some s, Some t => [rel_hit rel s t]
      | _, _ => []
      end
    else []) rels.

(** the members of a set after adding the values [vs] in turn *)
Definition add_distinct (l : list json) (v : json) : list json :=
  if existsb (Py.eqb v) l then l else l ++ [v].

Definition distinct (vs : list json) : list json :=
  fold_left add_distinct vs [].

(** the text of a string value *)
Definition str_of (v : json) : string :=
  match v with
  | JStr s => s
  | _ => EmptyString
  end.

(** the number of members of [xs] whose type equals [t] *)
Definition count_of (t : json) (xs : list json) : nat :=
  length (List.filter (fun x => Py.eqb (field "type" x) t) xs).

(** [x.get('type', 'unknown')] *)
Definition type_or_unknown (x : json) : json :=
  match Py.get x "type" (JStr "unknown") with
  | Done t => t
  | Fail _ => JNull
  end.

(** the (type, count) pairs [list_types] prints for the sequence [xs]:
    the distinct types, an absent one read as "unknown", in sorted order *)
Definition type_counts (order : list json -> list json) (xs : list json)
    : list (json * nat) :=
  map (fun t => (t, count_of t xs))
    (sort_str str_of (order (distinct (map type_or_unknown xs)))).

(** the order in which a run iterates over a set is some arrangement of
    its members *)
Definition set_order (order : list json -> list json) : Prop :=
  forall l, Permutation (order l) l.

(** a mapping with a string [type] *)
Definition typed (x : json) : Prop :=
  exists d, x = JObj d /\ has_str d "type" = true.

(** [len(kg.get('notes', {}))] *)
Definition notes_len (kg : kgdoc) (h : heap) : nat :=
  match Kg.get kg "notes" (JObj []) with
  | ListAt a => length (default [] (h !! a))
  | Imm j =>
      match Py.len j with
      | Done n => n
      | Fail _ => O
      end
  end.

(** a relationship one of whose ends does not resolve *)
Definition dangling (ents : list json) (rel : json) : bool :=
  match resolve ents (field "source" rel), resolve ents (field "target" rel) with
  | Some _, Some _ => false
  | _, _ => true
  end.

(** [e] is the first entity in load order whose id equals [i] *)
Definition first_with_id (ents : list json) (i e : json) : Prop :=
  exists before after, ents = before ++ e :: after /\
    Py.eqb (field "id" e) i = true /\
    forall x, In x before -> Py.eqb (field "id" x) i = false.

(** ** Example documents *)

Module Example.

Definition ent (i n t : string) : json :=
  JObj [("id", JStr i); ("name", JStr n); ("type", JStr t);
        ("source_file", JStr "notes.md"); ("confidence", JNum 1)].

Definition rel (s t ty : string) : json :=
  JObj [("source", JStr s); ("target", JStr t); ("type", JStr ty)].

Definition alice : json := ent "e1" "Alice" "person".
Definition acme : json := ent "e2" "Acme" "organization".
Definition works_for : json := rel "e1" "e2" "works_for".

(** scenario A of the specification *)
Definition ents_a : list json := [alice; acme].
Definition rels_a : list json := [works_for].
Definition doc_a : list (string * json) :=
  [("entities", JArr ents_a); ("relationships", JArr rels_a)].

(** scenario C: a second relationship whose target does not exist *)
Definition dangles : json := rel "e1" "e9" "knows".
Definition rels_c : list json := [works_for; dangles].

(** two entities with the id "e1" *)
Definition alicia : json := ent "e1" "Alicia" "person".
Definition employs : json := rel "e2" "e1" "employs".
Definition ents_dup : list json := [alice; alicia; acme].
Definition rels_dup : list json := [employs].

(** where [json.load] puts the two sequences of a document *)
Definition kg2 : kgdoc := [("entities", ListAt 0%nat); ("relationships", ListAt 1%nat)].

End Example.

(** The reading of the specification for ties in [find_related]: the
    triples of [e] taken relationship by relationship, in the order of
    the relationship sequence, and stably sorted by neighbor name. *)
Definition in_relationship_order (ents rels : list json) (e : json) : list json :=
  flat_map (fun rel =>
    links ents [rel] e "source" "target" "outgoing" ++
    links ents [rel] e "target" "source" "incoming") rels.

Definition ties_by_relationship_order (ents rels : list json) (e : json) : list json :=
  sort_str item_name (in_relationship_order ents rels e).

Module Ties.

(** Alice and Bob, linked both ways: Bob manages Alice (first in the
    relationship sequence), Alice mentors Bob (second) *)
Definition alice : json := Example.ent "e1" "Alice" "person".
Definition bob : json := Example.ent "e2" "Bob" "person".
Definition manages : json := Example.rel "e2" "e1" "manages".
Definition mentors : json := Example.rel "e1" "e2" "mentors".
Definition ents : list json := [alice; bob].
Definition rels : list json := [manages; mentors].
Definition doc : list (string * json) :=
  [("entities", JArr ents); ("relationships", JArr rels)].

End Ties.

(** the lines [find_entity] prints under "Relationships:" for the entity
    [e] (lines 80-90): one for each relationship whose source is [e] and
    whose target resolves, or else whose target is [e] and whose source
    resolves *)
Definition relationship_lines (ents rels : list json) (e : json) : list line :=
  flat_map (fun rel =>
    if Py.eqb (field "source" rel) (field "id" e) then
      match resolve ents (field "target" rel) with
      | Some t =>
          [[Lit "  - "; Val (field "type" rel); Lit " → "; Val (field "name" t);
            Lit " ("; Val (field "type" t); Lit ")"]]
      | None => []
      end
    else if Py.eqb (field "target" rel) (field "id" e) then
      match resolve ents (field "source" rel) with
      | Some s =>
          [[Lit "  - "; Val (field "name" s); Lit " ("; Val (field "type" s);
            Lit ") → "; Val (field "type" rel)]]
      | None => []
      end
    else []) rels.

(** a character [json.dumps] writes as it is: printable ASCII other than
    the double quote and the backslash *)
Definition plain_char (c : ascii) : bool :=
  let n := N_of_ascii c in
  ((32 <=? n) && (n <=? 126) && negb (n =? 34) && negb (n =? 92))%N.

Fixpoint plain (s : string) : bool :=
  match s with
  | EmptyString => true
  | String c r => plain_char c && plain r
  end.

Module Accent.

(** an entity with a field whose name has a letter outside ASCII:
    "caf" followed by the code point 233 (e with acute accent) *)
Definition key : string := "caf" +:+ String (ascii_of_N 233) EmptyString.

Definition cafe : json :=
  JObj [("id", JStr "e1"); ("name", JStr "Corner"); ("type", JStr "place");
        ("source_file", JStr "notes.md"); ("confidence", JNum 1);
        (key, JNum 0)].

Definition ents : list json := [cafe].
Definition doc : list (string * json) :=
  [("entities", JArr ents); ("relationships", JArr [])].

End Accent.

Module Untyped.

(** a document whose one entity has no [type] field *)
Definition alice : json := JObj [("id", JStr "e1"); ("name", JStr "Alice")].
Definition ents : list json := [alice].
Definition doc : list (string * json) :=
  [("entities", JArr ents); ("relationships", JArr [])].

End Untyped.

(** the sum of the counts of a list of (type, count) pairs *)
Definition total (counts : list (json * nat)) : nat :=
  list_sum (map snd counts).

(** ** The command line (lines 36-47 and 280-348) *)

(** a query function called on the value [json.load] returned.  A value
    that is not a mapping has no [get]: each of the six functions raises
    [AttributeError] at its first [kg.get], before it prints anything *)
Definition call {A} (v : json) (q : kgdoc -> prog A) : prog unit :=
  match v with
  | JObj doc =>
      let* kg := load_knowledge_graph doc in
      let* _ := q kg in
      ret tt
  | _ => raise AttributeError
  end.

Module Main.

(** an exception of [open(file_path, 'r')] or [json.load(f)] that
    [load_knowledge_graph] does not catch: its [try] has handlers for
    [FileNotFoundError] and [json.JSONDecodeError] only (lines 42-47).
    [UnicodeDecodeError] is raised for a file whose bytes are not text in
    the encoding of the locale; [OtherOSError] is any [OSError] that is
    not one of the three named here nor [FileNotFoundError];
    [OtherException] is any remaining exception ([RecursionError] on a
    deeply nested document, [MemoryError]) *)
Inductive load_error : Type :=
| PermissionError
| IsADirectoryError
| NotADirectoryError
| OtherOSError
| UnicodeDecodeError
| OtherException.

(** what [open(file_path, 'r')] and [json.load(f)] do at the path:
    [open] raises [FileNotFoundError]; [json.load] raises
    [json.JSONDecodeError]; one of them raises another exception;
    [json.load] returns the value [v] *)
Inductive file : Type :=
| Missing
| Malformed
| Unreadable (e : load_error)
| Parsed (v : json).

(** how the process ends: [main] returns, [sys.exit(code)] is called, an
    exception of an operation is not caught, or an exception of the
    loading is not caught *)
Inductive ending : Type :=
| Returned
| SysExit (code : nat)
| Traceback (e : exn)
| LoadTraceback (e : load_error).

(** how [load_knowledge_graph] ends: it returns the parsed value, it
    prints a line and calls [sys.exit(1)], or an exception escapes it *)
Inductive loading : Type :=
| Loaded (v : json)
| Exits (ln : line)
| Escapes (e : load_error).

(** [__doc__], the text at the head of the module *)
Definition module_doc : string :=
  String.concat nl
    [EmptyString;
     "Knowledge Graph Query Tool";
     EmptyString;
     "A simple Python script for exploring the knowledge graph.";
     EmptyString;
     "Usage:";
     "  python query_kg.py [command] [args...]";
     EmptyString;
     "Commands:";
     "  find entity <name>          - Find and display an entity";
     "  find related <name>         - Show entities related to the specified one";
     "  list types                  - Show all entity types";
     "  list entities <type>        - List all entities of a specific type";
     "  search <term>               - Search across entities and relationships";
     "  info                        - Show knowledge graph statistics";
     "  help                        - Show this help message";
     EmptyString;
     "Examples:";
     "  python query_kg.py find entity Amplitude";
     "  python query_kg.py find related Spenser";
     "  python query_kg.py list types";
     "  python query_kg.py list entities person";
     "  python query_kg.py search pricing";
     "  python query_kg.py info";
     EmptyString].

(** [load_knowledge_graph(file_path)] (lines 38-47) *)
Definition load_knowledge_graph (f : file) (file_path : string) : loading :=
  match f with
  | Parsed v => Loaded v
  | Missing =>
      Exits [Lit "Error: Knowledge graph file '"; Val (JStr file_path);
             Lit "' not found"]
  | Malformed =>
      Exits [Lit "Error: Invalid JSON in knowledge graph file '";
             Val (JStr file_path); Lit "'"]
  | Unreadable e => Escapes e
  end.

(** lines 291-347: the commands, on the parsed arguments [command] and
    [args] *)
Definition dispatch (order : list json -> list json) (repr : json -> string)
    (v : json) (command : string) (args : list string) : prog unit :=
  if String.eqb command "find" then
    match args with
    | sub_command :: word :: words =>
        let name := String.concat " " (word :: words) in
        if String.eqb sub_command "entity" then call v (fun kg => find_entity kg name)
        else if String.eqb sub_command "related" then
          call v (fun kg => find_related kg name)
        else
          print [Lit "Error: Unknown sub-command '"; Val (JStr sub_command);
                 Lit "' for 'find'"] ;;
          print [Lit "Usage: find entity <name> or find related <name>"]
    | _ =>
        print [Lit "Error: 'find' command requires at least 2 arguments"] ;;
        print [Lit "Usage: find entity <name> or find related <name>"]
    end
  else if String.eqb command "list" then
    match args with
    | [] =>
        print [Lit "Error: 'list' command requires a sub-command"] ;;
        print [Lit "Usage: list types or list entities <type>"]
    | sub_command :: rest =>
        if String.eqb sub_command "types" then call v (fun kg => list_types order kg)
        else if String.eqb sub_command "entities" then
          match rest with
          | [] =>
              print [Lit "Error: 'list entities' requires an entity type"] ;;
              print [Lit "Usage: list entities <type>"]
          | entity_type :: _ =>
              call v (fun kg => list_entities_by_type kg entity_type)
          end
        else
          print [Lit "Error: Unknown sub-command '"; Val (JStr sub_command);
                 Lit "' for 'list'"] ;;
          print [Lit "Usage: list types or list entities <type>"]
    end
  else if String.eqb command "search" then
    match args with
    | [] =>
        print [Lit "Error: 'search' command requires a search term"] ;;
        print [Lit "Usage: search <term>"]
    | _ =>
        let term := String.concat " " args in
        call v (fun kg => search repr kg term)
    end
  else if String.eqb command "info" then call v (fun kg => show_info kg)
  else if String.eqb command "help" then print [Lit module_doc]
  else
    print [Lit "Error: Unknown command '"; Val (JStr command); Lit "'"] ;;
    print [Lit "Use 'help' to see available commands"].

(** [main()], after [argparse] has split the command line into
    [command], [args] and the path [kg_path] of [--kg]; the process
    starts with no list objects *)
Definition main (order : list json -> list json) (repr : json -> string)
    (f : file) (command : string) (args : list string) (kg_path : string)
    : list line * ending :=
  match load_knowledge_graph f kg_path with
  | Exits ln => ([ln], SysExit 1)
  | Escapes e => ([], LoadTraceback e)
  | Loaded v =>
      match dispatch order repr v command args [] with
      | Ok _ _ o => (o, Returned)
      | Raise e _ o => (o, Traceback e)
      end
  end.

End Main.

(** the sequence a document gives for [key]: empty when the key is absent *)
Definition doc_seq (doc : list (string * json)) (key : string) : result (list json) :=
  match Py.assoc key doc with
  | Some j => Py.iter j
  | None => Done []
  end.

(** a document that follows the data model *)
Definition wf_doc (doc : list (string * json)) : bool :=
  match doc_seq doc "entities" with
  | Done l => forallb wf_entity l
  | Fail _ => false
  end &&
  match doc_seq doc "relationships" with
  | Done l => forallb wf_rel l
  | Fail _ => false
  end &&
  match Py.assoc "notes" doc with
  | None | Some (JObj _) | Some (JArr _) | Some (JStr _) => true
  | Some _ => false
  end &&
  match Py.assoc "metadata" doc with
  | None | Some (JObj _) => true
  | Some _ => false
  end.

(** a relationship from [e] to [e] itself *)
Definition self_loop (e rel : json) : bool :=
  Py.eqb (field "source" rel) (field "id" e) &&
  Py.eqb (field "target" rel) (field "id" e).

(** a printable ASCII character: the only characters [json.dumps]
    (with [ensure_ascii]) writes *)
Definition printable_char (c : ascii) : bool :=
  let n := N_of_ascii c in ((32 <=? n) && (n <=? 126))%N.

Fixpoint printable (s : string) : bool :=
  match s with
  | EmptyString => true
  | String c r => printable_char c && printable r
  end.

(** the relationships [search] can report for a term: those that mention
    it and whose two ends resolve *)
Definition reportable (ents : list json) (term : string) (rel : json) : bool :=
  mentions term rel && negb (dangling ents rel).

(** an entity on which [entity.get('name', '').lower()] is defined: a
    mapping whose [name] is absent or a string *)
Definition nameable (e : json) : bool :=
  match e with
  | JObj d =>
      match Py.assoc "name" d with
      | None | Some (JStr _) => true
      | Some _ => false
      end
  | _ => false
  end.

(** a JSON object *)
Definition is_mapping (x : json) : bool :=
  match x with
  | JObj _ => true
  | _ => false
  end.

(** the [type] of [x] can be a member of a set: it is not a list and not
    a mapping *)
Definition type_hashable (x : json) : bool := Py.hashable (field "type" x).

(** a mapping whose field [k] is absent or a string *)
Definition str_or_absent (k : string) (e : json) : bool :=
  match e with
  | JObj d =>
      match Py.assoc k d with
      | None | Some (JStr _) => true
      | Some _ => false
      end
  | _ => false
  end.

(** a mapping without the key [k] *)
Definition lacks (k : string) (e : json) : bool :=
  match e with
  | JObj d =>
      match Py.assoc k d with
      | None => true
      | Some _ => false
      end
  | _ => false
  end.

(** the line [find_related] prints for one triple of [related]
    (lines 145-148) *)
Definition related_line (item : json) : line :=
  if Py.eqb (field "direction" item) (JStr "outgoing") then
    [Lit "  → "; Val (field "relationship" item); Lit " → ";
     Val (field "name" (field "entity" item)); Lit " (";
     Val (field "type" (field "entity" item)); Lit ")"]
  else
    [Lit "  ← "; Val (field "relationship" item); Lit " ← ";
     Val (field "name" (field "entity" item)); Lit " (";
     Val (field "type" (field "entity" item)); Lit ")"].

(** the lines [find_related] prints for one matched entity with its list
    [related] (lines 112-113 and 139-148) *)
Definition related_block (er : json * list json) : list line :=
  [Lit nl; Lit "Entities related to "; Val (field "name" (fst er)); Lit " (";
   Val (field "type" (fst er)); Lit "):"]
  :: rule 50
  :: match snd er with
     | [] => [[Lit "  No related entities found"]]
     | _ => map related_line (snd er)
     end.

(** [x.get(k, dflt)] on a mapping [x] *)
Definition field_or (k : string) (dflt : json) (x : json) : json :=
  match Py.get x k dflt with
  | Done v => v
  | Fail _ => JNull
  end.

(** a mapping whose [name] is a string *)
Definition named (e : json) : bool :=
  match e with
  | JObj d => has_str d "name"
  | _ => false
  end.

(** the line [list_entities_by_type] prints for an entity (lines 194-195) *)
Definition entity_line (e : json) : line :=
  [Lit "  - "; Val (field "name" e); Lit " (from ";
   Val (field_or "source_file" (JStr "unknown") e); Lit ")"].

(** the line [list_types] prints for a type and its count (lines 165
    and 171) *)
Definition type_line (what : string) (tn : json * nat) : line :=
  [Lit "  - "; Val (fst tn); Lit " ("; Val (JNum (Z.of_nat (snd tn)));
   Lit (" " +:+ what +:+ ")")].

(** a member that has a [type] *)
Definition has_type (x : json) : bool := negb (lacks "type" x).

(** the line [find_entity] prints for a property (lines 72-75): a list
    value is shown as its members joined with ", " *)
Definition property_line (kv : string * json) : line :=
  match snd kv with
  | JArr l =>
      [Lit "  - "; Val (JStr (fst kv)); Lit ": ";
       Val (JStr match Py.join ", " l with
                 | Done s => s
                 | Fail _ => EmptyString
                 end)]
  | v => [Lit "  - "; Val (JStr (fst kv)); Lit ": "; Val v]
  end.

(** [entity.get('properties', {}).items()] *)
Definition properties_of (e : json) : list (string * json) :=
  match field_or "properties" (JObj []) e with
  | JObj kvs => kvs
  | _ => []
  end.

(** the lines [find_entity] prints for one matched entity (lines 64-93) *)
Definition entity_block (ents rels : list json) (e : json) : list line :=
  [Lit nl; Val (field "name" e); Lit " ("; Val (field "type" e); Lit ")"]
  :: rule 40
  :: [Lit "ID: "; Val (field "id" e)]
  :: [Lit "Source: "; Val (field "source_file" e)]
  :: [Lit "Confidence: "; Val (field "confidence" e)]
  :: ([Lit nl; Lit "Properties:"] :: map property_line (properties_of e)) ++
     ([Lit nl; Lit "Relationships:"] :: relationship_lines ents rels e ++
      match relationship_lines ents rels e with
      | [] => [[Lit "  No relationships found"]]
      | _ => []
      end).

(** [kg.get('metadata', {}).items()] *)
Definition metadata_of (kg : kgdoc) : list (string * json) :=
  match Kg.get kg "metadata" (JObj []) with
  | Imm (JObj kvs) => kvs
  | _ => []
  end.

(** the lines [show_info] prints for the numbers [i] and the metadata
    [kvs] (lines 267-277) *)
Definition info_lines (i : info) (kvs : list (string * json)) : list line :=
  [Lit nl; Lit "Knowledge Graph Statistics:"]
  :: rule 40
  :: [Lit "Entities: "; Val (JNum (Z.of_nat (entity_count i)))]
  :: [Lit "Relationships: "; Val (JNum (Z.of_nat (rel_count i)))]
  :: [Lit "Notes: "; Val (JNum (Z.of_nat (note_count i)))]
  :: [Lit "Entity types: "; Val (JNum (Z.of_nat (entity_type_count i)))]
  :: [Lit "Relationship types: "; Val (JNum (Z.of_nat (rel_type_count i)))]
  :: [Lit nl; Lit "Metadata:"]
  :: map (fun kv => [Lit "  - "; Val (JStr (fst kv)); Lit ": "; Val (snd kv)]) kvs.

(** the lines [search] prints for one result (lines 234-253) *)
Definition result_block (repr : json -> string) (term : string) (x : json)
    : list line :=
  if Py.eqb (field "type" x) (JStr "entity") then
    let e := field "data" x in
    [Lit nl; Lit "Entity: "; Val (field "name" e); Lit " ("; Val (field "type" e);
     Lit ")"]
    :: [Lit "  Source: "; Val (field_or "source_file" (JStr "unknown") e)]
    :: match matching_props repr term (properties_of e) with
       | [] => []
       | shown =>
           [Lit "  Matching properties:"]
           :: map (fun kv => [Lit "    - "; Val (JStr (fst kv)); Lit ": ";
                              Val (snd kv)]) shown
       end
  else
    let rel := field "data" x in
    [[Lit nl; Lit "Relationship: "; Val (field "name" (field "source" x));
      Lit " → "; Val (field "type" rel); Lit " → ";
      Val (field "name" (field "target" x))];
     [Lit "  Source: "; Val (field_or "source_file" (JStr "unknown") rel)];
     [Lit "  Confidence: "; Val (field_or "confidence" (JStr "unknown") rel)]].

(** a mapping with the five keys [find_entity] prints with [entity[...]]
    (lines 64-68) *)
Definition shown_keys (e : json) : bool :=
  match e with
  | JObj d =>
      forallb (has_key d) ["name"; "type"; "id"; "source_file"; "confidence"]
  | _ => false
  end.

(** a property whose value is a list with a member that is not a string *)
Definition mixed_list (kv : string * json) : bool :=
  match snd kv with
  | JArr l => negb (forallb is_strb l)
  | _ => false
  end.

(** how the process ends when the operation [main] calls ends with [o] *)
Definition ended {A} (o : outcome A) : list line * Main.ending :=
  match o with
  | Ok _ _ out => (out, Main.Returned)
  | Raise e _ out => (out, Main.Traceback e)
  end.

(** * Properties *)

(** [json.dumps] on a small value *)
Example dumps_entity :
  Dumps.dumps (JObj [("id", JStr "e1"); ("n", JNum (-12)); ("l", JArr [JNull; JBool true])])
  = "{" +:+ Dumps.quote +:+ "id" +:+ Dumps.quote +:+ ": " +:+ Dumps.quote +:+ "e1" +:+ Dumps.quote
    +:+ ", " +:+ Dumps.quote +:+ "n" +:+ Dumps.quote +:+ ": -12, "
    +:+ Dumps.quote +:+ "l" +:+ Dumps.quote +:+ ": [null, true]}".
Proof. reflexivity. Qed.

(** ** Runs that touch only the list objects they create *)

Section Keeps.

Context (n : nat).

Lemma keeps_ret {A} (a : A) (P : A -> Prop) : P a -> keeps n (ret a) P.
Proof.
  intros Ha h Hh. cbn. repeat split; auto.
  intros a' h' o [= <- <- <-]. exact Ha.
Qed.

Lemma keeps_raise {A} (e : exn) (P : A -> Prop) : keeps n (raise e) P.
Proof. intros h Hh. cbn. repeat split; auto. intros ? ? ? [=]. Qed.

Lemma keeps_lift {A} (r : result A) : keeps n (lift r) (fun _ => True).
Proof. destruct r; [apply keeps_ret | apply keeps_raise]; auto. Qed.

Lemma keeps_print (ln : line) : keeps n (print ln) (fun _ => True).
Proof. intros h Hh. cbn. repeat split; auto. Qed.

Lemma keeps_read (a : addr) : keeps n (read a) (fun _ => True).
Proof. intros h Hh. cbn. repeat split; auto. Qed.

Lemma keeps_alloc (l : list json) : keeps n (alloc l) (fun a => (n <= a)%nat).
Proof.
  intros h Hh. cbn. repeat split.
  - by rewrite take_app_le.
  - rewrite length_app. lia.
  - intros a h' o [= <- <- <-]. exact Hh.
Qed.

Lemma keeps_append (a : addr) (v : json) :
  (n <= a)%nat -> keeps n (append a v) (fun _ => True).
Proof.
  intros Ha h Hh. unfold append, final. repeat split; auto.
  - by apply take_alter_ge.
  - by rewrite length_alter.
Qed.

Lemma keeps_store (a : addr) (l : list json) :
  (n <= a)%nat -> keeps n (store a l) (fun _ => True).
Proof.
  intros Ha h Hh. unfold store, final. repeat split; auto.
  - by apply take_insert_ge.
  - by rewrite length_insert.
Qed.

Lemma keeps_bind {A B} (m : prog A) (k : A -> prog B) (P : A -> Prop) (Q : B -> Prop) :
  keeps n m P -> (forall a, P a -> keeps n (k a) Q) -> keeps n (bind m k) Q.
Proof.
  intros Hm Hk h Hh. unfold bind.
  destruct (Hm h Hh) as (H1 & H2 & H3).
  destruct (m h) as [a h1 o1 | e h1 o1] eqn:Em; cbn in *.
  - specialize (Hk a (H3 _ _ _ eq_refl) h1 ltac:(lia)).
    destruct Hk as (K1 & K2 & K3).
    destruct (k a h1) as [b h2 o2 | e h2 o2] eqn:Ek; cbn in *.
    + repeat split; [congruence | lia |].
      intros b' h' o' [= <- <- <-]. eauto.
    + repeat split; [congruence | lia |]. intros ? ? ? [=].
  - repeat split; auto. intros ? ? ? [=].
Qed.

Lemma keeps_for_each {A} (l : list A) (body : A -> prog unit) :
  (forall x, keeps n (body x) (fun _ => True)) ->
  keeps n (for_each l body) (fun _ => True).
Proof.
  intros Hb. induction l as [| x l IH]; cbn.
  - by apply keeps_ret.
  - eapply keeps_bind; [apply Hb | intros _ _; exact IH].
Qed.

Lemma keeps_for_fold {A S} (l : list A) (acc : S) (body : S -> A -> prog S) :
  (forall s x, keeps n (body s x) (fun _ => True)) ->
  keeps n (for_fold l acc body) (fun _ => True).
Proof.
  intros Hb. revert acc. induction l as [| x l IH]; intros acc; cbn.
  - by apply keeps_ret.
  - eapply keeps_bind; [apply Hb | intros acc' _; apply IH].
Qed.

End Keeps.

(** a function body that keeps the objects of its caller ends with the
    heap it started from *)
Lemma scoped_restores {A} (m : prog A) (h : heap) :
  keeps (length h) m (fun _ => True) -> final (scoped m h) = h.
Proof.
  intros Hm. destruct (Hm h (le_n _)) as (H1 & H2 & _).
  unfold scoped. destruct (m h) as [a h1 o1 | e h1 o1]; cbn in *;
    rewrite H1; apply firstn_all.
Qed.

Ltac keeps_step :=
  lazymatch goal with
  | |- keeps _ (bind _ _) _ => eapply keeps_bind; [ | intros ? ? ]
  | |- keeps _ (ret _) _ => apply keeps_ret; try exact I; try assumption
  | |- keeps _ (raise _) _ => apply keeps_raise
  | |- keeps _ (lift _) _ => apply keeps_lift
  | |- keeps _ (print _) _ => apply keeps_print
  | |- keeps _ (read _) _ => apply keeps_read
  | |- keeps _ (alloc _) _ => apply keeps_alloc
  | |- keeps _ (append _ _) _ => apply keeps_append; assumption
  | |- keeps _ (store _ _) _ => apply keeps_store; assumption
  | |- keeps _ (for_each _ _) _ => apply keeps_for_each; intros ?
  | |- keeps _ (for_fold _ _ _) _ => apply keeps_for_fold; intros ? ?
  | |- keeps _ (if ?b then _ else _) _ => destruct b
  | |- keeps _ (match ?x with _ => _ end) _ => destruct x
  end.

Lemma keeps_kg_iter n v : keeps n (Kg.iter v) (fun _ => True).
Proof. destruct v; cbn; keeps_step. Qed.

Lemma keeps_kg_len n v : keeps n (Kg.len v) (fun _ => True).
Proof. destruct v; cbn; repeat keeps_step. Qed.

Lemma keeps_kg_items n v : keeps n (Kg.items v) (fun _ => True).
Proof. destruct v; cbn; keeps_step. Qed.

Lemma keeps_next_entity n kg rel endpoint :
  keeps n (next_entity kg rel endpoint) (fun _ => True).
Proof.
  unfold next_entity. eapply keeps_bind; [apply keeps_kg_iter |].
  intros; keeps_step.
Qed.

Lemma keeps_sort_in_place n a key :
  (n <= a)%nat -> keeps n (sort_in_place a key) (fun _ => True).
Proof. intros Ha. unfold sort_in_place. repeat keeps_step. Qed.

Lemma keeps_set_add n a v :
  (n <= a)%nat -> keeps n (set_add a v) (fun _ => True).
Proof. intros Ha. unfold set_add. repeat keeps_step. Qed.

Lemma keeps_collect_by_name n kg name :
  keeps n (collect_by_name kg name) (fun a => (n <= a)%nat).
Proof.
  unfold collect_by_name. keeps_step; [keeps_step |].
  keeps_step; [apply keeps_kg_iter |].
  repeat keeps_step.
Qed.

Lemma keeps_print_properties n entity :
  keeps n (print_properties entity) (fun _ => True).
Proof. unfold print_properties. repeat keeps_step. Qed.

Lemma keeps_print_relationships n kg entity :
  keeps n (print_relationships kg entity) (fun _ => True).
Proof.
  unfold print_relationships. keeps_step; [keeps_step |].
  keeps_step; [apply keeps_kg_iter |].
  keeps_step; [| repeat keeps_step].
  keeps_step. repeat (first [apply keeps_next_entity | keeps_step]).
Qed.

Lemma find_entity_restores kg name h : final (find_entity kg name h) = h.
Proof.
  unfold find_entity. apply scoped_restores.
  keeps_step; [apply keeps_collect_by_name |].
  repeat (first [apply keeps_print_properties
                | apply keeps_print_relationships | keeps_step]).
Qed.

Lemma keeps_collect_related n kg entity related mine other direction :
  (n <= related)%nat ->
  keeps n (collect_related kg entity related mine other direction) (fun _ => True).
Proof.
  intros Hr. unfold collect_related.
  keeps_step; [apply keeps_kg_iter |].
  repeat (first [apply keeps_next_entity | keeps_step]).
Qed.

Lemma keeps_print_related n item : keeps n (print_related item) (fun _ => True).
Proof. unfold print_related. repeat keeps_step. Qed.

Lemma keeps_related_of n kg entity :
  keeps n (related_of kg entity) (fun _ => True).
Proof.
  unfold related_of.
  do 4 (keeps_step; [keeps_step |]).
  keeps_step; [keeps_step |].
  keeps_step; [by apply keeps_collect_related |].
  keeps_step; [by apply keeps_collect_related |].
  repeat (first [apply keeps_print_related
                | apply keeps_sort_in_place; assumption | keeps_step]).
Qed.

Lemma find_related_restores kg name h : final (find_related kg name h) = h.
Proof.
  unfold find_related. apply scoped_restores.
  keeps_step; [apply keeps_collect_by_name |].
  repeat (first [apply keeps_related_of | keeps_step]).
Qed.

Lemma keeps_collect_types n kg key :
  keeps n (collect_types kg key) (fun a => (n <= a)%nat).
Proof.
  unfold collect_types. keeps_step; [keeps_step |].
  keeps_step; [apply keeps_kg_iter |].
  repeat (first [apply keeps_set_add; assumption | keeps_step]).
Qed.

Lemma keeps_print_types n order kg types key what :
  keeps n (print_types order kg types key what) (fun _ => True).
Proof.
  unfold print_types. repeat (first [apply keeps_kg_iter | keeps_step]).
Qed.

Lemma list_types_restores order kg h : final (list_types order kg h) = h.
Proof.
  unfold list_types. apply scoped_restores.
  keeps_step; [apply keeps_collect_types |].
  keeps_step; [apply keeps_collect_types |].
  repeat (first [apply keeps_print_types | keeps_step]).
Qed.

Lemma list_entities_by_type_restores kg entity_type h :
  final (list_entities_by_type kg entity_type h) = h.
Proof.
  unfold list_entities_by_type. apply scoped_restores.
  keeps_step; [keeps_step |].
  keeps_step; [apply keeps_kg_iter |].
  repeat (first [apply keeps_sort_in_place; assumption | keeps_step]).
Qed.

Lemma keeps_search_entities n kg term results :
  (n <= results)%nat -> keeps n (search_entities kg term results) (fun _ => True).
Proof.
  intros Hr. unfold search_entities.
  keeps_step; [apply keeps_kg_iter |]. repeat keeps_step.
Qed.

Lemma keeps_search_relationships n kg term results :
  (n <= results)%nat ->
  keeps n (search_relationships kg term results) (fun _ => True).
Proof.
  intros Hr. unfold search_relationships.
  keeps_step; [apply keeps_kg_iter |].
  repeat (first [apply keeps_next_entity | keeps_step]).
Qed.

Lemma keeps_print_result n repr term result :
  keeps n (print_result repr term result) (fun _ => True).
Proof. unfold print_result. repeat keeps_step. Qed.

Lemma search_restores repr kg term h : final (search repr kg term h) = h.
Proof.
  unfold search. apply scoped_restores.
  keeps_step; [keeps_step |].
  keeps_step; [by apply keeps_search_entities |].
  keeps_step; [by apply keeps_search_relationships |].
  repeat (first [apply keeps_print_result | keeps_step]).
Qed.

Lemma keeps_type_set n kg key :
  keeps n (type_set kg key) (fun a => (n <= a)%nat).
Proof.
  unfold type_set. keeps_step; [apply keeps_kg_iter |].
  keeps_step; [keeps_step |].
  repeat (first [apply keeps_set_add; assumption | keeps_step]).
Qed.

Lemma show_info_restores kg h : final (show_info kg h) = h.
Proof.
  unfold show_info. apply scoped_restores.
  do 3 (keeps_step; [apply keeps_kg_len |]).
  keeps_step; [apply keeps_type_set |].
  keeps_step; [apply keeps_type_set |].
  repeat (first [apply keeps_kg_items | keeps_step]).
Qed.

(** ** Runs that return *)

Lemma returns_ret {A} (a : A) h : returns (ret a) h a h.
Proof. by exists []. Qed.

Lemma returns_bind {A B} (m : prog A) (k : A -> prog B) h a h1 b h2 :
  returns m h a h1 -> returns (k a) h1 b h2 -> returns (bind m k) h b h2.
Proof.
  intros [o1 H1] [o2 H2]. exists (o1 ++ o2). unfold bind. by rewrite H1, H2.
Qed.

Lemma returns_lift {A} (r : result A) (a : A) h :
  r = Done a -> returns (lift r) h a h.
Proof. intros ->. by exists []. Qed.

Lemma returns_alloc l h : returns (alloc l) h (length h) (h ++ [l]).
Proof. by exists []. Qed.

Lemma returns_read a l h : h !! a = Some l -> returns (read a) h l h.
Proof. intros H. exists []. unfold read. by rewrite H. Qed.

Lemma returns_append a v h :
  returns (append a v) h tt (alter (fun l => l ++ [v]) a h).
Proof. by exists []. Qed.

Lemma returns_store a l h : returns (store a l) h tt (<[a := l]> h).
Proof. by exists []. Qed.

Lemma returns_print ln h : returns (print ln) h tt h.
Proof. by exists [ln]. Qed.

Lemma returns_for_each {A} (l : list A) (body : A -> prog unit) (H : list A -> heap) :
  (forall done x rest, l = done ++ x :: rest ->
     returns (body x) (H done) tt (H (done ++ [x]))) ->
  returns (for_each l body) (H []) tt (H l).
Proof.
  intros Hb.
  assert (G : forall rest done, l = done ++ rest ->
            returns (for_each rest body) (H done) tt (H l)).
  { induction rest as [| x rest IH]; intros done E; cbn.
    - rewrite app_nil_r in E. subst. apply returns_ret.
    - eapply returns_bind; [by eapply Hb |].
      apply IH. by rewrite <- app_assoc. }
  by apply (G l []).
Qed.

Lemma returns_for_fold {A S} (l : list A) (body : S -> A -> prog S)
    (St : list A -> S) (H : list A -> heap) :
  (forall done x rest, l = done ++ x :: rest ->
     returns (body (St done) x) (H done) (St (done ++ [x])) (H (done ++ [x]))) ->
  returns (for_fold l (St []) body) (H []) (St l) (H l).
Proof.
  intros Hb.
  assert (G : forall rest done, l = done ++ rest ->
            returns (for_fold rest (St done) body) (H done) (St l) (H l)).
  { induction rest as [| x rest IH]; intros done E; cbn.
    - rewrite app_nil_r in E. subst. apply returns_ret.
    - eapply returns_bind; [by eapply Hb |].
      apply IH. by rewrite <- app_assoc. }
  by apply (G l []).
Qed.

Lemma returns_scoped {A} (m : prog A) h a h1 :
  returns m h a h1 -> returns (scoped m) h a (take (length h) h1).
Proof. intros [o H]. exists o. unfold scoped. by rewrite H. Qed.

(** a run returns one value *)
Lemma returns_inj {A} (m : prog A) h a1 h1 a2 h2 :
  returns m h a1 h1 -> returns m h a2 h2 -> a1 = a2 /\ h1 = h2.
Proof. intros [o1 H1] [o2 H2]. rewrite H1 in H2. by injection H2. Qed.

(** ** The local list object of a block *)

Lemma lookup_local (h : list (list json)) l : (h ++ [l]) !! length h = Some l.
Proof. by apply list_lookup_middle. Qed.

Lemma alter_local (f : list json -> list json) (h : list (list json)) l :
  alter f (length h) (h ++ [l]) = h ++ [f l].
Proof.
  replace (length h) with (length h + 0)%nat by lia.
  by rewrite alter_app_r.
Qed.

Lemma insert_local (h : list (list json)) l l' :
  <[length h := l']> (h ++ [l]) = h ++ [l'].
Proof.
  replace (length h) with (length h + 0)%nat by lia.
  by rewrite insert_app_r.
Qed.

Lemma returns_read_local h l : returns (read (length h)) (h ++ [l]) l (h ++ [l]).
Proof. apply returns_read, lookup_local. Qed.

Lemma returns_append_local h l v :
  returns (append (length h) v) (h ++ [l]) tt (h ++ [l ++ [v]]).
Proof.
  pose proof (returns_append (length h) v (h ++ [l])) as H.
  by rewrite alter_local in H.
Qed.

Lemma returns_store_local h l l' :
  returns (store (length h) l') (h ++ [l]) tt (h ++ [l']).
Proof.
  pose proof (returns_store (length h) l' (h ++ [l])) as H.
  by rewrite insert_local in H.
Qed.

(** ** Reading the document *)

Lemma has_seq_app kg h k key l : has_seq kg h key l -> has_seq kg (h ++ k) key l.
Proof.
  unfold has_seq. destruct (Py.assoc key kg) as [[j | a] |]; auto.
  apply lookup_app_l_Some.
Qed.

Lemma returns_iter kg h key l :
  has_seq kg h key l -> returns (Kg.iter (Kg.get kg key (JArr []))) h l h.
Proof.
  unfold has_seq, Kg.get. destruct (Py.assoc key kg) as [[j | a] |]; cbn.
  - intros H. by apply returns_lift.
  - intros H. by apply returns_read.
  - intros ->. apply returns_ret.
Qed.

Lemma loaded_app kg h k ents rels : loaded kg h ents rels -> loaded kg (h ++ k) ents rels.
Proof. intros []. split; auto using has_seq_app. Qed.

(** ** Fields of well-formed entities and relationships *)

Lemma has_str_getitem d k :
  has_str d k = true -> Py.getitem (JObj d) k = Done (JStr (text k (JObj d))).
Proof.
  unfold has_str, text, field, Py.getitem.
  destruct (Py.assoc k d) as [[] |]; try discriminate. done.
Qed.

Lemma has_str_get d k dflt :
  has_str d k = true -> Py.get (JObj d) k dflt = Done (JStr (text k (JObj d))).
Proof.
  unfold has_str, text, field, Py.getitem, Py.get.
  destruct (Py.assoc k d) as [[] |]; try discriminate. done.
Qed.

Lemma has_str_field d k :
  has_str d k = true -> field k (JObj d) = JStr (text k (JObj d)).
Proof. intros H. unfold field at 1. by rewrite has_str_getitem. Qed.

Lemma has_key_getitem d k :
  has_key d k = true -> Py.getitem (JObj d) k = Done (field k (JObj d)).
Proof.
  unfold has_key, field, Py.getitem. by destruct (Py.assoc k d).
Qed.

Lemma has_key_get d k dflt :
  has_key d k = true -> Py.get (JObj d) k dflt = Done (field k (JObj d)).
Proof.
  unfold has_key, field, Py.getitem, Py.get. by destruct (Py.assoc k d).
Qed.

Lemma wf_entity_inv e :
  wf_entity e = true ->
  exists d, e = JObj d /\ has_str d "id" = true /\ has_str d "name" = true /\
    has_str d "type" = true /\ has_key d "source_file" = true /\
    has_key d "confidence" = true /\ props_ok d = true.
Proof.
  destruct e; try discriminate. cbn. intros H.
  repeat (apply andb_prop in H as [H ?]). eauto 10.
Qed.

Lemma wf_rel_inv r :
  wf_rel r = true ->
  exists d, r = JObj d /\ has_str d "source" = true /\ has_str d "target" = true /\
    has_str d "type" = true.
Proof.
  destruct r; try discriminate. cbn. intros H.
  repeat (apply andb_prop in H as [H ?]). eauto 10.
Qed.

Lemma wf_in {A} (f : A -> bool) (l : list A) x :
  forallb f l = true -> In x l -> f x = true.
Proof. intros H. by apply forallb_forall. Qed.

Lemma wf_middle {A} (f : A -> bool) (l done rest : list A) x :
  forallb f l = true -> l = done ++ x :: rest -> f x = true.
Proof. intros H ->. eapply wf_in; [exact H |]. apply in_elt. Qed.

Lemma wf_rel_endpoint r k :
  wf_rel r = true -> endpoint k ->
  Py.getitem r k = Done (field k r) /\ field k r = JStr (text k r).
Proof.
  intros (d & -> & Hs & Ht & _)%wf_rel_inv [-> | ->];
    (split; [| by apply has_str_field]); unfold field;
    by rewrite has_str_getitem.
Qed.

Lemma wf_rel_type r :
  wf_rel r = true -> Py.getitem r "type" = Done (field "type" r).
Proof.
  intros (d & -> & _ & _ & Ht)%wf_rel_inv. unfold field.
  by rewrite has_str_getitem.
Qed.

Lemma wf_entity_id e :
  wf_entity e = true -> Py.getitem e "id" = Done (field "id" e).
Proof.
  intros (d & -> & Hi & _)%wf_entity_inv. unfold field.
  by rewrite has_str_getitem.
Qed.

Lemma wf_entity_name e :
  wf_entity e = true -> Py.getitem e "name" = Done (JStr (text "name" e)).
Proof. intros (d & -> & _ & Hn & _)%wf_entity_inv. by apply has_str_getitem. Qed.

Lemma wf_entity_type e :
  wf_entity e = true -> Py.getitem e "type" = Done (JStr (text "type" e)).
Proof.
  intros (d & -> & _ & _ & Ht & _)%wf_entity_inv. by apply has_str_getitem.
Qed.

Lemma wf_entity_truthy e : wf_entity e = true -> Py.truthy e = true.
Proof.
  intros (d & -> & Hi & _)%wf_entity_inv. destruct d; [discriminate | done].
Qed.

(** ** Resolving an endpoint *)

Lemma resolve_in ents i e : resolve ents i = Some e -> In e ents.
Proof. intros H. by apply find_some in H as [? _]. Qed.

Lemma first_match_resolve ents rel k :
  forallb wf_entity ents = true -> wf_rel rel = true -> endpoint k ->
  first_match (same_id rel k) ents
  = Done (default JNull (resolve ents (field k rel))).
Proof.
  intros Hw Hr Hk. destruct (wf_rel_endpoint _ _ Hr Hk) as [Hg _].
  induction ents as [| e ents IH]; [done |].
  cbn in Hw. apply andb_prop in Hw as [He Hw].
  cbn. unfold same_id at 1. rewrite (wf_entity_id _ He), Hg. cbn.
  destruct (Py.eqb (field "id" e) (field k rel)); [done | by apply IH].
Qed.

Lemma returns_next_entity kg h ents rels rel k :
  loaded kg h ents rels -> wf_rel rel = true -> endpoint k ->
  returns (next_entity kg rel k) h (default JNull (resolve ents (field k rel))) h.
Proof.
  intros L Hr Hk. unfold next_entity.
  eapply returns_bind; [apply returns_iter, L |].
  apply returns_lift, first_match_resolve; auto. apply L.
Qed.

Lemma resolve_truthy ents i :
  forallb wf_entity ents = true ->
  Py.truthy (default JNull (resolve ents i))
  = match resolve ents i with Some _ => true | None => false end.
Proof.
  intros Hw. destruct (resolve ents i) as [e |] eqn:E; cbn; [| done].
  apply wf_entity_truthy. eapply wf_in; eauto using resolve_in.
Qed.

(** ** Collecting entities by name (lines 53-57, 101-104) *)

Lemma returns_collect_by_name kg h ents rels pat :
  loaded kg h ents rels ->
  returns (collect_by_name kg (Str.lower pat)) h (length h)
    (h ++ [List.filter (name_matches pat) ents]).
Proof.
  intros L. unfold collect_by_name.
  eapply returns_bind; [apply returns_alloc |].
  eapply returns_bind; [apply returns_iter, has_seq_app, L |].
  eapply returns_bind; [| apply returns_ret].
  apply (returns_for_each ents _
           (fun done => h ++ [List.filter (name_matches pat) done])).
  intros done x rest E.
  pose proof (wf_middle _ _ _ _ _ (ld_wf_ents _ _ _ _ L) E) as Hx.
  apply wf_entity_inv in Hx as (d & -> & _ & Hn & _).
  eapply returns_bind; [by apply returns_lift, has_str_get |].
  eapply returns_bind; [by apply returns_lift |].
  rewrite List.filter_app. cbn [List.filter]. unfold name_matches at 3.
  destruct (Str.contains _ _).
  - apply returns_append_local.
  - rewrite app_nil_r. apply returns_ret.
Qed.

(** ** Collecting the neighbors of an entity (lines 117-137) *)

Lemma links_snoc ents done rel e mine other direction :
  links ents (done ++ [rel]) e mine other direction
  = links ents done e mine other direction ++
    (if Py.eqb (field mine rel) (field "id" e) then
       match resolve ents (field other rel) with
       | Some x => [related_item x (field "type" rel) direction]
       | None => []
       end
     else []).
Proof. unfold links. rewrite flat_map_app. cbn. by rewrite app_nil_r. Qed.

Lemma returns_collect_related kg h ents rels entity cur mine other direction :
  loaded kg h ents rels -> wf_entity entity = true ->
  endpoint mine -> endpoint other ->
  returns (collect_related kg entity (length h) mine other direction)
    (h ++ [cur]) tt
    (h ++ [cur ++ links ents rels entity mine other direction]).
Proof.
  intros L He Hm Ho. unfold collect_related.
  eapply returns_bind; [apply returns_iter, has_seq_app, L |].
  pose proof (returns_for_each rels
    (fun rel =>
       let* end_id := lift (Py.getitem rel mine) in
       let* eid := lift (Py.getitem entity "id") in
       if Py.eqb end_id eid then
         let* found := next_entity kg rel other in
         if Py.truthy found then
           let* ty := lift (Py.getitem rel "type") in
           append (length h) (related_item found ty direction)
         else ret tt
       else ret tt)
    (fun done => h ++ [cur ++ links ents done entity mine other direction]))
    as G.
  cbn [links flat_map] in G. rewrite app_nil_r in G. apply G. clear G.
  intros done rel rest E.
  pose proof (wf_middle _ _ _ _ _ (ld_wf_rels _ _ _ _ L) E) as Hr.
  destruct (wf_rel_endpoint _ _ Hr Hm) as [Hg _].
  eapply returns_bind; [by apply returns_lift |].
  eapply returns_bind; [by apply returns_lift, wf_entity_id |].
  rewrite links_snoc.
  destruct (Py.eqb (field mine rel) (field "id" entity)).
  - eapply returns_bind;
      [eapply returns_next_entity; eauto using loaded_app |].
    rewrite resolve_truthy by apply L.
    destruct (resolve ents (field other rel)) as [x |]; cbn [default].
    + eapply returns_bind; [by apply returns_lift, wf_rel_type |].
      rewrite app_assoc. apply returns_append_local.
    + rewrite app_nil_r. apply returns_ret.
  - rewrite app_nil_r. apply returns_ret.
Qed.

(** ** The order on strings *)

Lemma ltb_irrefl a : Str.ltb a a = false.
Proof.
  induction a as [| x a IH]; cbn; [done |].
  by rewrite N.ltb_irrefl.
Qed.

Lemma ltb_trans a b c :
  Str.ltb a b = true -> Str.ltb b c = true -> Str.ltb a c = true.
Proof.
  revert b c. induction a as [| x a IH]; intros [| y b] [| z c]; cbn; try done.
  destruct (N.ltb_spec (N_of_ascii x) (N_of_ascii y)),
           (N.ltb_spec (N_of_ascii y) (N_of_ascii x)),
           (N.ltb_spec (N_of_ascii y) (N_of_ascii z)),
           (N.ltb_spec (N_of_ascii z) (N_of_ascii y)),
           (N.ltb_spec (N_of_ascii x) (N_of_ascii z)),
           (N.ltb_spec (N_of_ascii z) (N_of_ascii x));
    try done; try lia.
  apply IH.
Qed.

Lemma ltb_asym a b : Str.ltb a b = true -> Str.ltb b a = false.
Proof.
  intros H. destruct (Str.ltb b a) eqn:E; [| done].
  pose proof (ltb_trans _ _ _ H E) as C. by rewrite ltb_irrefl in C.
Qed.

Lemma ltb_connex a b : Str.ltb a b = false -> Str.ltb b a = false -> a = b.
Proof.
  revert b. induction a as [| x a IH]; intros [| y b]; cbn; try done.
  destruct (N.ltb_spec (N_of_ascii x) (N_of_ascii y)),
           (N.ltb_spec (N_of_ascii y) (N_of_ascii x)); try done; try lia.
  intros H1 H2. f_equal; [| by apply IH].
  rewrite <- (ascii_N_embedding x), <- (ascii_N_embedding y).
  f_equal. lia.
Qed.

Lemma name_le_trans a b c : name_le a b -> name_le b c -> name_le a c.
Proof.
  unfold name_le. intros Hab Hbc.
  destruct (Str.ltb c a) eqn:E; [| done].
  destruct (Str.ltb a b) eqn:E'.
  - pose proof (ltb_trans _ _ _ E E'). congruence.
  - pose proof (ltb_connex _ _ E' Hab). congruence.
Qed.

Lemma name_le_of_lt a b : Str.ltb a b = true -> name_le a b.
Proof. apply ltb_asym. Qed.

(** ** The stable sort *)

Section SortStr.

Context (f : json -> string).

Lemma insert_str_perm x l : Permutation (x :: l) (insert_str f x l).
Proof.
  induction l as [| y l IH]; cbn; [done |].
  destruct (Str.ltb (f y) (f x)); [| done].
  rewrite perm_swap. by constructor.
Qed.

Lemma sort_str_perm l : Permutation l (sort_str f l).
Proof.
  induction l as [| x l IH]; cbn; [done |].
  rewrite <- insert_str_perm. by constructor.
Qed.

Lemma insert_str_sorted x l :
  StronglySorted (fun a b => name_le (f a) (f b)) l ->
  StronglySorted (fun a b => name_le (f a) (f b)) (insert_str f x l).
Proof.
  induction 1 as [| y l Hs IH Hy]; cbn.
  - repeat constructor.
  - destruct (Str.ltb (f y) (f x)) eqn:E.
    + constructor; [done |].
      rewrite <- insert_str_perm. constructor; [| done].
      by apply name_le_of_lt.
    + constructor; [by constructor |].
      constructor; [exact E |].
      eapply Forall_impl; [exact Hy |]. cbn. intros z Hz.
      eapply name_le_trans; [exact E | exact Hz].
Qed.

Lemma sort_str_sorted l :
  StronglySorted (fun a b => name_le (f a) (f b)) (sort_str f l).
Proof.
  induction l as [| x l IH]; cbn; [constructor | by apply insert_str_sorted].
Qed.

Lemma insert_str_stable n x l :
  List.filter (fun y => String.eqb (f y) n) (insert_str f x l)
  = List.filter (fun y => String.eqb (f y) n) (x :: l).
Proof.
  induction l as [| y l IH]; [done |].
  cbn [insert_str]. destruct (Str.ltb (f y) (f x)) eqn:E; [| done].
  cbn [List.filter] in *. rewrite IH.
  destruct (String.eqb_spec (f y) n) as [Ey |]; [| done].
  destruct (String.eqb_spec (f x) n) as [Ex |]; [| done].
  rewrite Ey, Ex, ltb_irrefl in E. done.
Qed.

(** elements with equal keys keep the order they had *)
Lemma sort_str_stable n l :
  List.filter (fun y => String.eqb (f y) n) (sort_str f l)
  = List.filter (fun y => String.eqb (f y) n) l.
Proof.
  induction l as [| x l IH]; [done |].
  cbn [sort_str]. rewrite insert_str_stable. cbn. by rewrite IH.
Qed.

(** [Sort.by_key] on string keys *)
Lemma sort_insert_str x l :
  Sort.insert (JStr (f x)) x (map (fun y => (JStr (f y), y)) l)
  = Done (map (fun y => (JStr (f y), y)) (insert_str f x l)).
Proof.
  induction l as [| y l IH]; [done |].
  cbn. destruct (Str.ltb (f y) (f x)); cbn; [| done].
  fold (map (fun y => (JStr (f y), y)) l). by rewrite IH.
Qed.

Lemma sort_sort_str l :
  Sort.sort (map (fun y => (JStr (f y), y)) l)
  = Done (map (fun y => (JStr (f y), y)) (sort_str f l)).
Proof.
  induction l as [| x l IH]; [done |].
  cbn. fold (map (fun y => (JStr (f y), y)) l). rewrite IH. cbn.
  apply sort_insert_str.
Qed.

Lemma by_key_sort_str key l :
  (forall x, In x l -> key x = Done (JStr (f x))) ->
  Sort.by_key key l = Done (sort_str f l).
Proof.
  intros Hk. unfold Sort.by_key.
  assert (E : Sort.keyed key l = Done (map (fun y => (JStr (f y), y)) l)).
  { induction l as [| x l IH]; [done |].
    cbn. rewrite Hk by (by left). cbn. rewrite IH; [done |].
    intros y Hy. apply Hk. by right. }
  rewrite E. cbn. rewrite sort_sort_str. cbn.
  by rewrite map_map, map_id.
Qed.

End SortStr.

Lemma returns_final {A} (m : prog A) h a h1 : returns m h a h1 -> final (m h) = h1.
Proof. intros [o H]. by rewrite H. Qed.

(** ** [find_related] *)

Lemma links_item ents rels e mine other direction item :
  In item (links ents rels e mine other direction) ->
  exists rel x, In rel rels /\
    Py.eqb (field mine rel) (field "id" e) = true /\
    resolve ents (field other rel) = Some x /\
    item = related_item x (field "type" rel) direction.
Proof.
  unfold links. intros (rel & Hrel & H)%in_flat_map.
  destruct (Py.eqb _ _) eqn:E; [| done].
  destruct (resolve _ _) as [x |] eqn:R; [| done].
  destruct H as [<- | []]. eauto 10.
Qed.

Lemma collected_item ents rels e item :
  In item (collected ents rels e) ->
  exists x ty direction, In x ents /\ item = related_item x ty direction.
Proof.
  unfold collected. intros [H | H]%in_app_or;
    apply links_item in H as (rel & x & _ & _ & R & ->);
    eauto 10 using resolve_in.
Qed.

Lemma neighbor_name_item ents x ty direction :
  forallb wf_entity ents = true -> In x ents ->
  neighbor_name (related_item x ty direction)
  = Done (JStr (item_name (related_item x ty direction))).
Proof.
  intros Hw Hx. unfold neighbor_name, item_name. cbn.
  apply wf_entity_name. eapply wf_in; eauto.
Qed.

Lemma returns_print_related ents x ty direction h :
  forallb wf_entity ents = true -> In x ents ->
  returns (print_related (related_item x ty direction)) h tt h.
Proof.
  intros Hw Hx. pose proof (wf_in _ _ _ Hw Hx) as W.
  unfold print_related.
  do 3 (eapply returns_bind; [by apply returns_lift |]).
  eapply returns_bind; [by apply returns_lift, wf_entity_name |].
  eapply returns_bind; [by apply returns_lift |].
  eapply returns_bind; [by apply returns_lift, wf_entity_type |].
  destruct (Py.eqb _ _); apply returns_print.
Qed.

Lemma returns_related_of kg h ents rels entity :
  loaded kg h ents rels -> wf_entity entity = true ->
  returns (related_of kg entity) h
    (sort_str item_name (collected ents rels entity))
    (h ++ [sort_str item_name (collected ents rels entity)]).
Proof.
  intros L He. unfold related_of.
  eapply returns_bind; [by apply returns_lift, wf_entity_name |].
  eapply returns_bind; [by apply returns_lift, wf_entity_type |].
  do 2 (eapply returns_bind; [apply returns_print |]).
  eapply returns_bind; [apply returns_alloc |].
  eapply returns_bind;
    [eapply returns_collect_related; eauto; unfold endpoint; auto |].
  eapply returns_bind;
    [eapply returns_collect_related; eauto; unfold endpoint; auto |].
  cbn [app]. fold (collected ents rels entity).
  eapply returns_bind; [apply returns_read_local |].
  assert (Hk : forall item, In item (collected ents rels entity) ->
            neighbor_name item = Done (JStr (item_name item))).
  { intros item (x & ty & d & Hx & ->)%collected_item.
    eapply neighbor_name_item; eauto. apply L. }
  assert (Hp : forall item h', In item (collected ents rels entity) ->
            returns (print_related item) h' tt h').
  { intros item h' (x & ty & d & Hx & ->)%collected_item.
    eapply returns_print_related; eauto. apply L. }
  destruct (collected ents rels entity) as [| i0 items] eqn:E.
  - eapply returns_bind; [apply returns_print | apply returns_ret].
  - rewrite <- E in *. clear E.
    eapply returns_bind.
    { unfold sort_in_place.
      eapply returns_bind; [apply returns_read_local |].
      eapply returns_bind;
        [apply returns_lift, (by_key_sort_str item_name), Hk |].
      apply returns_store_local. }
    eapply returns_bind; [apply returns_read_local |].
    eapply returns_bind; [| apply returns_ret].
    apply (returns_for_each _ _
             (fun _ => h ++ [sort_str item_name (collected ents rels entity)])).
    intros done x rest Ex. apply Hp.
    eapply Permutation_in; [symmetry; apply sort_str_perm |].
    rewrite Ex. apply in_elt.
Qed.

Lemma returns_scoped_restored {A} (m : prog A) h a h1 :
  returns m h a h1 -> final (scoped m h) = h -> returns (scoped m) h a h.
Proof.
  intros H%returns_scoped F. rewrite (returns_final _ _ _ _ H) in F.
  by rewrite F in H.
Qed.

(** what [find_related] returns for the pattern [pat] *)
Lemma returns_find_related kg h ents rels pat :
  loaded kg h ents rels ->
  returns (find_related kg pat) h
    (map (fun e => (e, sort_str item_name (collected ents rels e)))
         (List.filter (name_matches pat) ents)) h.
Proof.
  intros L. unfold find_related. cbv zeta.
  set (ms := List.filter (name_matches pat) ents).
  apply (returns_scoped_restored _ _ _
    ((h ++ [ms]) ++ map (fun e => sort_str item_name (collected ents rels e)) ms));
    [| apply (find_related_restores kg pat h)].
  eapply returns_bind; [eapply returns_collect_by_name, L |].
  eapply returns_bind; [apply returns_read_local |].
  fold ms.
  assert (Hm : forall e, In e ms -> wf_entity e = true).
  { intros e [He _]%filter_In. eapply wf_in; eauto. apply L. }
  destruct ms as [| e0 es] eqn:E.
  - cbn [map]. rewrite app_nil_r.
    eapply returns_bind; [apply returns_print | apply returns_ret].
  - rewrite <- E in *. clear E e0 es.
    pose proof (returns_for_fold ms
      (fun acc entity => let* r := related_of kg entity in ret (acc ++ [(entity, r)]))
      (fun done => map (fun e => (e, sort_str item_name (collected ents rels e))) done)
      (fun done => (h ++ [ms]) ++
         map (fun e => sort_str item_name (collected ents rels e)) done)) as G.
    cbn [map] in G. rewrite app_nil_r in G. apply G. clear G.
    intros done x rest Ex.
    eapply returns_bind.
    { eapply returns_related_of; [rewrite <- app_assoc; eapply loaded_app, L |].
      apply Hm. rewrite Ex. apply in_elt. }
    rewrite !map_app. cbn [map]. rewrite <- app_assoc. cbn [app].
    rewrite app_assoc. apply returns_ret.
Qed.

(** ** Loops that only print *)

Lemma returns_for_each_quiet {A} (l : list A) (body : A -> prog unit) h :
  (forall x, In x l -> returns (body x) h tt h) ->
  returns (for_each l body) h tt h.
Proof.
  intros Hb. apply (returns_for_each l body (fun _ => h)).
  intros done x rest ->. apply Hb, in_elt.
Qed.

Lemma returns_for_fold_quiet {A S} (l : list A) (body : S -> A -> prog S) h :
  (forall s x, In x l -> exists s', returns (body s x) h s' h) ->
  forall s, exists s', returns (for_fold l s body) h s' h.
Proof.
  induction l as [| x l IH]; intros Hb s; cbn.
  - eexists. apply returns_ret.
  - destruct (Hb s x) as [s1 H1]; [by left |].
    destruct (IH (fun s y Hy => Hb s y (or_intror Hy)) s1) as [s2 H2].
    exists s2. eapply returns_bind; eauto.
Qed.

(** ** [find_entity] *)

Lemma join_strs sep l :
  forallb is_strb l = true -> exists s, Py.join sep l = Done s.
Proof.
  induction l as [| x l IH]; [by eexists |].
  destruct x as [| | | s0 | |]; try discriminate.
  cbn [forallb is_strb andb]. intros [r Hr]%IH.
  destruct l as [| y l]; [by eexists |].
  change (Py.join sep (JStr s0 :: y :: l))
    with (let? r := Py.join sep (y :: l) in Done (s0 +:+ sep +:+ r)).
  rewrite Hr. by eexists.
Qed.

Lemma props_ok_items d :
  props_ok d = true ->
  exists kvs, Py.get (JObj d) "properties" (JObj []) = Done (JObj kvs) /\
    forall kv, In kv kvs ->
      match snd kv with JArr l => forallb is_strb l = true | _ => True end.
Proof.
  unfold props_ok, Py.get.
  destruct (Py.assoc "properties" d) as [[| | | | | kvs] |]; try discriminate.
  - intros H. exists kvs. split; [done |]. intros kv Hkv.
    pose proof (wf_in _ _ _ H Hkv) as W. cbn in W. by destruct (snd kv).
  - intros _. exists []. split; [done |]. intros ? [].
Qed.

Lemma returns_print_properties e h :
  wf_entity e = true -> returns (print_properties e) h tt h.
Proof.
  intros (d & -> & _ & _ & _ & _ & _ & Hp)%wf_entity_inv.
  apply props_ok_items in Hp as (kvs & Hg & Hl).
  unfold print_properties.
  eapply returns_bind; [apply returns_print |].
  eapply returns_bind; [by apply returns_lift |].
  eapply returns_bind; [by apply returns_lift |].
  apply returns_for_each_quiet. intros kv Hkv. specialize (Hl kv Hkv).
  destruct (snd kv); try apply returns_print.
  destruct (join_strs ", " l Hl) as [s Hs].
  eapply returns_bind; [by apply returns_lift |]. apply returns_print.
Qed.

Lemma returns_print_relationships kg h ents rels e :
  loaded kg h ents rels -> wf_entity e = true ->
  returns (print_relationships kg e) h tt h.
Proof.
  intros L He. unfold print_relationships.
  eapply returns_bind; [apply returns_print |].
  eapply returns_bind; [apply returns_iter, L |].
  pose proof (ld_wf_ents _ _ _ _ L) as We.
  match goal with
  | |- returns (bind (for_fold _ _ ?body) _) _ _ _ =>
      assert (Hb : forall s x, In x rels -> exists s', returns (body s x) h s' h)
  end; cycle 1.
  { destruct (returns_for_fold_quiet _ _ _ Hb false) as [found Hf].
    eapply returns_bind; [exact Hf |].
    destruct found; [apply returns_ret | apply returns_print]. }
  intros s rel Hrel. cbv beta. pose proof (wf_in _ _ _ (ld_wf_rels _ _ _ _ L) Hrel) as Wr.
  destruct (wf_rel_endpoint rel "source" Wr) as [Hs _]; [by left |].
  destruct (wf_rel_endpoint rel "target" Wr) as [Ht _]; [by right |].
  assert (Hn : forall k (h' : list (list json)), endpoint k ->
            match resolve ents (field k rel) with
            | Some x => Py.getitem x "name" = Done (JStr (text "name" x)) /\
                        Py.getitem x "type" = Done (JStr (text "type" x))
            | None => True
            end).
  { intros k _ _. destruct (resolve ents (field k rel)) as [x |] eqn:R; [| done].
    pose proof (wf_in _ _ _ We (resolve_in _ _ _ R)).
    auto using wf_entity_name, wf_entity_type. }
  destruct (Py.eqb (field "source" rel) (field "id" e)) eqn:E1.
  - pose proof (Hn "target" h (or_intror eq_refl)) as Hx.
    destruct (resolve ents (field "target" rel)) as [x |] eqn:R.
    + exists true.
      eapply returns_bind; [by apply returns_lift |].
      eapply returns_bind; [by apply returns_lift, wf_entity_id |].
      rewrite E1.
      eapply returns_bind; [eapply returns_next_entity; eauto; by right |].
      rewrite resolve_truthy, R by done. cbn [default].
      eapply returns_bind; [by apply returns_lift, wf_rel_type |].
      eapply returns_bind; [apply returns_lift, Hx |].
      eapply returns_bind; [apply returns_lift, Hx |].
      eapply returns_bind; [apply returns_print | apply returns_ret].
    + exists s.
      eapply returns_bind; [by apply returns_lift |].
      eapply returns_bind; [by apply returns_lift, wf_entity_id |].
      rewrite E1.
      eapply returns_bind; [eapply returns_next_entity; eauto; by right |].
      rewrite resolve_truthy, R by done. apply returns_ret.
  - destruct (Py.eqb (field "target" rel) (field "id" e)) eqn:E2.
    + pose proof (Hn "source" h (or_introl eq_refl)) as Hx.
      destruct (resolve ents (field "source" rel)) as [x |] eqn:R.
      * exists true.
        eapply returns_bind; [by apply returns_lift |].
        eapply returns_bind; [by apply returns_lift, wf_entity_id |].
        rewrite E1.
        eapply returns_bind; [by apply returns_lift |].
        eapply returns_bind; [by apply returns_lift, wf_entity_id |].
        rewrite E2.
        eapply returns_bind; [eapply returns_next_entity; eauto; by left |].
        rewrite resolve_truthy, R by done. cbn [default].
        eapply returns_bind; [apply returns_lift, Hx |].
        eapply returns_bind; [apply returns_lift, Hx |].
        eapply returns_bind; [by apply returns_lift, wf_rel_type |].
        eapply returns_bind; [apply returns_print | apply returns_ret].
      * exists s.
        eapply returns_bind; [by apply returns_lift |].
        eapply returns_bind; [by apply returns_lift, wf_entity_id |].
        rewrite E1.
        eapply returns_bind; [by apply returns_lift |].
        eapply returns_bind; [by apply returns_lift, wf_entity_id |].
        rewrite E2.
        eapply returns_bind; [eapply returns_next_entity; eauto; by left |].
        rewrite resolve_truthy, R by done. apply returns_ret.
    + exists s.
      eapply returns_bind; [by apply returns_lift |].
      eapply returns_bind; [by apply returns_lift, wf_entity_id |].
      rewrite E1.
      eapply returns_bind; [by apply returns_lift |].
      eapply returns_bind; [by apply returns_lift, wf_entity_id |].
      rewrite E2. apply returns_ret.
Qed.

(** what [find_entity] returns for the pattern [pat] *)
Lemma returns_find_entity kg h ents rels pat :
  loaded kg h ents rels ->
  returns (find_entity kg pat) h (List.filter (name_matches pat) ents) h.
Proof.
  intros L. unfold find_entity. cbv zeta.
  set (ms := List.filter (name_matches pat) ents).
  apply (returns_scoped_restored _ _ _ (h ++ [ms]));
    [| apply (find_entity_restores kg pat h)].
  eapply returns_bind; [eapply returns_collect_by_name, L |].
  eapply returns_bind; [apply returns_read_local |].
  fold ms.
  assert (Hm : forall e, In e ms -> wf_entity e = true).
  { intros e [He _]%filter_In. eapply wf_in; eauto. apply L. }
  destruct ms as [| e0 es] eqn:E.
  - eapply returns_bind; [apply returns_print | apply returns_ret].
  - rewrite <- E in *. clear E e0 es.
    eapply returns_bind; [| apply returns_ret].
    apply returns_for_each_quiet. intros e He.
    pose proof (Hm e He) as W.
    pose proof W as (d & -> & _ & _ & _ & Hsf & Hc & _)%wf_entity_inv.
    eapply returns_bind; [by apply returns_lift, wf_entity_name |].
    eapply returns_bind; [by apply returns_lift, wf_entity_type |].
    do 2 (eapply returns_bind; [apply returns_print |]).
    eapply returns_bind; [by apply returns_lift, wf_entity_id |].
    eapply returns_bind; [apply returns_print |].
    eapply returns_bind; [by apply returns_lift, has_key_getitem |].
    eapply returns_bind; [apply returns_print |].
    eapply returns_bind; [by apply returns_lift, has_key_getitem |].
    eapply returns_bind; [apply returns_print |].
    eapply returns_bind; [by apply returns_print_properties |].
    eapply returns_print_relationships; eauto using loaded_app.
Qed.

(** ** [list_entities_by_type] *)

Lemma returns_list_entities_by_type kg h ents rels ty :
  loaded kg h ents rels ->
  returns (list_entities_by_type kg ty) h
    (sort_str (text "name") (List.filter (type_matches ty) ents)) h.
Proof.
  intros L. unfold list_entities_by_type. cbv zeta.
  set (ms := List.filter (type_matches ty) ents).
  apply (returns_scoped_restored _ _ _ (h ++ [sort_str (text "name") ms]));
    [| apply (list_entities_by_type_restores kg ty h)].
  eapply returns_bind; [apply returns_alloc |].
  eapply returns_bind; [apply returns_iter, has_seq_app, L |].
  eapply returns_bind.
  { apply (returns_for_each ents _
             (fun done => h ++ [List.filter (type_matches ty) done])).
    intros done x rest E.
    pose proof (wf_middle _ _ _ _ _ (ld_wf_ents _ _ _ _ L) E) as Hx.
    apply wf_entity_inv in Hx as (d & -> & _ & _ & Ht & _).
    eapply returns_bind; [by apply returns_lift, has_str_get |].
    eapply returns_bind; [by apply returns_lift |].
    rewrite List.filter_app. cbn [List.filter]. unfold type_matches at 3.
    destruct (String.eqb _ _).
    - apply returns_append_local.
    - rewrite app_nil_r. apply returns_ret. }
  eapply returns_bind; [apply returns_read_local |].
  fold ms.
  assert (Hm : forall e, In e ms -> wf_entity e = true).
  { intros e [He _]%filter_In. eapply wf_in; eauto. apply L. }
  destruct ms as [| e0 es] eqn:E.
  - eapply returns_bind; [apply returns_print | apply returns_ret].
  - rewrite <- E in *. clear E e0 es.
    do 2 (eapply returns_bind; [apply returns_print |]).
    eapply returns_bind.
    { unfold sort_in_place.
      eapply returns_bind; [apply returns_read_local |].
      eapply returns_bind; [| apply returns_store_local].
      apply returns_lift, (by_key_sort_str (text "name")).
      intros x (d & -> & _ & Hn & _)%Hm%wf_entity_inv.
      by apply has_str_get. }
    eapply returns_bind; [apply returns_read_local |].
    eapply returns_bind; [| apply returns_ret].
    apply returns_for_each_quiet. intros x Hx.
    assert (W : wf_entity x = true).
    { apply Hm. eapply Permutation_in; [symmetry; apply sort_str_perm | done]. }
    pose proof W as (d & -> & _ & _ & _ & Hsf & _)%wf_entity_inv.
    eapply returns_bind; [by apply returns_lift, has_key_get |].
    eapply returns_bind; [by apply returns_lift, wf_entity_name |].
    apply returns_print.
Qed.

(** ** [search] *)

Lemma rel_hits_snoc ents done rel term :
  rel_hits ents (done ++ [rel]) term
  = rel_hits ents done term ++
    (if mentions term rel then
       match resolve ents (field "source" rel), resolve ents (field "target" rel) with
       | Some s, Some t => [rel_hit rel s t]
       | _, _ => []
       end
     else []).
Proof. unfold rel_hits. rewrite flat_map_app. cbn. by rewrite app_nil_r. Qed.

Lemma returns_search_entities kg h ents rels term cur :
  loaded kg h ents rels ->
  returns (search_entities kg (Str.lower term) (length h)) (h ++ [cur]) tt
    (h ++ [cur ++ map entity_hit (List.filter (mentions term) ents)]).
Proof.
  intros L. unfold search_entities.
  eapply returns_bind; [apply returns_iter, has_seq_app, L |].
  pose proof (returns_for_each ents
    (fun entity =>
       if Str.contains (Str.lower term) (Str.lower (Dumps.dumps entity)) then
         append (length h) (JObj [("type", JStr "entity"); ("data", entity)])
       else ret tt)
    (fun done => h ++ [cur ++ map entity_hit (List.filter (mentions term) done)]))
    as G.
  cbn [List.filter map] in G. rewrite app_nil_r in G. apply G. clear G.
  intros done x rest E.
  rewrite List.filter_app, map_app. cbn [List.filter]. unfold mentions at 3.
  destruct (Str.contains _ _); cbn [map].
  - rewrite app_assoc. apply returns_append_local.
  - rewrite app_nil_r. apply returns_ret.
Qed.

Lemma returns_search_relationships kg h ents rels term cur :
  loaded kg h ents rels ->
  returns (search_relationships kg (Str.lower term) (length h)) (h ++ [cur]) tt
    (h ++ [cur ++ rel_hits ents rels term]).
Proof.
  intros L. unfold search_relationships.
  eapply returns_bind; [apply returns_iter, has_seq_app, L |].
  pose proof (returns_for_each rels
    (fun rel =>
       if Str.contains (Str.lower term) (Str.lower (Dumps.dumps rel)) then
         let* source := next_entity kg rel "source" in
         let* target := next_entity kg rel "target" in
         if Py.truthy source && Py.truthy target then
           append (length h)
             (JObj [("type", JStr "relationship"); ("data", rel);
                    ("source", source); ("target", target)])
         else ret tt
       else ret tt)
    (fun done => h ++ [cur ++ rel_hits ents done term])) as G.
  cbn [rel_hits flat_map] in G. rewrite app_nil_r in G. apply G. clear G.
  intros done rel rest E.
  pose proof (wf_middle _ _ _ _ _ (ld_wf_rels _ _ _ _ L) E) as Hr.
  rewrite rel_hits_snoc. unfold mentions.
  destruct (Str.contains _ _).
  - eapply returns_bind;
      [eapply returns_next_entity; eauto using loaded_app; by left |].
    eapply returns_bind;
      [eapply returns_next_entity; eauto using loaded_app; by right |].
    rewrite !resolve_truthy by apply L.
    destruct (resolve ents (field "source" rel)) as [s |],
             (resolve ents (field "target" rel)) as [t |]; cbn [default andb];
      try (rewrite app_nil_r; apply returns_ret).
    rewrite app_assoc. apply returns_append_local.
  - rewrite app_nil_r. apply returns_ret.
Qed.

Lemma get_obj d k dflt : exists v, Py.get (JObj d) k dflt = Done v.
Proof. unfold Py.get. destruct (Py.assoc k d); eauto. Qed.

Lemma returns_print_entity_hit repr term e h :
  wf_entity e = true -> returns (print_result repr term (entity_hit e)) h tt h.
Proof.
  intros W. pose proof W as (d & -> & _ & _ & _ & Hsf & _ & Hp)%wf_entity_inv.
  apply props_ok_items in Hp as (kvs & Hg & _).
  unfold print_result.
  eapply returns_bind; [by apply returns_lift |].
  change (Py.eqb (JStr "entity") (JStr "entity")) with true. cbv iota.
  eapply returns_bind; [by apply returns_lift |].
  eapply returns_bind; [by apply returns_lift, wf_entity_name |].
  eapply returns_bind; [by apply returns_lift, wf_entity_type |].
  eapply returns_bind; [apply returns_print |].
  eapply returns_bind; [by apply returns_lift, has_key_get |].
  eapply returns_bind; [apply returns_print |].
  eapply returns_bind; [by apply returns_lift |].
  eapply returns_bind; [by apply returns_lift |].
  destruct (matching_props repr term kvs); [apply returns_ret |].
  eapply returns_bind; [apply returns_print |].
  apply returns_for_each_quiet. intros; apply returns_print.
Qed.

Lemma returns_print_rel_hit repr term rel s t h :
  wf_rel rel = true -> wf_entity s = true -> wf_entity t = true ->
  returns (print_result repr term (rel_hit rel s t)) h tt h.
Proof.
  intros Wr Ws Wt. pose proof (wf_rel_type _ Wr) as Hty.
  pose proof Wr as (d & -> & _)%wf_rel_inv.
  destruct (get_obj d "source_file" (JStr "unknown")) as [sf Hsf].
  destruct (get_obj d "confidence" (JStr "unknown")) as [c Hc].
  unfold print_result.
  eapply returns_bind; [by apply returns_lift |].
  change (Py.eqb (JStr "relationship") (JStr "entity")) with false.
  change (Py.eqb (JStr "relationship") (JStr "relationship")) with true.
  cbv iota.
  do 3 (eapply returns_bind; [by apply returns_lift |]).
  eapply returns_bind; [by apply returns_lift, wf_entity_name |].
  eapply returns_bind; [by apply returns_lift |].
  eapply returns_bind; [by apply returns_lift, wf_entity_name |].
  eapply returns_bind; [apply returns_print |].
  eapply returns_bind; [by apply returns_lift |].
  eapply returns_bind; [apply returns_print |].
  eapply returns_bind; [by apply returns_lift |].
  apply returns_print.
Qed.

Lemma rel_hits_item ents rels term x :
  In x (rel_hits ents rels term) ->
  exists rel s t, In rel rels /\ mentions term rel = true /\
    resolve ents (field "source" rel) = Some s /\
    resolve ents (field "target" rel) = Some t /\ x = rel_hit rel s t.
Proof.
  unfold rel_hits. intros (rel & Hrel & H)%in_flat_map.
  destruct (mentions term rel) eqn:M; [| done].
  destruct (resolve ents (field "source" rel)) as [s |] eqn:Rs; [| done].
  destruct (resolve ents (field "target" rel)) as [t |] eqn:Rt; [| done].
  destruct H as [<- | []]. eauto 10.
Qed.

(** what [search] returns for [term] *)
Lemma returns_search repr kg h ents rels term :
  loaded kg h ents rels ->
  returns (search repr kg term) h
    (map entity_hit (List.filter (mentions term) ents) ++ rel_hits ents rels term) h.
Proof.
  intros L. unfold search. cbv zeta.
  set (rs := map entity_hit _ ++ _).
  apply (returns_scoped_restored _ _ _ (h ++ [rs]));
    [| apply (search_restores repr kg term h)].
  eapply returns_bind; [apply returns_alloc |].
  eapply returns_bind; [by eapply returns_search_entities |].
  eapply returns_bind; [by eapply returns_search_relationships |].
  cbn [app]. fold rs.
  do 2 (eapply returns_bind; [apply returns_print |]).
  eapply returns_bind; [apply returns_read_local |].
  assert (Hp : forall x, In x rs -> returns (print_result repr (Str.lower term) x)
                                      (h ++ [rs]) tt (h ++ [rs])).
  { intros x [H | H]%in_app_or.
    - apply in_map_iff in H as (e & <- & [He _]%filter_In).
      apply returns_print_entity_hit. eapply wf_in; eauto. apply L.
    - apply rel_hits_item in H as (rel & s & t & Hrel & _ & Rs & Rt & ->).
      apply returns_print_rel_hit.
      + eapply wf_in; eauto. apply L.
      + eapply wf_in; eauto using resolve_in. apply L.
      + eapply wf_in; eauto using resolve_in. apply L. }
  destruct rs as [| r0 rs'] eqn:E.
  - eapply returns_bind; [apply returns_print | apply returns_ret].
  - rewrite <- E in *.
    eapply returns_bind; [| apply returns_ret].
    by apply returns_for_each_quiet.
Qed.

(** ** Sets of types *)

Lemma wf_entity_typed e : wf_entity e = true -> typed e.
Proof. intros (d & -> & _ & _ & Ht & _)%wf_entity_inv. by exists d. Qed.

Lemma wf_rel_typed r : wf_rel r = true -> typed r.
Proof. intros (d & -> & _ & _ & Ht)%wf_rel_inv. by exists d. Qed.

Lemma typed_get x dflt : typed x -> Py.get x "type" dflt = Done (JStr (text "type" x)).
Proof. intros (d & -> & H). by apply has_str_get. Qed.

Lemma typed_field x : typed x -> field "type" x = JStr (text "type" x).
Proof. intros (d & -> & H). by apply has_str_field. Qed.

Lemma typed_or_unknown x : typed x -> type_or_unknown x = JStr (text "type" x).
Proof. intros H. unfold type_or_unknown. by rewrite typed_get. Qed.

Lemma distinct_snoc vs v : distinct (vs ++ [v]) = add_distinct (distinct vs) v.
Proof. unfold distinct. by rewrite fold_left_app. Qed.

Lemma add_distinct_in l v x : In x (add_distinct l v) -> In x l \/ x = v.
Proof.
  unfold add_distinct. destruct (existsb _ _); [by left |].
  intros [H | [<- | []]]%in_app_or; auto.
Qed.

Lemma distinct_in vs x : In x (distinct vs) -> In x vs.
Proof.
  induction vs as [| v vs IH] using rev_ind; [done |].
  rewrite distinct_snoc. intros [H | ->]%add_distinct_in; apply in_or_app.
  - left. by apply IH.
  - right. by left.
Qed.

Lemma returns_set_add_local h l v :
  Py.hashable v = true ->
  returns (set_add (length h) v) (h ++ [l]) tt (h ++ [add_distinct l v]).
Proof.
  intros Hv. unfold set_add, add_distinct. rewrite Hv.
  eapply returns_bind; [apply returns_read_local |].
  destruct (existsb _ _); [apply returns_ret | apply returns_append_local].
Qed.

Lemma returns_collect_types kg h key xs :
  has_seq kg h key xs -> (forall x, In x xs -> typed x) ->
  returns (collect_types kg key) h (length h)
    (h ++ [distinct (map type_or_unknown xs)]).
Proof.
  intros Hs Ht. unfold collect_types.
  eapply returns_bind; [apply returns_alloc |].
  eapply returns_bind; [by apply returns_iter, has_seq_app |].
  eapply returns_bind; [| apply returns_ret].
  apply (returns_for_each xs _
           (fun done => h ++ [distinct (map type_or_unknown done)])).
  intros done x rest E.
  assert (Hx : typed x) by (apply Ht; rewrite E; apply in_elt).
  eapply returns_bind; [by apply returns_lift, typed_get |].
  rewrite map_app. cbn [map]. rewrite distinct_snoc, typed_or_unknown by done.
  by apply returns_set_add_local.
Qed.

Lemma returns_type_set kg h key xs :
  has_seq kg h key xs -> (forall x, In x xs -> typed x) ->
  returns (type_set kg key) h (length h)
    (h ++ [distinct (map (field "type") xs)]).
Proof.
  intros Hs Ht. unfold type_set.
  eapply returns_bind; [by apply returns_iter |].
  eapply returns_bind; [apply returns_alloc |].
  eapply returns_bind; [| apply returns_ret].
  apply (returns_for_each xs _
           (fun done => h ++ [distinct (map (field "type") done)])).
  intros done x rest E.
  assert (Hx : typed x) by (apply Ht; rewrite E; apply in_elt).
  eapply returns_bind; [by apply returns_lift, typed_get |].
  rewrite map_app. cbn [map]. rewrite distinct_snoc, typed_field by done.
  by apply returns_set_add_local.
Qed.

(** ** [list_types] *)

Lemma count_type_count_of t xs :
  (forall x, In x xs -> typed x) -> count_type t xs = Done (count_of t xs).
Proof.
  unfold count_of. induction xs as [| x xs IH]; intros Ht; [done |].
  cbn [count_type]. rewrite (typed_get x), IH.
  - cbn [rbind List.filter]. rewrite (typed_field x) by (apply Ht; by left).
    by destruct (Py.eqb _ _).
  - intros y Hy. apply Ht. by right.
  - apply Ht. by left.
Qed.

Lemma returns_print_types order kg h key what xs members a :
  set_order order ->
  has_seq kg h key xs -> (forall x, In x xs -> typed x) ->
  h !! a = Some members -> (forall t, In t members -> exists s, t = JStr s) ->
  returns (print_types order kg a key what) h
    (map (fun t => (t, count_of t xs)) (sort_str str_of (order members))) h.
Proof.
  intros Ho Hs Ht Ha Hm. unfold print_types.
  eapply returns_bind; [by apply returns_read |].
  eapply returns_bind.
  { apply returns_lift, (by_key_sort_str str_of).
    intros x Hx. destruct (Hm x) as [s ->]; [| done].
    eapply Permutation_in; [apply Ho | done]. }
  set (ts := sort_str str_of (order members)).
  pose proof (returns_for_fold ts
    (fun acc t =>
       let* xs := Kg.iter (Kg.get kg key (JArr [])) in
       let* count := lift (count_type t xs) in
       print [Lit "  - "; Val t; Lit " ("; Val (JNum (Z.of_nat count));
              Lit (" " +:+ what +:+ ")")] ;;
       ret (acc ++ [(t, count)]))
    (fun done => map (fun t => (t, count_of t xs)) done)
    (fun _ => h)) as G.
  apply G. clear G. intros done t rest E.
  eapply returns_bind; [by apply returns_iter |].
  eapply returns_bind; [by apply returns_lift, count_type_count_of |].
  eapply returns_bind; [apply returns_print |].
  rewrite map_app. apply returns_ret.
Qed.

Lemma members_str xs t :
  (forall x, In x xs -> typed x) ->
  In t (distinct (map type_or_unknown xs)) -> exists s, t = JStr s.
Proof.
  intros Ht (x & <- & Hx)%distinct_in%in_map_iff.
  rewrite typed_or_unknown by auto. eauto.
Qed.

(** what [list_types] returns *)
Lemma returns_list_types order kg h ents rels :
  set_order order -> loaded kg h ents rels ->
  returns (list_types order kg) h
    (type_counts order ents, type_counts order rels) h.
Proof.
  intros Ho L. unfold list_types.
  assert (Te : forall x, In x ents -> typed x).
  { intros x Hx. eapply wf_entity_typed, wf_in; eauto. apply L. }
  assert (Tr : forall x, In x rels -> typed x).
  { intros x Hx. eapply wf_rel_typed, wf_in; eauto. apply L. }
  set (s1 := distinct (map type_or_unknown ents)).
  set (s2 := distinct (map type_or_unknown rels)).
  apply (returns_scoped_restored _ _ _ ((h ++ [s1]) ++ [s2]));
    [| apply (list_types_restores order kg h)].
  eapply returns_bind; [eapply returns_collect_types; [apply L | done] |].
  eapply returns_bind;
    [eapply returns_collect_types; [apply has_seq_app, L | done] |].
  fold s1 s2.
  do 2 (eapply returns_bind; [apply returns_print |]).
  eapply returns_bind.
  { eapply returns_print_types with (members := s1) (xs := ents); eauto.
    - rewrite <- app_assoc. apply has_seq_app, L.
    - apply lookup_app_l_Some, lookup_local.
    - intros t. by apply members_str. }
  do 2 (eapply returns_bind; [apply returns_print |]).
  eapply returns_bind.
  { eapply returns_print_types with (members := s2) (xs := rels); eauto.
    - rewrite <- app_assoc. apply has_seq_app, L.
    - apply lookup_local.
    - intros t. by apply members_str. }
  apply returns_ret.
Qed.

(** ** [show_info] *)

Lemma length_chars s : length (Str.chars s) = String.length s.
Proof. induction s; cbn; auto. Qed.

Lemma returns_len kg h key l :
  has_seq kg h key l ->
  returns (Kg.len (Kg.get kg key (JArr []))) h (length l) h.
Proof.
  unfold has_seq, Kg.get. destruct (Py.assoc key kg) as [[j | a] |]; cbn [Kg.len].
  - intros H. apply returns_lift. destruct j; try discriminate;
      cbn in *; injection H as <-; by rewrite ?length_map, ?length_chars.
  - intros H. eapply returns_bind; [by apply returns_read | apply returns_ret].
  - intros ->. by apply returns_lift.
Qed.

Lemma returns_notes_len kg h :
  extras_ok kg = true ->
  returns (Kg.len (Kg.get kg "notes" (JObj []))) h (notes_len kg h) h.
Proof.
  unfold extras_ok, notes_len, Kg.get. intros [H _]%andb_prop.
  destruct (Py.assoc "notes" kg) as [[j | a] |]; cbn [Kg.len].
  - apply returns_lift. by destruct j.
  - exists []. done.
  - by apply returns_lift.
Qed.

Lemma returns_metadata_items kg h :
  extras_ok kg = true ->
  exists kvs, returns (Kg.items (Kg.get kg "metadata" (JObj []))) h kvs h.
Proof.
  unfold extras_ok, Kg.get. intros [_ H]%andb_prop.
  destruct (Py.assoc "metadata" kg) as [[j | a] |]; try discriminate.
  - destruct j; try discriminate. eexists. by apply returns_lift.
  - eexists. by apply returns_lift.
Qed.

(** what [show_info] returns *)
Lemma returns_show_info kg h ents rels :
  loaded kg h ents rels -> extras_ok kg = true ->
  returns (show_info kg) h
    {| entity_count := length ents;
       rel_count := length rels;
       note_count := notes_len kg h;
       entity_type_count := length (distinct (map (field "type") ents));
       rel_type_count := length (distinct (map (field "type") rels)) |} h.
Proof.
  intros L Hex. unfold show_info.
  assert (Te : forall x, In x ents -> typed x).
  { intros x Hx. eapply wf_entity_typed, wf_in; eauto. apply L. }
  assert (Tr : forall x, In x rels -> typed x).
  { intros x Hx. eapply wf_rel_typed, wf_in; eauto. apply L. }
  set (s1 := distinct (map (field "type") ents)).
  set (s2 := distinct (map (field "type") rels)).
  destruct (returns_metadata_items kg ((h ++ [s1]) ++ [s2]) Hex) as [kvs Hkvs].
  apply (returns_scoped_restored _ _ _ ((h ++ [s1]) ++ [s2]));
    [| apply (show_info_restores kg h)].
  eapply returns_bind; [apply returns_len, L |].
  eapply returns_bind; [apply returns_len, L |].
  eapply returns_bind; [by apply returns_notes_len |].
  eapply returns_bind; [eapply returns_type_set; [apply L | done] |].
  eapply returns_bind;
    [eapply returns_type_set; [apply has_seq_app, L | done] |].
  fold s1 s2. cbv zeta.
  do 5 (eapply returns_bind; [apply returns_print |]).
  eapply returns_bind;
    [apply returns_read, lookup_app_l_Some, lookup_local |].
  eapply returns_bind; [apply returns_print |].
  eapply returns_bind; [apply returns_read, lookup_local |].
  do 2 (eapply returns_bind; [apply returns_print |]).
  eapply returns_bind; [exact Hkvs |].
  eapply returns_bind; [| apply returns_ret].
  apply returns_for_each_quiet. intros; apply returns_print.
Qed.

(** ** Example documents in memory *)

Lemma load_two ents rels :
  load_knowledge_graph [("entities", JArr ents); ("relationships", JArr rels)] []
  = Ok Example.kg2 [ents; rels] [].
Proof. reflexivity. Qed.

Lemma loaded_two ents rels :
  forallb wf_entity ents = true -> forallb wf_rel rels = true ->
  loaded Example.kg2 [ents; rels] ents rels.
Proof. intros He Hr. by split. Qed.

(** ** Equality of identifiers *)

Lemma eqb_str_sym a b : Py.eqb (JStr a) (JStr b) = Py.eqb (JStr b) (JStr a).
Proof. cbn. apply String.eqb_sym. Qed.

Lemma resolve_eqb ents i e :
  resolve ents i = Some e -> Py.eqb (field "id" e) i = true.
Proof. intros H. by apply find_some in H as [_ ?]. Qed.

Lemma resolve_first ents i e :
  resolve ents i = Some e <-> first_with_id ents i e.
Proof.
  unfold resolve, first_with_id. induction ents as [| x ents IH]; cbn.
  - split; [done |]. intros (b & a & E & _). by destruct b.
  - destruct (Py.eqb (field "id" x) i) eqn:Ex.
    + split.
      * intros [= <-]. exists [], ents. by repeat split.
      * intros ([| y b] & a & E & He & Hb).
        -- by injection E as <- _.
        -- injection E as <- _. rewrite Hb in Ex; [done | by left].
    + rewrite IH. split.
      * intros (b & a & -> & He & Hb). exists (x :: b), a.
        repeat split; auto. intros y [<- | Hy]; auto.
      * intros ([| y b] & a & E & He & Hb).
        -- injection E as <- _. congruence.
        -- injection E as <- ->. exists b, a. repeat split; auto.
           intros z Hz. apply Hb. by right.
Qed.

Lemma wf_id_endpoint_sym e rel k :
  wf_entity e = true -> wf_rel rel = true -> endpoint k ->
  Py.eqb (field k rel) (field "id" e) = Py.eqb (field "id" e) (field k rel).
Proof.
  intros (d & -> & Hi & _)%wf_entity_inv Hr Hk.
  destruct (wf_rel_endpoint _ _ Hr Hk) as [_ ->].
  rewrite (has_str_field _ _ Hi). apply eqb_str_sym.
Qed.

(** an entity bearing an id makes the id resolve *)
Lemma resolve_some ents i e :
  In e ents -> Py.eqb (field "id" e) i = true -> exists x, resolve ents i = Some x.
Proof.
  intros He Hi. destruct (resolve ents i) eqn:R; [eauto |].
  pose proof (find_none _ _ R _ He) as C. cbn in C. congruence.
Qed.

Lemma in_links ents rels e mine other direction rel x :
  In rel rels -> Py.eqb (field mine rel) (field "id" e) = true ->
  resolve ents (field other rel) = Some x ->
  In (related_item x (field "type" rel) direction)
     (links ents rels e mine other direction).
Proof.
  intros Hrel He Hx. unfold links. apply in_flat_map. exists rel.
  split; [done |]. rewrite He, Hx. by left.
Qed.

(** ** The claims *)

(** C1. For a relationship R of the document whose two ends resolve, to S
    and to T: [find_related] with a pattern that matches the name of S
    returns, for S, a list that contains T with the type of R tagged
    "outgoing"; with a pattern that matches the name of T it returns, for
    T, a list that contains S with the type of R tagged "incoming". *)
Theorem find_related_both_directions kg h ents rels R S T pat :
  loaded kg h ents rels ->
  In R rels ->
  resolve ents (field "source" R) = Some S ->
  resolve ents (field "target" R) = Some T ->
  exists res, returns (find_related kg pat) h res h /\
    (name_matches pat S = true ->
       exists related, In (S, related) res /\
         In (related_item T (field "type" R) "outgoing") related) /\
    (name_matches pat T = true ->
       exists related, In (T, related) res /\
         In (related_item S (field "type" R) "incoming") related).
Proof.
  intros L HR HS HT. eexists. split; [by apply returns_find_related |].
  pose proof (ld_wf_ents _ _ _ _ L) as We.
  pose proof (wf_in _ _ _ (ld_wf_rels _ _ _ _ L) HR) as Wr.
  assert (G : forall e x mine other direction,
            endpoint mine ->
            resolve ents (field mine R) = Some e ->
            resolve ents (field other R) = Some x ->
            name_matches pat e = true ->
            (forall l, In l (links ents rels e mine other direction) ->
                       In l (collected ents rels e)) ->
            exists related,
              In (e, related)
                 (map (fun e => (e, sort_str item_name (collected ents rels e)))
                      (List.filter (name_matches pat) ents)) /\
              In (related_item x (field "type" R) direction) related).
  { intros e x mine other direction Hm He Hx Hp Hsub.
    eexists. split.
    - apply in_map_iff. exists e. split; [done |].
      apply filter_In. eauto using resolve_in.
    - eapply Permutation_in; [apply sort_str_perm |].
      apply Hsub, in_links; auto.
      rewrite wf_id_endpoint_sym; eauto using resolve_eqb.
      eapply wf_in; eauto using resolve_in. }
  split; intros Hp.
  - apply (G S T "source" "target" "outgoing"); auto; [by left |].
    intros l Hl. unfold collected. apply in_or_app. by left.
  - apply (G T S "target" "source" "incoming"); auto; [by right |].
    intros l Hl. unfold collected. apply in_or_app. by right.
Qed.

Lemma find_related_both_directions_witness :
  exists res, returns (find_related Example.kg2 "A") [Example.ents_a; Example.rels_a] res
                [Example.ents_a; Example.rels_a] /\
    (name_matches "A" Example.alice = true ->
       exists related, In (Example.alice, related) res /\
         In (related_item Example.acme (field "type" Example.works_for) "outgoing") related) /\
    (name_matches "A" Example.acme = true ->
       exists related, In (Example.acme, related) res /\
         In (related_item Example.alice (field "type" Example.works_for) "incoming") related).
Proof.
  apply (find_related_both_directions Example.kg2 [Example.ents_a; Example.rels_a]
           Example.ents_a Example.rels_a Example.works_for Example.alice Example.acme "A").
  - apply loaded_two; reflexivity.
  - left. reflexivity.
  - reflexivity.
  - reflexivity.
Defined.

(** C3 (as the code has it). For every matched entity the triples that
    [find_related] returns are sorted by neighbor name under ordinal
    comparison of the names, and triples with the same neighbor name keep
    the order in which they were collected: the outgoing triples in
    relationship order, then the incoming triples in relationship order. *)
Theorem find_related_sorted_stable kg h ents rels pat :
  loaded kg h ents rels ->
  exists res, returns (find_related kg pat) h res h /\
    forall e related, In (e, related) res ->
      StronglySorted (fun a b => name_le (item_name a) (item_name b)) related /\
      Permutation (collected ents rels e) related /\
      forall n,
        List.filter (fun x => String.eqb (item_name x) n) related
        = List.filter (fun x => String.eqb (item_name x) n)
            (links ents rels e "source" "target" "outgoing" ++
             links ents rels e "target" "source" "incoming").
Proof.
  intros L. eexists. split; [by apply returns_find_related |].
  intros e related (e' & [= <- <-] & _)%in_map_iff.
  split; [apply sort_str_sorted |].
  split; [apply sort_str_perm |].
  intros n. apply sort_str_stable.
Qed.

Lemma find_related_sorted_stable_witness :
  exists res, returns (find_related Example.kg2 "Alice") [Ties.ents; Ties.rels] res
                [Ties.ents; Ties.rels] /\
    forall e related, In (e, related) res ->
      StronglySorted (fun a b => name_le (item_name a) (item_name b)) related /\
      Permutation (collected Ties.ents Ties.rels e) related /\
      forall n,
        List.filter (fun x => String.eqb (item_name x) n) related
        = List.filter (fun x => String.eqb (item_name x) n)
            (links Ties.ents Ties.rels e "source" "target" "outgoing" ++
             links Ties.ents Ties.rels e "target" "source" "incoming").
Proof.
  apply (find_related_sorted_stable Example.kg2 [Ties.ents; Ties.rels]
           Ties.ents Ties.rels "Alice").
  apply loaded_two; reflexivity.
Defined.

(** C3, as stated, fails: Bob manages Alice (first relationship) and Alice
    mentors Bob (second relationship); [find_related] on Alice lists the
    outgoing "mentors" triple before the incoming "manages" triple, both
    with neighbor name "Bob", against relationship order. *)
Lemma find_related_ties_counterexample :
  exists h o,
    query Ties.doc (fun kg => find_related kg "Alice")
    = Ok [(Ties.alice,
           [related_item Ties.bob (JStr "mentors") "outgoing";
            related_item Ties.bob (JStr "manages") "incoming"])] h o /\
    ties_by_relationship_order Ties.ents Ties.rels Ties.alice
    = [related_item Ties.bob (JStr "manages") "incoming";
       related_item Ties.bob (JStr "mentors") "outgoing"] /\
    [related_item Ties.bob (JStr "mentors") "outgoing";
     related_item Ties.bob (JStr "manages") "incoming"]
    <> ties_by_relationship_order Ties.ents Ties.rels Ties.alice.
Proof.
  do 2 eexists. split; [vm_compute; reflexivity |].
  split; [vm_compute; reflexivity |]. vm_compute. discriminate.
Qed.

(** ** Dangling relationships *)

Lemma flat_map_filter_nil {A B} (f : A -> list B) (p : A -> bool) (l : list A) :
  (forall x, In x l -> p x = false -> f x = []) ->
  flat_map f (List.filter p l) = flat_map f l.
Proof.
  induction l as [| x l IH]; intros H; [done |].
  cbn. destruct (p x) eqn:E; cbn.
  - rewrite IH; [done |]. intros y Hy. apply H. by right.
  - rewrite (H x) by (auto; by left). rewrite IH; [done |].
    intros y Hy. apply H. by right.
Qed.

Lemma links_without_dangling ents rels e mine other direction :
  forallb wf_entity ents = true -> forallb wf_rel rels = true -> In e ents ->
  (mine = "source" /\ other = "target" \/ mine = "target" /\ other = "source") ->
  links ents (List.filter (fun r => negb (dangling ents r)) rels) e mine other direction
  = links ents rels e mine other direction.
Proof.
  intros We Wr He Hk. unfold links. apply flat_map_filter_nil.
  intros rel Hrel Hd. apply negb_false_iff in Hd.
  destruct (Py.eqb (field mine rel) (field "id" e)) eqn:E; [| done].
  assert (Hm : endpoint mine) by (unfold endpoint; tauto).
  rewrite wf_id_endpoint_sym in E; eauto using wf_in.
  destruct (resolve_some _ _ _ He E) as [x Hx].
  unfold dangling in Hd.
  destruct Hk as [[-> ->] | [-> ->]]; rewrite Hx in Hd;
    by destruct (resolve ents (field _ rel)).
Qed.

Lemma collected_without_dangling ents rels e :
  forallb wf_entity ents = true -> forallb wf_rel rels = true -> In e ents ->
  collected ents (List.filter (fun r => negb (dangling ents r)) rels) e
  = collected ents rels e.
Proof.
  intros We Wr He. unfold collected.
  rewrite !links_without_dangling; auto.
Qed.

Lemma rel_hits_without_dangling ents rels term :
  rel_hits ents (List.filter (fun r => negb (dangling ents r)) rels) term
  = rel_hits ents rels term.
Proof.
  unfold rel_hits. apply flat_map_filter_nil.
  intros rel _ Hd. apply negb_false_iff in Hd. unfold dangling in Hd.
  destruct (mentions term rel); [| done].
  by destruct (resolve ents (field "source" rel)),
              (resolve ents (field "target" rel)).
Qed.

(** a relationship whose two ends resolve is listed by [find_related]
    under the entity at its [mine] end, when the pattern matches it *)
Lemma resolvable_listed ents rels pat R e x mine other direction :
  forallb wf_entity ents = true -> forallb wf_rel rels = true ->
  In R rels ->
  (mine = "source" /\ other = "target" /\ direction = "outgoing" \/
   mine = "target" /\ other = "source" /\ direction = "incoming") ->
  resolve ents (field mine R) = Some e ->
  resolve ents (field other R) = Some x ->
  name_matches pat e = true ->
  exists related,
    In (e, related)
       (map (fun e => (e, sort_str item_name (collected ents rels e)))
            (List.filter (name_matches pat) ents)) /\
    In (related_item x (field "type" R) direction) related.
Proof.
  intros We Wr HR Hk He Hx Hp.
  assert (Hm : endpoint mine) by (unfold endpoint; tauto).
  eexists. split.
  - apply in_map_iff. exists e. split; [done |].
    apply filter_In. eauto using resolve_in.
  - eapply Permutation_in; [apply sort_str_perm |].
    assert (Hl : In (related_item x (field "type" R) direction)
                    (links ents rels e mine other direction)).
    { apply in_links; auto.
      rewrite wf_id_endpoint_sym; eauto using resolve_eqb, wf_in.
      eapply wf_in; eauto using resolve_in. }
    unfold collected. apply in_or_app.
    by destruct Hk as [(-> & -> & ->) | (-> & -> & ->)]; [left | right].
Qed.

(** C4. A relationship one of whose ends does not resolve is left out of
    what [find_related] and [search] return, neither raises, and the
    other relationships are returned: both operations return on the
    document exactly what they return on the document without its
    dangling relationships; every triple of [find_related] comes from a
    relationship that is not dangling, and every relationship whose two
    ends resolve is returned by [find_related], as an outgoing triple
    under its source and as an incoming triple under its target, when
    the pattern matches their names; no relationship result of [search]
    is a dangling one, and every relationship that is not dangling and
    mentions the term is a result. *)
Theorem dangling_edges_excluded kg h kg' h' ents rels repr pat term :
  loaded kg h ents rels ->
  loaded kg' h' ents (List.filter (fun r => negb (dangling ents r)) rels) ->
  exists res hits,
    returns (find_related kg pat) h res h /\
    returns (find_related kg' pat) h' res h' /\
    returns (search repr kg term) h hits h /\
    returns (search repr kg' term) h' hits h' /\
    (forall e related item, In (e, related) res -> In item related ->
       exists R x direction, In R rels /\ dangling ents R = false /\
         item = related_item x (field "type" R) direction) /\
    (forall R S T, In R rels ->
       resolve ents (field "source" R) = Some S ->
       resolve ents (field "target" R) = Some T ->
       (name_matches pat S = true ->
          exists related, In (S, related) res /\
            In (related_item T (field "type" R) "outgoing") related) /\
       (name_matches pat T = true ->
          exists related, In (T, related) res /\
            In (related_item S (field "type" R) "incoming") related)) /\
    (forall R s t, dangling ents R = true -> ~ In (rel_hit R s t) hits) /\
    (forall R s t, In R rels -> mentions term R = true ->
       resolve ents (field "source" R) = Some s ->
       resolve ents (field "target" R) = Some t -> In (rel_hit R s t) hits).
Proof.
  intros L L'. pose proof (ld_wf_ents _ _ _ _ L) as We.
  pose proof (ld_wf_rels _ _ _ _ L) as Wr.
  do 2 eexists. split; [by apply returns_find_related |].
  split.
  { pose proof (returns_find_related _ _ _ _ pat L') as H.
    erewrite map_ext_in in H; [exact H |].
    intros e [He _]%filter_In. cbv beta.
    by rewrite collected_without_dangling. }
  split; [by apply returns_search |].
  split.
  { pose proof (returns_search repr _ _ _ _ term L') as H.
    by rewrite rel_hits_without_dangling in H. }
  split; [| split; [| split]].
  - intros e related item (e' & [= <- <-] & [He Hp]%filter_In)%in_map_iff Hi.
    apply (Permutation_in _ (Permutation_sym (sort_str_perm _ _))) in Hi.
    assert (G : forall mine other direction,
              mine = "source" /\ other = "target" \/
              mine = "target" /\ other = "source" ->
              In item (links ents rels e' mine other direction) ->
              exists R x direction, In R rels /\ dangling ents R = false /\
                item = related_item x (field "type" R) direction).
    { intros mine other direction Hk (R & x & HR & E & Hx & ->)%links_item.
      exists R, x, direction. repeat split; auto.
      assert (Hm : endpoint mine) by (unfold endpoint; tauto).
      rewrite wf_id_endpoint_sym in E; eauto using wf_in.
      destruct (resolve_some _ _ _ He E) as [y Hy].
      unfold dangling. by destruct Hk as [[-> ->] | [-> ->]]; rewrite Hx, Hy. }
    apply in_app_or in Hi as [Hi | Hi].
    + apply (G _ _ _ (or_introl (conj eq_refl eq_refl)) Hi).
    + apply (G _ _ _ (or_intror (conj eq_refl eq_refl)) Hi).
  - intros R S T HR HS HT. split; intros Hp.
    + apply (resolvable_listed ents rels pat R S T "source" "target" "outgoing");
        auto.
    + apply (resolvable_listed ents rels pat R T S "target" "source" "incoming");
        auto 10.
  - intros R s t Hd [H | H]%in_app_or.
    + by apply in_map_iff in H as (e & [=] & _).
    + apply rel_hits_item in H as (R' & s' & t' & _ & _ & Rs & Rt & [= <- <- <-]).
      unfold dangling in Hd. by rewrite Rs, Rt in Hd.
  - intros R s t HR Hm Hs Ht. apply in_or_app. right.
    unfold rel_hits. apply in_flat_map. exists R. split; [done |].
    rewrite Hm, Hs, Ht. by left.
Qed.

Lemma dangling_edges_excluded_witness :
  exists res hits,
    returns (find_related Example.kg2 "alice") [Example.ents_a; Example.rels_c] res
      [Example.ents_a; Example.rels_c] /\
    returns (find_related Example.kg2 "alice") [Example.ents_a; Example.rels_a] res
      [Example.ents_a; Example.rels_a] /\
    returns (search (fun _ => EmptyString) Example.kg2 "e1")
      [Example.ents_a; Example.rels_c] hits [Example.ents_a; Example.rels_c] /\
    returns (search (fun _ => EmptyString) Example.kg2 "e1")
      [Example.ents_a; Example.rels_a] hits [Example.ents_a; Example.rels_a] /\
    (forall e related item, In (e, related) res -> In item related ->
       exists R x direction, In R Example.rels_c /\
         dangling Example.ents_a R = false /\
         item = related_item x (field "type" R) direction) /\
    (forall R S T, In R Example.rels_c ->
       resolve Example.ents_a (field "source" R) = Some S ->
       resolve Example.ents_a (field "target" R) = Some T ->
       (name_matches "alice" S = true ->
          exists related, In (S, related) res /\
            In (related_item T (field "type" R) "outgoing") related) /\
       (name_matches "alice" T = true ->
          exists related, In (T, related) res /\
            In (related_item S (field "type" R) "incoming") related)) /\
    (forall R s t, dangling Example.ents_a R = true -> ~ In (rel_hit R s t) hits) /\
    (forall R s t, In R Example.rels_c -> mentions "e1" R = true ->
       resolve Example.ents_a (field "source" R) = Some s ->
       resolve Example.ents_a (field "target" R) = Some t ->
       In (rel_hit R s t) hits).
Proof.
  apply (dangling_edges_excluded Example.kg2 [Example.ents_a; Example.rels_c]
           Example.kg2 [Example.ents_a; Example.rels_a]
           Example.ents_a Example.rels_c (fun _ => EmptyString) "alice" "e1").
  - apply loaded_two; reflexivity.
  - apply (loaded_two Example.ents_a Example.rels_a); reflexivity.
Defined.

(** ** Substrings *)

Lemma append_cons x s c : String x s +:+ c = String x (s +:+ c).
Proof. reflexivity. Qed.

Lemma prefix_spec a b : String.prefix a b = true <-> exists c, b = a +:+ c.
Proof.
  revert b. induction a as [| x a IH]; intros b.
  - split; [intros _; by exists b | by destruct b].
  - destruct b as [| y b]; cbn.
    + split; [done | by intros [c H]].
    + destruct (Ascii.ascii_dec x y) as [<- | N].
      * rewrite IH. split; intros [c H]; exists c; [by rewrite H |].
        by injection H.
      * split; [done |]. intros [c H]. by injection H.
Qed.

Lemma contains_spec n s :
  Str.contains n s = true <-> exists a b, s = a +:+ n +:+ b.
Proof.
  induction s as [| y s IH]; cbn [Str.contains].
  - rewrite orb_false_r, prefix_spec. split.
    + intros [c H]. by exists EmptyString, c.
    + intros ([| x a] & b & H); [by exists b | done].
  - rewrite orb_true_iff, prefix_spec, IH. split.
    + intros [[c H] | (a & b & H)].
      * by exists EmptyString, c.
      * exists (String y a), b. cbn. by rewrite H.
    + intros ([| x a] & b & H).
      * left. by exists b.
      * right. injection H as _ H. by exists a, b.
Qed.

Lemma append_empty_r s : s +:+ EmptyString = s.
Proof.
  induction s as [| x s IH]; [done |]. rewrite append_cons. by f_equal.
Qed.

Lemma append_assoc a b c : (a +:+ b) +:+ c = a +:+ b +:+ c.
Proof.
  induction a as [| x a IH]; [done |]. rewrite !append_cons. by f_equal.
Qed.

Lemma contains_refl s : Str.contains s s = true.
Proof.
  apply contains_spec. exists EmptyString, EmptyString.
  cbn. by rewrite append_empty_r.
Qed.

Lemma contains_app n s a b :
  Str.contains n s = true -> Str.contains n (a +:+ s +:+ b) = true.
Proof.
  rewrite !contains_spec. intros (c & d & ->). exists (a +:+ c), (d +:+ b).
  by rewrite !append_assoc.
Qed.

Lemma lower_app a b : Str.lower (a +:+ b) = Str.lower a +:+ Str.lower b.
Proof.
  induction a as [| x a IH]; [done |].
  rewrite append_cons. cbn [Str.lower]. rewrite append_cons. by f_equal.
Qed.

(** C5. [find_entity] returns exactly the entities whose name contains the
    pattern as a substring, both taken in lower case, in load order; so it
    returns E for the name of E, and an empty result is a return like any
    other. *)
Theorem find_entity_by_name kg h ents rels pat :
  loaded kg h ents rels ->
  returns (find_entity kg pat) h (List.filter (name_matches pat) ents) h /\
  (forall e, name_matches pat e = true <->
     exists a b, Str.lower (text "name" e) = a +:+ Str.lower pat +:+ b) /\
  (forall E, In E ents ->
     exists res, returns (find_entity kg (text "name" E)) h res h /\ In E res).
Proof.
  intros L. split; [apply (returns_find_entity _ _ _ _ _ L) |]. split.
  - intros e. apply contains_spec.
  - intros E HE. eexists. split; [apply (returns_find_entity _ _ _ _ _ L) |].
    apply filter_In. split; [done |]. apply contains_refl.
Qed.

Lemma find_entity_by_name_witness :
  returns (find_entity Example.kg2 "AC") [Example.ents_a; Example.rels_a]
    (List.filter (name_matches "AC") Example.ents_a) [Example.ents_a; Example.rels_a] /\
  (forall e, name_matches "AC" e = true <->
     exists a b, Str.lower (text "name" e) = a +:+ Str.lower "AC" +:+ b) /\
  (forall E, In E Example.ents_a ->
     exists res, returns (find_entity Example.kg2 (text "name" E))
                   [Example.ents_a; Example.rels_a] res
                   [Example.ents_a; Example.rels_a] /\ In E res).
Proof.
  apply (find_entity_by_name Example.kg2 [Example.ents_a; Example.rels_a]
           Example.ents_a Example.rels_a "AC").
  apply loaded_two; reflexivity.
Defined.

(** C7. No query operation changes the loaded document: whether it
    returns or raises, each of the six operations ends with the heap it
    started from, so the entities sequence, the relationships sequence and
    the order of their elements are as before.  The statements of the six
    functions that change an object are [append], [sort] and [add]; each
    is applied to a list or set the function created itself.  No
    statement assigns to a key of a mapping: [kg], with the metadata, and
    the entities and relationships are values the operations only read. *)
Theorem queries_do_not_mutate kg h order repr name ty term :
  final (find_entity kg name h) = h /\
  final (find_related kg name h) = h /\
  final (list_types order kg h) = h /\
  final (list_entities_by_type kg ty h) = h /\
  final (search repr kg term h) = h /\
  final (show_info kg h) = h.
Proof.
  repeat split.
  - apply find_entity_restores.
  - apply find_related_restores.
  - apply list_types_restores.
  - apply list_entities_by_type_restores.
  - apply search_restores.
  - apply show_info_restores.
Qed.

(** ** Documents without entities or relationships *)

Lemma absent_is_empty kg h key l :
  Py.assoc key kg = None -> has_seq kg h key l -> l = [].
Proof. unfold has_seq. by intros ->. Qed.

Lemma absent_or_empty kg h key :
  Py.assoc key kg = None \/ has_seq kg h key [] -> has_seq kg h key [].
Proof. intros [H | H]; [| done]. unfold has_seq. by rewrite H. Qed.

Lemma set_order_nil order : set_order order -> order [] = [].
Proof. intros H. apply Permutation_nil. symmetry. apply H. Qed.

Lemma absent_notes kg h : Py.assoc "notes" kg = None -> notes_len kg h = O.
Proof. unfold notes_len, Kg.get. by intros ->. Qed.

(** C6. A document in memory that lacks the [entities] or the
    [relationships] key is read as having the empty sequence there, and
    every query operation returns on it.  When both sequences are absent
    or empty, every operation returns an empty result: [show_info]
    reports 0 entities, 0 relationships, 0 entity types and 0 relationship
    types (and the size of [notes], 0 when [notes] is absent), and
    [list_types] reports no entity type and no relationship type. *)
Theorem missing_sections_read_as_empty kg h order repr name ty term :
  set_order order -> extras_ok kg = true ->
  (forall ents rels, loaded kg h ents rels ->
     (Py.assoc "entities" kg = None -> ents = []) /\
     (Py.assoc "relationships" kg = None -> rels = []) /\
     (exists r, returns (find_entity kg name) h r h) /\
     (exists r, returns (find_related kg name) h r h) /\
     (exists r, returns (list_types order kg) h r h) /\
     (exists r, returns (list_entities_by_type kg ty) h r h) /\
     (exists r, returns (search repr kg term) h r h) /\
     (exists r, returns (show_info kg) h r h)) /\
  (Py.assoc "entities" kg = None \/ has_seq kg h "entities" [] ->
   Py.assoc "relationships" kg = None \/ has_seq kg h "relationships" [] ->
     returns (find_entity kg name) h [] h /\
     returns (find_related kg name) h [] h /\
     returns (list_types order kg) h ([], []) h /\
     returns (list_entities_by_type kg ty) h [] h /\
     returns (search repr kg term) h [] h /\
     returns (show_info kg) h
       {| entity_count := 0; rel_count := 0; note_count := notes_len kg h;
          entity_type_count := 0; rel_type_count := 0 |} h /\
     (Py.assoc "notes" kg = None -> notes_len kg h = O)).
Proof.
  intros Ho Hx. split.
  - intros ents rels L.
    split; [intros H; eapply absent_is_empty; [exact H | apply L] |].
    split; [intros H; eapply absent_is_empty; [exact H | apply L] |].
    split; [eexists; apply (returns_find_entity _ _ _ _ _ L) |].
    split; [eexists; apply (returns_find_related _ _ _ _ _ L) |].
    split; [eexists; apply (returns_list_types _ _ _ _ _ Ho L) |].
    split; [eexists; apply (returns_list_entities_by_type _ _ _ _ _ L) |].
    split; [eexists; apply (returns_search _ _ _ _ _ _ L) |].
    eexists; apply (returns_show_info _ _ _ _ L Hx).
  - intros He%absent_or_empty Hr%absent_or_empty.
    assert (L : loaded kg h [] []) by (by split).
    split; [apply (returns_find_entity _ _ _ _ name L) |].
    split; [apply (returns_find_related _ _ _ _ name L) |].
    split.
    { pose proof (returns_list_types _ _ _ _ _ Ho L) as H.
      unfold type_counts in H. cbn [map distinct fold_left] in H.
      by rewrite (set_order_nil _ Ho) in H. }
    split; [apply (returns_list_entities_by_type _ _ _ _ ty L) |].
    split; [apply (returns_search repr _ _ _ _ term L) |].
    split; [apply (returns_show_info _ _ _ _ L Hx) |].
    apply absent_notes.
Qed.

Lemma missing_sections_read_as_empty_witness :
  returns (find_entity [] "alice") [] [] [] /\
  returns (find_related [] "alice") [] [] [] /\
  returns (list_types (fun l => l) []) [] ([], []) [] /\
  returns (list_entities_by_type [] "person") [] [] [] /\
  returns (search (fun _ => EmptyString) [] "alice") [] [] [] /\
  returns (show_info []) []
    {| entity_count := 0; rel_count := 0; note_count := notes_len [] [];
       entity_type_count := 0; rel_type_count := 0 |} [] /\
  (Py.assoc "notes" ([] : kgdoc) = None -> notes_len [] [] = O).
Proof.
  apply (missing_sections_read_as_empty [] [] (fun l => l) (fun _ => EmptyString)
           "alice" "person" "alice").
  - intros l. apply Permutation_refl.
  - reflexivity.
  - left. reflexivity.
  - left. reflexivity.
Defined.

(** ** Runs that do not depend on the order of a set *)

Lemma bind_cong_l {A B} (m1 m2 : prog A) (k : A -> prog B) h :
  m1 h = m2 h -> bind m1 k h = bind m2 k h.
Proof. intros H. unfold bind. by rewrite H. Qed.

Lemma bind_cong_r {A B} (m : prog A) (k1 k2 : A -> prog B) h :
  (forall a h1, returns m h a h1 -> k1 a h1 = k2 a h1) ->
  bind m k1 h = bind m k2 h.
Proof.
  intros H. unfold bind. destruct (m h) as [a h1 o |] eqn:E; [| done].
  rewrite (H a h1); [done |]. by exists o.
Qed.

Lemma scoped_cong {A} (m1 m2 : prog A) h : m1 h = m2 h -> scoped m1 h = scoped m2 h.
Proof. intros H. unfold scoped. by rewrite H. Qed.

Lemma sorted_perm_unique (f : json -> string) l1 l2 :
  (forall x y, In x l1 -> In y l1 -> f x = f y -> x = y) ->
  StronglySorted (fun a b => name_le (f a) (f b)) l1 ->
  StronglySorted (fun a b => name_le (f a) (f b)) l2 ->
  Permutation l1 l2 -> l1 = l2.
Proof.
  revert l2. induction l1 as [| x l1 IH]; intros l2 Hinj S1 S2 P.
  - by apply Permutation_nil in P.
  - destruct l2 as [| y l2]; [by apply Permutation_sym, Permutation_nil in P |].
    apply StronglySorted_inv in S1 as [S1 F1], S2 as [S2 F2].
    rewrite List.Forall_forall in F1, F2.
    assert (x = y) as <-.
    { assert (Hy : In y (x :: l1))
        by (eapply Permutation_in; [symmetry; exact P | by left]).
      assert (Hx : In x (y :: l2))
        by (eapply Permutation_in; [exact P | by left]).
      destruct Hy as [-> | Hy]; [done |].
      destruct Hx as [-> | Hx]; [done |].
      apply Hinj; [by left | by right |].
      apply ltb_connex; [apply (F2 _ Hx) | apply (F1 _ Hy)]. }
    f_equal. apply IH; auto.
    + intros a b Ha Hb. apply Hinj; by right.
    + by apply Permutation_cons_inv in P.
Qed.

Lemma sorted_order_independent o1 o2 members :
  set_order o1 -> set_order o2 ->
  (forall t, In t members -> exists s, t = JStr s) ->
  sorted (o1 members) = sorted (o2 members).
Proof.
  intros H1 H2 Hm. unfold sorted.
  rewrite !(by_key_sort_str str_of).
  - f_equal. apply (sorted_perm_unique str_of).
    + intros x y Hx Hy.
      apply (Permutation_in _ (Permutation_sym (sort_str_perm _ _))) in Hx, Hy.
      apply (Permutation_in _ (H1 _)) in Hx, Hy.
      destruct (Hm x Hx) as [a ->], (Hm y Hy) as [b ->]. cbn. by intros ->.
    + apply sort_str_sorted.
    + apply sort_str_sorted.
    + eapply Permutation_trans; [symmetry; apply sort_str_perm |].
      eapply Permutation_trans; [apply H1 |].
      eapply Permutation_trans; [symmetry; apply H2 |].
      apply sort_str_perm.
  - intros x Hx. destruct (Hm x) as [s ->]; [| done].
    eapply Permutation_in; [apply H2 | done].
  - intros x Hx. destruct (Hm x) as [s ->]; [| done].
    eapply Permutation_in; [apply H1 | done].
Qed.

Lemma print_types_order_independent o1 o2 kg h key what members a :
  set_order o1 -> set_order o2 ->
  h !! a = Some members -> (forall t, In t members -> exists s, t = JStr s) ->
  print_types o1 kg a key what h = print_types o2 kg a key what h.
Proof.
  intros H1 H2 Ha Hm. unfold print_types.
  apply bind_cong_r. intros ms h1 Hr.
  destruct (returns_inj _ _ _ _ _ _ Hr (returns_read _ _ _ Ha)) as [-> ->].
  by rewrite (sorted_order_independent o1 o2).
Qed.

Lemma list_types_order_independent o1 o2 kg h ents rels :
  set_order o1 -> set_order o2 -> loaded kg h ents rels ->
  list_types o1 kg h = list_types o2 kg h.
Proof.
  intros H1 H2 L. unfold list_types. apply scoped_cong.
  assert (Te : forall x, In x ents -> typed x).
  { intros x Hx. eapply wf_entity_typed, wf_in; eauto. apply L. }
  assert (Tr : forall x, In x rels -> typed x).
  { intros x Hx. eapply wf_rel_typed, wf_in; eauto. apply L. }
  set (s1 := distinct (map type_or_unknown ents)).
  set (s2 := distinct (map type_or_unknown rels)).
  apply bind_cong_r. intros a1 h1 R1.
  destruct (returns_inj _ _ _ _ _ _ R1
              (returns_collect_types _ _ _ _ (ld_ents _ _ _ _ L) Te)) as [-> ->].
  apply bind_cong_r. intros a2 h2 R2.
  destruct (returns_inj _ _ _ _ _ _ R2
              (returns_collect_types _ _ _ _
                 (has_seq_app _ _ [s1] _ _ (ld_rels _ _ _ _ L)) Tr)) as [-> ->].
  fold s1 s2.
  assert (L2 : loaded kg ((h ++ [s1]) ++ [s2]) ents rels)
    by (rewrite <- app_assoc; by apply loaded_app).
  do 2 (apply bind_cong_r; intros [] ? R;
        destruct (returns_inj _ _ _ _ _ _ R (returns_print _ _)) as [_ ->];
        clear R).
  assert (M1 : ((h ++ [s1]) ++ [s2]) !! length h = Some s1)
    by apply lookup_app_l_Some, lookup_local.
  assert (M2 : ((h ++ [s1]) ++ [s2]) !! length (h ++ [s1]) = Some s2)
    by apply lookup_local.
  etrans.
  { apply bind_cong_l.
    apply (print_types_order_independent o1 o2 _ _ _ _ s1); auto.
    intros t. by apply members_str. }
  apply bind_cong_r. intros ec h3 R3.
  destruct (returns_inj _ _ _ _ _ _ R3
              (returns_print_types o2 kg _ "entities" "entities" ents s1 _
                 H2 (ld_ents _ _ _ _ L2) Te M1
                 (fun t => members_str ents t Te))) as [_ ->].
  do 2 (apply bind_cong_r; intros [] ? R;
        destruct (returns_inj _ _ _ _ _ _ R (returns_print _ _)) as [_ ->];
        clear R).
  apply bind_cong_l.
  apply (print_types_order_independent o1 o2 _ _ _ _ s2); auto.
  intros t. by apply members_str.
Qed.

(** C8. Each query operation is a function of its input and of the
    document in memory, and it leaves the document as it was: run a second
    time on the same input, it behaves as the first time, with the same
    result and the same printed lines in the same order.  [list_types],
    the one operation that iterates over sets, does not depend on the
    order in which the run iterates over a set. *)
Theorem queries_are_repeatable kg h ents rels o1 o2 repr name ty term :
  set_order o1 -> set_order o2 -> loaded kg h ents rels ->
  find_entity kg name (final (find_entity kg name h)) = find_entity kg name h /\
  find_related kg name (final (find_related kg name h)) = find_related kg name h /\
  list_types o2 kg (final (list_types o1 kg h)) = list_types o1 kg h /\
  list_entities_by_type kg ty (final (list_entities_by_type kg ty h))
  = list_entities_by_type kg ty h /\
  search repr kg term (final (search repr kg term h)) = search repr kg term h /\
  show_info kg (final (show_info kg h)) = show_info kg h.
Proof.
  intros H1 H2 L.
  rewrite find_entity_restores, find_related_restores, list_types_restores,
    list_entities_by_type_restores, search_restores, show_info_restores.
  repeat split. symmetry. by eapply list_types_order_independent.
Qed.

Lemma queries_are_repeatable_witness :
  let kg := Example.kg2 in
  let h := [Example.ents_a; Example.rels_a] in
  find_entity kg "a" (final (find_entity kg "a" h)) = find_entity kg "a" h /\
  find_related kg "a" (final (find_related kg "a" h)) = find_related kg "a" h /\
  list_types (@rev json) kg (final (list_types (fun l => l) kg h))
  = list_types (fun l => l) kg h /\
  list_entities_by_type kg "person" (final (list_entities_by_type kg "person" h))
  = list_entities_by_type kg "person" h /\
  search (fun _ => EmptyString) kg "a" (final (search (fun _ => EmptyString) kg "a" h))
  = search (fun _ => EmptyString) kg "a" h /\
  show_info kg (final (show_info kg h)) = show_info kg h.
Proof.
  apply (queries_are_repeatable Example.kg2 [Example.ents_a; Example.rels_a]
           Example.ents_a Example.rels_a (fun l => l) (@rev json)
           (fun _ => EmptyString) "a" "person" "a").
  - intros l. apply Permutation_refl.
  - intros l. apply Permutation_sym, Permutation_rev.
  - apply loaded_two; reflexivity.
Defined.

(** ** The lines [find_entity] prints for the relationships of an entity *)

Lemma bind_ok {A B} (m : prog A) (k : A -> prog B) h a h1 o1 :
  m h = Ok a h1 o1 ->
  bind m k h = match k a h1 with
               | Ok b h2 o2 => Ok b h2 (o1 ++ o2)
               | Raise e h2 o2 => Raise e h2 (o1 ++ o2)
               end.
Proof. intros H. unfold bind. by rewrite H. Qed.

Lemma lift_ok {A} (r : result A) a h : r = Done a -> lift r h = Ok a h [].
Proof. by intros ->. Qed.

Lemma iter_ok kg h key l :
  has_seq kg h key l -> Kg.iter (Kg.get kg key (JArr [])) h = Ok l h [].
Proof.
  unfold has_seq, Kg.get. destruct (Py.assoc key kg) as [[j | a] |]; cbn.
  - intros H. by apply lift_ok.
  - intros H. unfold read. by rewrite H.
  - by intros ->.
Qed.

Lemma next_entity_ok kg h ents rels rel k :
  loaded kg h ents rels -> wf_rel rel = true -> endpoint k ->
  next_entity kg rel k h = Ok (default JNull (resolve ents (field k rel))) h [].
Proof.
  intros L Hr Hk. unfold next_entity.
  rewrite (bind_ok _ _ _ _ _ _ (iter_ok _ _ _ _ (ld_ents _ _ _ _ L))).
  rewrite (lift_ok _ _ _ (first_match_resolve _ _ _ (ld_wf_ents _ _ _ _ L) Hr Hk)).
  done.
Qed.

Lemma for_fold_flag {A} (l : list A) (body : bool -> A -> prog bool)
    (lines : A -> list line) h :
  (forall s x, In x l ->
     body s x h = Ok (match lines x with [] => s | _ => true end) h (lines x)) ->
  forall s, for_fold l s body h
            = Ok (match flat_map lines l with [] => s | _ => true end) h
                 (flat_map lines l).
Proof.
  induction l as [| x l IH]; intros Hb s; [done |].
  cbn [for_fold flat_map].
  rewrite (bind_ok _ _ _ _ _ _ (Hb s x (or_introl eq_refl))).
  rewrite IH by (intros; apply Hb; by right).
  destruct (lines x); [done |]. cbn. by destruct (flat_map lines l).
Qed.

Lemma print_relationships_lines kg h ents rels e :
  loaded kg h ents rels -> wf_entity e = true ->
  print_relationships kg e h
  = Ok tt h
      ([Lit nl; Lit "Relationships:"] :: relationship_lines ents rels e ++
       match relationship_lines ents rels e with
       | [] => [[Lit "  No relationships found"]]
       | _ => []
       end).
Proof.
  intros L He. unfold print_relationships.
  pose proof (ld_wf_ents _ _ _ _ L) as We.
  rewrite (bind_ok _ _ _ _ _ _ eq_refl).
  rewrite (bind_ok _ _ _ _ _ _ (iter_ok _ _ _ _ (ld_rels _ _ _ _ L))).
  erewrite bind_ok; cycle 1.
  { apply (for_fold_flag rels _
      (fun rel =>
         if Py.eqb (field "source" rel) (field "id" e) then
           match resolve ents (field "target" rel) with
           | Some t =>
               [[Lit "  - "; Val (field "type" rel); Lit " → "; Val (field "name" t);
                 Lit " ("; Val (field "type" t); Lit ")"]]
           | None => []
           end
         else if Py.eqb (field "target" rel) (field "id" e) then
           match resolve ents (field "source" rel) with
           | Some s =>
               [[Lit "  - "; Val (field "name" s); Lit " ("; Val (field "type" s);
                 Lit ") → "; Val (field "type" rel)]]
           | None => []
           end
         else [])).
    intros s rel Hrel.
    pose proof (wf_in _ _ _ (ld_wf_rels _ _ _ _ L) Hrel) as Wr.
    destruct (wf_rel_endpoint rel "source" Wr) as [Hs _]; [by left |].
    destruct (wf_rel_endpoint rel "target" Wr) as [Ht _]; [by right |].
    assert (Hn : forall x, In x ents ->
              Py.getitem x "name" = Done (field "name" x) /\
              Py.getitem x "type" = Done (field "type" x)).
    { intros x Hx. pose proof (wf_in _ _ _ We Hx) as W.
      unfold field. by rewrite (wf_entity_name _ W), (wf_entity_type _ W). }
    rewrite (bind_ok _ _ _ _ _ _ (lift_ok _ _ _ Hs)).
    rewrite (bind_ok _ _ _ _ _ _ (lift_ok _ _ _ (wf_entity_id _ He))).
    destruct (Py.eqb (field "source" rel) (field "id" e)).
    - rewrite (bind_ok _ _ _ _ _ _
                 (next_entity_ok _ _ _ _ _ "target" L Wr (or_intror eq_refl))).
      rewrite resolve_truthy by done.
      destruct (resolve ents (field "target" rel)) as [t |] eqn:R; [| done].
      destruct (Hn t (resolve_in _ _ _ R)) as [Hn1 Hn2]. cbn [default].
      rewrite (bind_ok _ _ _ _ _ _ (lift_ok _ _ _ (wf_rel_type _ Wr))).
      rewrite (bind_ok _ _ _ _ _ _ (lift_ok _ _ _ Hn1)).
      rewrite (bind_ok _ _ _ _ _ _ (lift_ok _ _ _ Hn2)).
      done.
    - rewrite (bind_ok _ _ _ _ _ _ (lift_ok _ _ _ Ht)).
      rewrite (bind_ok _ _ _ _ _ _ (lift_ok _ _ _ (wf_entity_id _ He))).
      destruct (Py.eqb (field "target" rel) (field "id" e)); [| done].
      rewrite (bind_ok _ _ _ _ _ _
                 (next_entity_ok _ _ _ _ _ "source" L Wr (or_introl eq_refl))).
      rewrite resolve_truthy by done.
      destruct (resolve ents (field "source" rel)) as [x |] eqn:R; [| done].
      destruct (Hn x (resolve_in _ _ _ R)) as [Hn1 Hn2]. cbn [default].
      rewrite (bind_ok _ _ _ _ _ _ (lift_ok _ _ _ Hn1)).
      rewrite (bind_ok _ _ _ _ _ _ (lift_ok _ _ _ Hn2)).
      rewrite (bind_ok _ _ _ _ _ _ (lift_ok _ _ _ (wf_rel_type _ Wr))).
      done. }
  repeat match goal with
  | |- context [flat_map ?f rels] =>
      change (flat_map f rels) with (relationship_lines ents rels e)
  end.
  by destruct (relationship_lines ents rels e).
Qed.

(** C9. When several entities bear the same id, every resolution of an
    endpoint, in [find_entity], [find_related] and [search], yields the
    first entity in load order that bears the id, and no query operation
    fails: the document is not assumed to have distinct ids. *)
Theorem duplicate_ids_first_wins kg h ents rels order repr pat term :
  set_order order -> extras_ok kg = true -> loaded kg h ents rels ->
  (forall i e, resolve ents i = Some e <-> first_with_id ents i e) /\
  (forall rel k, wf_rel rel = true -> endpoint k ->
     returns (next_entity kg rel k) h
       (default JNull (resolve ents (field k rel))) h) /\
  (forall e, wf_entity e = true ->
     print_relationships kg e h
     = Ok tt h
         ([Lit nl; Lit "Relationships:"] :: relationship_lines ents rels e ++
          match relationship_lines ents rels e with
          | [] => [[Lit "  No relationships found"]]
          | _ => []
          end)) /\
  (exists res, returns (find_related kg pat) h res h /\
     forall e related item, In (e, related) res -> In item related ->
       exists R k, In R rels /\ endpoint k /\
         first_with_id ents (field k R) (field "entity" item)) /\
  (exists hits, returns (search repr kg term) h hits h /\
     forall R s t, In (rel_hit R s t) hits ->
       first_with_id ents (field "source" R) s /\
       first_with_id ents (field "target" R) t) /\
  (exists r, returns (find_entity kg pat) h r h) /\
  (exists r, returns (list_types order kg) h r h) /\
  (exists r, returns (list_entities_by_type kg term) h r h) /\
  (exists r, returns (show_info kg) h r h).
Proof.
  intros Ho Hex L.
  split; [apply resolve_first |].
  split; [intros rel k Hr Hk; by eapply returns_next_entity |].
  split; [intros e He; by apply print_relationships_lines |].
  split.
  { eexists. split; [apply (returns_find_related _ _ _ _ _ L) |].
    intros e related item (e' & [= <- <-] & _)%in_map_iff Hi.
    apply (Permutation_in _ (Permutation_sym (sort_str_perm _ _))) in Hi.
    apply in_app_or in Hi as [Hi | Hi];
      apply links_item in Hi as (R & x & HR & _ & Hx & ->).
    - exists R, "target". repeat split; [done | by right |].
      by apply resolve_first.
    - exists R, "source". repeat split; [done | by left |].
      by apply resolve_first. }
  split.
  { eexists. split; [apply (returns_search _ _ _ _ _ _ L) |].
    intros R s t [H | H]%in_app_or.
    - by apply in_map_iff in H as (e & [=] & _).
    - apply rel_hits_item in H as (R' & s' & t' & _ & _ & Rs & Rt & [= <- <- <-]).
      split; by apply resolve_first. }
  split; [eexists; apply (returns_find_entity _ _ _ _ _ L) |].
  split; [eexists; apply (returns_list_types _ _ _ _ _ Ho L) |].
  split; [eexists; apply (returns_list_entities_by_type _ _ _ _ _ L) |].
  eexists; apply (returns_show_info _ _ _ _ L Hex).
Qed.

Lemma duplicate_ids_first_wins_witness :
  let kg := Example.kg2 in
  let h := [Example.ents_dup; Example.rels_dup] in
  let ents := Example.ents_dup in
  let rels := Example.rels_dup in
  resolve ents (JStr "e1") = Some Example.alice /\
  (forall i e, resolve ents i = Some e <-> first_with_id ents i e) /\
  (forall rel k, wf_rel rel = true -> endpoint k ->
     returns (next_entity kg rel k) h
       (default JNull (resolve ents (field k rel))) h) /\
  (forall e, wf_entity e = true ->
     print_relationships kg e h
     = Ok tt h
         ([Lit nl; Lit "Relationships:"] :: relationship_lines ents rels e ++
          match relationship_lines ents rels e with
          | [] => [[Lit "  No relationships found"]]
          | _ => []
          end)) /\
  (exists res, returns (find_related kg "acme") h res h /\
     forall e related item, In (e, related) res -> In item related ->
       exists R k, In R rels /\ endpoint k /\
         first_with_id ents (field k R) (field "entity" item)) /\
  (exists hits, returns (search (fun _ => EmptyString) kg "employs") h hits h /\
     forall R s t, In (rel_hit R s t) hits ->
       first_with_id ents (field "source" R) s /\
       first_with_id ents (field "target" R) t) /\
  (exists r, returns (find_entity kg "acme") h r h) /\
  (exists r, returns (list_types (fun l => l) kg) h r h) /\
  (exists r, returns (list_entities_by_type kg "employs") h r h) /\
  (exists r, returns (show_info kg) h r h).
Proof.
  split; [reflexivity |].
  apply (duplicate_ids_first_wins Example.kg2 [Example.ents_dup; Example.rels_dup]
           Example.ents_dup Example.rels_dup (fun l => l) (fun _ => EmptyString)
           "acme" "employs").
  - intros l. apply Permutation_refl.
  - reflexivity.
  - apply loaded_two; reflexivity.
Defined.

(** ** Field names in the serialized text *)

Lemma escape_plain s : plain s = true -> Dumps.escape s = s.
Proof.
  induction s as [| c s IH]; [done |].
  cbn [plain Dumps.escape]. intros [Hc Hs]%andb_prop.
  rewrite (IH Hs). unfold plain_char in Hc. unfold Dumps.escape_char.
  set (n := N_of_ascii c) in *.
  destruct (N.eqb_spec n 34); [by rewrite !andb_false_r in Hc |].
  destruct (N.eqb_spec n 92); [by rewrite !andb_false_r in Hc |].
  cbn [negb] in Hc. rewrite !andb_true_r in Hc.
  apply andb_prop in Hc as [H1%N.leb_le H2%N.leb_le].
  destruct (N.eqb_spec n 8); [lia |].
  destruct (N.eqb_spec n 12); [lia |].
  destruct (N.eqb_spec n 10); [lia |].
  destruct (N.eqb_spec n 13); [lia |].
  destruct (N.eqb_spec n 9); [lia |].
  destruct (N.leb_spec 32 n); [| lia].
  destruct (N.leb_spec n 126); [| lia].
  done.
Qed.

(** [x] occurs in [y] *)
Lemma occurs_lower n x y :
  (exists a b, y = a +:+ x +:+ b) ->
  Str.contains n (Str.lower x) = true -> Str.contains n (Str.lower y) = true.
Proof.
  intros (a & b & ->) H. rewrite !lower_app. by apply contains_app.
Qed.

Lemma dumps_obj_key k v d :
  In (k, v) d -> exists a b, Dumps.dumps (JObj d) = a +:+ Dumps.escape k +:+ b.
Proof.
  intros Hk. cbn [Dumps.dumps].
  match goal with
  | |- context [?g d +:+ "}"] => set (go := g)
  end.
  assert (G : exists a b, go d = a +:+ Dumps.escape k +:+ b).
  { induction d as [| [k' x] d IH]; [done |].
    destruct Hk as [[= -> ->] | Hk].
    - destruct d as [| kv d].
      + exists Dumps.quote, (Dumps.quote +:+ ": " +:+ Dumps.dumps v).
        cbn [go]. unfold Dumps.dumps_str. by rewrite !append_assoc.
      + exists Dumps.quote,
          (Dumps.quote +:+ ": " +:+ Dumps.dumps v +:+ ", " +:+ go (kv :: d)).
        change (go ((k, v) :: kv :: d))
          with (Dumps.dumps_str k +:+ ": " +:+ Dumps.dumps v +:+ ", " +:+ go (kv :: d)).
        unfold Dumps.dumps_str. by rewrite !append_assoc.
    - destruct (IH Hk) as (a & b & E).
      destruct d as [| kv d]; [done |].
      exists (Dumps.dumps_str k' +:+ ": " +:+ Dumps.dumps x +:+ ", " +:+ a), b.
      change (go ((k', x) :: kv :: d))
        with (Dumps.dumps_str k' +:+ ": " +:+ Dumps.dumps x +:+ ", " +:+ go (kv :: d)).
      rewrite E. by rewrite !append_assoc. }
  destruct G as (a & b & ->).
  exists ("{" +:+ a), (b +:+ "}"). by rewrite !append_assoc.
Qed.

(** C10 (as the code has it). [search] matches the term against the
    lower-cased JSON text of each entity, so field names match: an entity
    is a result for every term that is a substring, both in lower case, of
    the JSON-escaped form of one of its field names.  The escaped form of
    a field name is the name itself when it consists of printable ASCII
    characters other than the double quote and the backslash. *)
Theorem search_matches_field_names repr kg h ents rels term E d k v :
  loaded kg h ents rels -> In E ents -> E = JObj d -> In (k, v) d ->
  Str.contains (Str.lower term) (Str.lower (Dumps.escape k)) = true \/
  plain k = true /\ Str.contains (Str.lower term) (Str.lower k) = true ->
  exists hits, returns (search repr kg term) h hits h /\ In (entity_hit E) hits.
Proof.
  intros L HE -> Hk Hc.
  assert (Hc' : Str.contains (Str.lower term) (Str.lower (Dumps.escape k)) = true).
  { destruct Hc as [H | [Hp H]]; [done | by rewrite escape_plain]. }
  eexists. split; [apply (returns_search _ _ _ _ _ _ L) |].
  apply in_or_app. left. apply in_map. apply filter_In. split; [done |].
  unfold mentions. eapply occurs_lower; [by eapply dumps_obj_key | done].
Qed.

Lemma search_matches_field_names_witness :
  exists hits,
    returns (search (fun _ => EmptyString) Example.kg2 "Source_F")
      [Example.ents_a; Example.rels_a] hits [Example.ents_a; Example.rels_a] /\
    In (entity_hit Example.alice) hits.
Proof.
  apply (search_matches_field_names (fun _ => EmptyString) Example.kg2
           [Example.ents_a; Example.rels_a] Example.ents_a Example.rels_a
           "Source_F" Example.alice
           [("id", JStr "e1"); ("name", JStr "Alice"); ("type", JStr "person");
            ("source_file", JStr "notes.md"); ("confidence", JNum 1)]
           "source_file" (JStr "notes.md")).
  - apply loaded_two; reflexivity.
  - left. reflexivity.
  - reflexivity.
  - right. right. right. left. reflexivity.
  - right. split; reflexivity.
Defined.

(** C10, as stated, fails: the entity has a field named "caf" followed by
    e with acute accent (code point 233); [json.dumps] writes that letter
    as a backslash escape (u00e9), so a search for the field name itself
    does not return the entity. *)
Lemma search_field_name_counterexample :
  In (Accent.key, JNum 0)
     [("id", JStr "e1"); ("name", JStr "Corner"); ("type", JStr "place");
      ("source_file", JStr "notes.md"); ("confidence", JNum 1);
      (Accent.key, JNum 0)] /\
  forallb wf_entity Accent.ents = true /\
  Str.contains (Str.lower Accent.key) (Str.lower Accent.key) = true /\
  exists hits h o,
    query Accent.doc (fun kg => search (fun _ => EmptyString) kg Accent.key)
    = Ok hits h o /\
    ~ In (entity_hit Accent.cafe) hits.
Proof.
  split; [do 5 right; by left |].
  split; [reflexivity |].
  split; [reflexivity |].
  exists [], [Accent.ents; []]. eexists.
  split; [vm_compute; reflexivity | intros []].
Qed.

(** ** The counts of [list_types] *)

(** C2 fails on the code: for an entity without [type], [list_types]
    puts "unknown" into the set of types (line 155) but counts with
    [e.get('type') == t] (line 164), which is [None == 'unknown'] for that
    entity; it prints "unknown (0 entities)", and the counts sum to 0 for
    a document of one entity. *)
Theorem list_types_absent_type_not_counted :
  exists h o,
    query Untyped.doc (fun kg => list_types (fun l => l) kg)
    = Ok ([(JStr "unknown", O)], []) h o /\
    total [(JStr "unknown", O)] = O /\
    length Untyped.ents = 1%nat.
Proof. do 2 eexists. split; [vm_compute; reflexivity | done]. Qed.

(** with a string [type] on every member, the counts do sum to the number
    of members *)
Lemma eqb_str_eq a t : Py.eqb (JStr a) t = true <-> t = JStr a.
Proof.
  destruct t; cbn; try (split; [discriminate | done]).
  rewrite String.eqb_eq. split; [by intros -> | by intros [= ->]].
Qed.

Lemma existsb_eqb_str a l : existsb (Py.eqb (JStr a)) l = true <-> In (JStr a) l.
Proof.
  rewrite existsb_exists. split.
  - intros (t & Ht & ->%eqb_str_eq). done.
  - intros H. exists (JStr a). split; [done |]. by apply eqb_str_eq.
Qed.

Lemma distinct_spec tys :
  (forall t, In t tys -> exists s, t = JStr s) ->
  NoDup (distinct tys) /\ forall t, In t (distinct tys) <-> In t tys.
Proof.
  induction tys as [| v tys IH] using rev_ind; intros Hs.
  - split; [constructor | done].
  - destruct IH as [Hn Hi].
    { intros t Ht. apply Hs, in_or_app. by left. }
    destruct (Hs v) as [a ->]; [apply in_or_app; right; by left |].
    rewrite distinct_snoc. unfold add_distinct.
    destruct (existsb _ _) eqn:E.
    + apply existsb_eqb_str in E. split; [done |]. intros t.
      rewrite Hi, in_app_iff. cbn. split; [tauto |].
      intros [H | [<- | []]]; [done | by apply Hi].
    + split.
      * apply NoDup_app. repeat split; [done | | apply NoDup_singleton].
        intros t Ht ->%list_elem_of_singleton.
        apply list_elem_of_In, existsb_eqb_str in Ht. congruence.
      * intros t. rewrite !in_app_iff, Hi. tauto.
Qed.

Lemma list_sum_perm l1 l2 : Permutation l1 l2 -> list_sum l1 = list_sum l2.
Proof. unfold list_sum. induction 1; cbn in *; lia. Qed.

Lemma list_sum_cons x l : list_sum (x :: l) = (x + list_sum l)%nat.
Proof. reflexivity. Qed.

Lemma sum_indicator a (D : list json) :
  NoDup D -> In (JStr a) D ->
  list_sum (map (fun t => if Py.eqb (JStr a) t then 1 else 0)%nat D) = 1%nat.
Proof.
  induction 1 as [| t D Ht Hn IH]; [done |].
  cbn [map]; rewrite list_sum_cons. intros [-> | Hv].
  - rewrite (proj2 (eqb_str_eq a (JStr a)) eq_refl).
    assert (G : list_sum (map (fun t => if Py.eqb (JStr a) t then 1 else 0)%nat D)
                = 0%nat).
    { clear IH Hn. induction D as [| u D IH]; [done |]. cbn [map]; rewrite list_sum_cons.
      destruct (Py.eqb (JStr a) u) eqn:E.
      - apply eqb_str_eq in E as ->. destruct Ht. by left.
      - rewrite IH; [done |]. intros Hu. apply Ht.
        apply list_elem_of_In. right. by apply list_elem_of_In. }
    by rewrite G.
  - destruct (Py.eqb (JStr a) t) eqn:E.
    + apply eqb_str_eq in E as ->. destruct Ht. by apply list_elem_of_In.
    + by rewrite IH.
Qed.

Lemma count_sum xs D :
  (forall x, In x xs -> typed x) -> NoDup D ->
  (forall x, In x xs -> In (field "type" x) D) ->
  list_sum (map (fun t => count_of t xs) D) = length xs.
Proof.
  intros Ht Hn. induction xs as [| x xs IH]; intros Hc.
  - clear. induction D as [| t D IH]; [done |].
    cbn [map]. by rewrite list_sum_cons, IH.
  - assert (E : forall t, count_of t (x :: xs)
              = ((if Py.eqb (JStr (text "type" x)) t then 1 else 0)
                 + count_of t xs)%nat).
    { intros t. unfold count_of. cbn [List.filter].
      rewrite (typed_field x) by (apply Ht; by left).
      by destruct (Py.eqb _ t). }
    erewrite map_ext by apply E.
    assert (S : forall (f g : json -> nat) l,
              list_sum (map (fun t => f t + g t)%nat l)
              = (list_sum (map f l) + list_sum (map g l))%nat).
    { intros f g l. induction l as [| t l IHl]; [done |].
      cbn [map]. rewrite !list_sum_cons, IHl. lia. }
    rewrite S, IH.
    + rewrite sum_indicator; [done | done |].
      rewrite <- (typed_field x) by (apply Ht; by left). apply Hc. by left.
    + intros y Hy. apply Ht. by right.
    + intros y Hy. apply Hc. by right.
Qed.

(** what the specification says of the counts holds when no [type] is
    absent *)
Lemma type_counts_total order xs :
  set_order order -> (forall x, In x xs -> typed x) ->
  total (type_counts order xs) = length xs.
Proof.
  intros Ho Ht. unfold total, type_counts. rewrite map_map. cbn [snd].
  set (tys := map type_or_unknown xs).
  destruct (distinct_spec tys) as [Hn Hi].
  { intros t (x & <- & Hx)%in_map_iff. rewrite typed_or_unknown by auto. eauto. }
  rewrite (list_sum_perm _ (map (fun t => count_of t xs) (distinct tys))).
  - apply count_sum; auto. intros x Hx. apply Hi. apply in_map_iff.
    exists x. split; [| done].
    by rewrite typed_or_unknown, typed_field by auto.
  - apply Permutation_map.
    eapply Permutation_trans; [symmetry; apply sort_str_perm | apply Ho].
Qed.

(** * Further properties of the operations and of [main] *)

(** ** Loading a document *)

Lemma load_spec doc h0 :
  exists kg h1,
    load_knowledge_graph doc h0 = Ok kg (h0 ++ h1) [] /\
    forall key,
      match Py.assoc key doc with
      | None => Py.assoc key kg = None
      | Some (JArr l) =>
          exists a, Py.assoc key kg = Some (ListAt a) /\ (h0 ++ h1) !! a = Some l
      | Some j => Py.assoc key kg = Some (Imm j)
      end.
Proof.
  revert h0. induction doc as [| [k v] doc IH]; intros h0.
  - exists [], []. rewrite app_nil_r. by split.
  - assert (G : forall h, exists kg h1,
              load_knowledge_graph doc h = Ok kg (h ++ h1) [] /\
              forall key,
                match Py.assoc key doc with
                | None => Py.assoc key kg = None
                | Some (JArr l) =>
                    exists a, Py.assoc key kg = Some (ListAt a) /\
                              (h ++ h1) !! a = Some l
                | Some j => Py.assoc key kg = Some (Imm j)
                end) by exact IH.
    destruct v as [| b | n | s | l | d].
    1-4, 6: destruct (G h0) as (kg & h1 & E & H);
      eexists (_ :: kg), h1; (split; [cbn [load_knowledge_graph]; unfold bind; by rewrite E |]);
      intros key; cbn [Py.assoc]; destruct (String.eqb k key); [done | apply H].
    destruct (G (h0 ++ [l])) as (kg & h1 & E & H).
    exists ((k, ListAt (length h0)) :: kg), ([l] ++ h1).
    rewrite app_assoc. split.
    + cbn [load_knowledge_graph]. unfold bind, alloc. by rewrite E.
    + intros key. cbn [Py.assoc]. destruct (String.eqb k key); [| apply H].
      exists (length h0). split; [done |].
      apply lookup_app_l_Some, lookup_local.
Qed.

Lemma wf_doc_loaded doc :
  wf_doc doc = true ->
  exists kg h ents rels,
    load_knowledge_graph doc [] = Ok kg h [] /\
    doc_seq doc "entities" = Done ents /\
    doc_seq doc "relationships" = Done rels /\
    loaded kg h ents rels /\ extras_ok kg = true.
Proof.
  unfold wf_doc. intros H.
  apply andb_prop in H as [H Hm]. apply andb_prop in H as [H Hn].
  apply andb_prop in H as [He Hr].
  destruct (doc_seq doc "entities") as [ents |] eqn:Ee; [| done].
  destruct (doc_seq doc "relationships") as [rels |] eqn:Er; [| done].
  destruct (load_spec doc []) as (kg & h & E & K). cbn [app] in E, K.
  exists kg, h, ents, rels. repeat split; auto.
  - unfold has_seq. pose proof (K "entities") as Ke. unfold doc_seq in Ee.
    destruct (Py.assoc "entities" doc) as [[] |];
      try (rewrite Ke; done); try (rewrite Ke; by injection Ee).
    destruct Ke as (a & -> & Ha). cbn in Ee. by injection Ee as <-.
  - unfold has_seq. pose proof (K "relationships") as Ke. unfold doc_seq in Er.
    destruct (Py.assoc "relationships" doc) as [[] |];
      try (rewrite Ke; done); try (rewrite Ke; by injection Er).
    destruct Ke as (a & -> & Ha). cbn in Er. by injection Er as <-.
  - unfold extras_ok. pose proof (K "notes") as Kn. pose proof (K "metadata") as Km.
    destruct (Py.assoc "notes" doc) as [[] |]; try discriminate;
      destruct (Py.assoc "metadata" doc) as [[] |]; try discriminate;
      repeat match goal with
             | H : exists _, _ |- _ => destruct H as (? & ? & ?)
             end;
      by repeat match goal with H : Py.assoc _ kg = _ |- _ => rewrite H; clear H end.
Qed.

(** ** [list_entities_by_type] *)

(** X1. [list_entities_by_type] returns exactly the entities whose type is
    the given one, both in lower case, arranged by name under ordinal
    comparison; entities with the same name keep their load order. *)
Theorem list_entities_by_type_sorted kg h ents rels ty :
  loaded kg h ents rels ->
  exists res, returns (list_entities_by_type kg ty) h res h /\
    (forall e, In e res <->
       In e ents /\ Str.lower (text "type" e) = Str.lower ty) /\
    Permutation (List.filter (type_matches ty) ents) res /\
    StronglySorted (fun a b => name_le (text "name" a) (text "name" b)) res /\
    forall n,
      List.filter (fun x => String.eqb (text "name" x) n) res
      = List.filter (fun x => String.eqb (text "name" x) n)
          (List.filter (type_matches ty) ents).
Proof.
  intros L. eexists. split; [apply (returns_list_entities_by_type _ _ _ _ _ L) |].
  split; [| split; [apply sort_str_perm | split;
                    [apply sort_str_sorted | intros n; apply sort_str_stable]]].
  intros e. split.
  - intros He. apply (Permutation_in _ (Permutation_sym (sort_str_perm _ _))) in He.
    apply filter_In in He as [He Ht]. split; [done |].
    by apply String.eqb_eq.
  - intros [He Ht]. apply (Permutation_in _ (sort_str_perm _ _)).
    apply filter_In. split; [done |]. by apply String.eqb_eq.
Qed.

Lemma list_entities_by_type_sorted_witness :
  exists res,
    returns (list_entities_by_type Example.kg2 "PERSON")
      [Example.ents_dup; Example.rels_dup] res [Example.ents_dup; Example.rels_dup] /\
    (forall e, In e res <->
       In e Example.ents_dup /\ Str.lower (text "type" e) = Str.lower "PERSON") /\
    Permutation (List.filter (type_matches "PERSON") Example.ents_dup) res /\
    StronglySorted (fun a b => name_le (text "name" a) (text "name" b)) res /\
    forall n,
      List.filter (fun x => String.eqb (text "name" x) n) res
      = List.filter (fun x => String.eqb (text "name" x) n)
          (List.filter (type_matches "PERSON") Example.ents_dup).
Proof.
  apply (list_entities_by_type_sorted Example.kg2 [Example.ents_dup; Example.rels_dup]
           Example.ents_dup Example.rels_dup "PERSON").
  apply loaded_two; reflexivity.
Defined.

(** ** [list_types] and [show_info] on typed members *)

Lemma sorted_strict (f : json -> string) l :
  (forall x y, In x l -> In y l -> f x = f y -> x = y) -> NoDup l ->
  StronglySorted (fun a b => name_le (f a) (f b)) l ->
  StronglySorted (fun a b => Str.ltb (f a) (f b) = true) l.
Proof.
  intros Hinj Hn. induction 1 as [| x l Hs IH Hx]; [constructor |].
  apply NoDup_cons in Hn as [Hx' Hn].
  constructor.
  - apply IH; [| done]. intros a b Ha Hb. apply Hinj; by right.
  - rewrite List.Forall_forall in *. intros y Hy.
    destruct (Str.ltb (f x) (f y)) eqn:E; [done |].
    destruct Hx'. apply list_elem_of_In.
    rewrite (Hinj x y); [done | by left | by right |].
    apply ltb_connex; [done | by apply Hx].
Qed.

Lemma distinct_length vs : (length (distinct vs) <= length vs)%nat.
Proof.
  induction vs as [| v vs IH] using rev_ind; [done |].
  rewrite distinct_snoc. unfold add_distinct.
  destruct (existsb _ _); rewrite ?length_app; cbn; lia.
Qed.

Lemma typed_types xs :
  (forall x, In x xs -> typed x) ->
  map type_or_unknown xs = map (field "type") xs /\
  forall t, In t (map type_or_unknown xs) -> exists s, t = JStr s.
Proof.
  intros Ht. split.
  - apply map_ext_in. intros x Hx.
    by rewrite typed_or_unknown, typed_field by auto.
  - intros t (x & <- & Hx)%in_map_iff. rewrite typed_or_unknown by auto. eauto.
Qed.

Lemma type_counts_facts order xs :
  set_order order -> (forall x, In x xs -> typed x) ->
  total (type_counts order xs) = length xs /\
  length (type_counts order xs) = length (distinct (map (field "type") xs)) /\
  (forall t n, In (t, n) (type_counts order xs) ->
     (1 <= n)%nat /\ n = count_of t xs /\ exists x, In x xs /\ field "type" x = t) /\
  StronglySorted (fun a b => Str.ltb (str_of a) (str_of b) = true)
    (map fst (type_counts order xs)).
Proof.
  intros Ho Ht. destruct (typed_types xs Ht) as [Em Hs].
  destruct (distinct_spec _ Hs) as [Hn Hi].
  set (D := distinct (map type_or_unknown xs)) in *.
  assert (P : Permutation D (sort_str str_of (order D))).
  { eapply Permutation_trans; [symmetry; apply Ho | apply sort_str_perm]. }
  assert (HD : forall t, In t (sort_str str_of (order D)) ->
            exists x, In x xs /\ field "type" x = t).
  { intros t Hd. apply (Permutation_in _ (Permutation_sym P)) in Hd.
    apply Hi in Hd. rewrite Em in Hd.
    apply in_map_iff in Hd as (x & <- & Hx). eauto. }
  split; [by apply type_counts_total |]. split; [| split].
  - unfold type_counts. fold D. rewrite length_map, <- Em. fold D.
    symmetry. by apply Permutation_length.
  - unfold type_counts. fold D. intros t n (t' & [= <- <-] & Hd)%in_map_iff.
    destruct (HD _ Hd) as (x & Hx & E). repeat split; eauto.
    unfold count_of.
    assert (In x (List.filter (fun y => Py.eqb (field "type" y) t') xs)).
    { apply filter_In. split; [done |]. rewrite E.
      destruct (Ht x Hx) as (d & -> & Hd'). rewrite <- E, (has_str_field _ _ Hd').
      by apply eqb_str_eq. }
    destruct (List.filter _ xs); [done | cbn; lia].
  - unfold type_counts. fold D. rewrite map_map. cbn [fst]. rewrite map_id.
    assert (Hs' : forall t, In t (sort_str str_of (order D)) -> exists s, t = JStr s).
    { intros t Hd. apply (Permutation_in _ (Permutation_sym P)) in Hd.
      apply Hs. by apply Hi. }
    apply sorted_strict.
    + intros a b Ha Hb. destruct (Hs' a Ha) as [s ->], (Hs' b Hb) as [s' ->].
      cbn. by intros ->.
    + by rewrite <- P.
    + apply sort_str_sorted.
Qed.

(** X2. When every entity and every relationship has a string type,
    [list_types] lists each type once, in strictly ascending order, with
    the number of members of that type, which is at least 1; the counts of
    the entity types sum to the number of entities and those of the
    relationship types to the number of relationships. *)
Theorem list_types_counts_typed order kg h ents rels :
  set_order order -> loaded kg h ents rels ->
  exists ec rc, returns (list_types order kg) h (ec, rc) h /\
    total ec = length ents /\ total rc = length rels /\
    (forall t n, In (t, n) ec ->
       (1 <= n)%nat /\ n = count_of t ents /\ exists e, In e ents /\ field "type" e = t) /\
    (forall t n, In (t, n) rc ->
       (1 <= n)%nat /\ n = count_of t rels /\ exists r, In r rels /\ field "type" r = t) /\
    StronglySorted (fun a b => Str.ltb (str_of a) (str_of b) = true) (map fst ec) /\
    StronglySorted (fun a b => Str.ltb (str_of a) (str_of b) = true) (map fst rc).
Proof.
  intros Ho L.
  assert (Te : forall x, In x ents -> typed x).
  { intros x Hx. eapply wf_entity_typed, wf_in; eauto. apply L. }
  assert (Tr : forall x, In x rels -> typed x).
  { intros x Hx. eapply wf_rel_typed, wf_in; eauto. apply L. }
  destruct (type_counts_facts order ents Ho Te) as (E1 & _ & E3 & E4).
  destruct (type_counts_facts order rels Ho Tr) as (R1 & _ & R3 & R4).
  do 2 eexists. split; [apply (returns_list_types _ _ _ _ _ Ho L) |].
  auto 10.
Qed.

Lemma list_types_counts_typed_witness :
  exists ec rc,
    returns (list_types (@rev json) Example.kg2)
      [Example.ents_dup; Example.rels_dup] (ec, rc) [Example.ents_dup; Example.rels_dup] /\
    total ec = length Example.ents_dup /\ total rc = length Example.rels_dup /\
    (forall t n, In (t, n) ec ->
       (1 <= n)%nat /\ n = count_of t Example.ents_dup /\
       exists e, In e Example.ents_dup /\ field "type" e = t) /\
    (forall t n, In (t, n) rc ->
       (1 <= n)%nat /\ n = count_of t Example.rels_dup /\
       exists r, In r Example.rels_dup /\ field "type" r = t) /\
    StronglySorted (fun a b => Str.ltb (str_of a) (str_of b) = true) (map fst ec) /\
    StronglySorted (fun a b => Str.ltb (str_of a) (str_of b) = true) (map fst rc).
Proof.
  apply (list_types_counts_typed (@rev json) Example.kg2
           [Example.ents_dup; Example.rels_dup] Example.ents_dup Example.rels_dup).
  - intros l. apply Permutation_sym, Permutation_rev.
  - apply loaded_two; reflexivity.
Defined.

(** X3. [show_info] reports the number of entities and of relationships
    of the document, to which the counts that [list_types] prints sum,
    and as numbers of types the numbers of types that [list_types] lists;
    there are at most as many types as members. *)
Theorem show_info_agrees_with_list_types order kg h ents rels :
  set_order order -> extras_ok kg = true -> loaded kg h ents rels ->
  exists i ec rc,
    returns (show_info kg) h i h /\
    returns (list_types order kg) h (ec, rc) h /\
    entity_count i = length ents /\ rel_count i = length rels /\
    note_count i = notes_len kg h /\
    entity_type_count i = length ec /\ rel_type_count i = length rc /\
    total ec = entity_count i /\ total rc = rel_count i /\
    (entity_type_count i <= entity_count i)%nat /\
    (rel_type_count i <= rel_count i)%nat.
Proof.
  intros Ho Hx L.
  assert (Te : forall x, In x ents -> typed x).
  { intros x Hx'. eapply wf_entity_typed, wf_in; eauto. apply L. }
  assert (Tr : forall x, In x rels -> typed x).
  { intros x Hx'. eapply wf_rel_typed, wf_in; eauto. apply L. }
  destruct (type_counts_facts order ents Ho Te) as (E1 & E2 & _).
  destruct (type_counts_facts order rels Ho Tr) as (R1 & R2 & _).
  do 3 eexists. split; [apply (returns_show_info _ _ _ _ L Hx) |].
  split; [apply (returns_list_types _ _ _ _ _ Ho L) |].
  cbn. repeat split; auto.
  - pose proof (distinct_length (map (field "type") ents)) as H.
    by rewrite length_map in H.
  - pose proof (distinct_length (map (field "type") rels)) as H.
    by rewrite length_map in H.
Qed.

Lemma show_info_agrees_with_list_types_witness :
  exists i ec rc,
    returns (show_info Example.kg2) [Example.ents_dup; Example.rels_dup] i
      [Example.ents_dup; Example.rels_dup] /\
    returns (list_types (fun l => l) Example.kg2)
      [Example.ents_dup; Example.rels_dup] (ec, rc) [Example.ents_dup; Example.rels_dup] /\
    entity_count i = length Example.ents_dup /\
    rel_count i = length Example.rels_dup /\
    note_count i = notes_len Example.kg2 [Example.ents_dup; Example.rels_dup] /\
    entity_type_count i = length ec /\ rel_type_count i = length rc /\
    total ec = entity_count i /\ total rc = rel_count i /\
    (entity_type_count i <= entity_count i)%nat /\
    (rel_type_count i <= rel_count i)%nat.
Proof.
  apply (show_info_agrees_with_list_types (fun l => l) Example.kg2
           [Example.ents_dup; Example.rels_dup] Example.ents_dup Example.rels_dup).
  - intros l. apply Permutation_refl.
  - reflexivity.
  - apply loaded_two; reflexivity.
Defined.

(** ** The relationships of an entity in [find_entity] and [find_related] *)

Lemma self_loop_count ents rels e :
  forallb wf_rel rels = true -> wf_entity e = true -> In e ents ->
  length (collected ents rels e)
  = (length (relationship_lines ents rels e)
     + length (List.filter (self_loop e) rels))%nat.
Proof.
  intros Hw He Hin. unfold collected, links, relationship_lines.
  rewrite length_app.
  match goal with
  | |- (length (flat_map ?f1 _) + length (flat_map ?f2 _)
        = length (flat_map ?f3 _) + _)%nat =>
      set (F1 := f1); set (F2 := f2); set (F3 := f3)
  end.
  induction rels as [| rel rels IH]; [done |].
  cbn in Hw. apply andb_prop in Hw as [Hr Hw]. specialize (IH Hw).
  assert (Hstep : (length (F1 rel) + length (F2 rel)
                   = length (F3 rel) + if self_loop e rel then 1 else 0)%nat).
  { unfold F1, F2, F3, self_loop.
    destruct (Py.eqb (field "source" rel) (field "id" e)) eqn:Es;
      destruct (Py.eqb (field "target" rel) (field "id" e)) eqn:Et; cbn [andb].
    - rewrite (wf_id_endpoint_sym e rel "source") in Es by (auto; by left).
      rewrite (wf_id_endpoint_sym e rel "target") in Et by (auto; by right).
      destruct (resolve_some _ _ _ Hin Es) as [s ->].
      by destruct (resolve_some _ _ _ Hin Et) as [t ->].
    - destruct (resolve ents (field "target" rel)); cbn [length]; lia.
    - destruct (resolve ents (field "source" rel)); cbn [length]; lia.
    - done. }
  cbn [flat_map List.filter]. rewrite !length_app.
  unfold line in *. destruct (self_loop e rel); cbn [length]; lia.
Qed.

(** X4. For an entity of the document, [find_related] collects one triple
    more than [find_entity] prints relationship lines for each
    relationship from the entity to itself, and the same number
    otherwise: [find_entity] tests the target end only when the source
    end is not the entity (the [elif] of line 86), [find_related] tests
    both ends. *)
Theorem self_loop_listed_once_by_find_entity kg h ents rels e :
  loaded kg h ents rels -> In e ents ->
  exists triples lines,
    returns (related_of kg e) h triples (h ++ [triples]) /\
    print_relationships kg e h
    = Ok tt h
        ([Lit nl; Lit "Relationships:"] :: lines ++
         match lines with
         | [] => [[Lit "  No relationships found"]]
         | _ => []
         end) /\
    length triples
    = (length lines + length (List.filter (self_loop e) rels))%nat.
Proof.
  intros L Hin.
  assert (He : wf_entity e = true) by (eapply wf_in; eauto; apply L).
  do 2 eexists. split; [by apply returns_related_of |].
  split; [by apply print_relationships_lines |].
  rewrite <- (Permutation_length (sort_str_perm item_name _)).
  apply self_loop_count; auto. apply L.
Qed.

Lemma self_loop_listed_once_by_find_entity_witness :
  exists triples lines,
    returns (related_of Example.kg2 Example.alice)
      [Example.ents_dup; Example.rels_dup] triples
      ([Example.ents_dup; Example.rels_dup] ++ [triples]) /\
    print_relationships Example.kg2 Example.alice [Example.ents_dup; Example.rels_dup]
    = Ok tt [Example.ents_dup; Example.rels_dup]
        ([Lit nl; Lit "Relationships:"] :: lines ++
         match lines with
         | [] => [[Lit "  No relationships found"]]
         | _ => []
         end) /\
    length triples
    = (length lines
       + length (List.filter (self_loop Example.alice) Example.rels_dup))%nat.
Proof.
  apply (self_loop_listed_once_by_find_entity Example.kg2
           [Example.ents_dup; Example.rels_dup] Example.ents_dup Example.rels_dup).
  - apply loaded_two; reflexivity.
  - vm_compute. auto.
Defined.

(** ** The results of [search] *)

Lemma rel_hits_data ents rels term :
  map (field "data") (rel_hits ents rels term)
  = List.filter (reportable ents term) rels /\
  map (field "type") (rel_hits ents rels term)
  = map (fun _ => JStr "relationship") (List.filter (reportable ents term) rels).
Proof.
  unfold rel_hits, reportable, dangling.
  induction rels as [| rel rels [IH1 IH2]]; [done |].
  cbn [flat_map List.filter]. rewrite !map_app, IH1, IH2.
  destruct (mentions term rel); [| done].
  by destruct (resolve ents (field "source" rel)),
              (resolve ents (field "target" rel)).
Qed.

(** X5. The results of [search] are the entities that mention the term,
    in load order, followed by the relationships that mention it and
    whose two ends resolve, in load order. *)
Theorem search_results_in_load_order repr kg h ents rels term :
  loaded kg h ents rels ->
  exists hits, returns (search repr kg term) h hits h /\
    map (field "data") hits
    = List.filter (mentions term) ents ++ List.filter (reportable ents term) rels /\
    map (field "type") hits
    = map (fun _ => JStr "entity") (List.filter (mentions term) ents) ++
      map (fun _ => JStr "relationship") (List.filter (reportable ents term) rels).
Proof.
  intros L. eexists. split; [apply (returns_search _ _ _ _ _ _ L) |].
  destruct (rel_hits_data ents rels term) as [E1 E2].
  rewrite !map_app, E1, E2, !map_map. cbn. by rewrite map_id.
Qed.

Lemma search_results_in_load_order_witness :
  exists hits,
    returns (search (fun _ => EmptyString) Example.kg2 "e1")
      [Example.ents_a; Example.rels_c] hits [Example.ents_a; Example.rels_c] /\
    map (field "data") hits
    = List.filter (mentions "e1") Example.ents_a ++
      List.filter (reportable Example.ents_a "e1") Example.rels_c /\
    map (field "type") hits
    = map (fun _ => JStr "entity") (List.filter (mentions "e1") Example.ents_a) ++
      map (fun _ => JStr "relationship")
        (List.filter (reportable Example.ents_a "e1") Example.rels_c).
Proof.
  apply (search_results_in_load_order (fun _ => EmptyString) Example.kg2
           [Example.ents_a; Example.rels_c] Example.ents_a Example.rels_c "e1").
  apply loaded_two; reflexivity.
Defined.

Lemma assoc_in {V} k (d : list (string * V)) v : Py.assoc k d = Some v -> In (k, v) d.
Proof.
  induction d as [| [k' x] d IH]; [done |]. cbn.
  destruct (String.eqb_spec k' k) as [-> | _]; [intros [= ->]; by left | auto].
Qed.

Lemma dumps_obj_value k v d :
  In (k, v) d -> exists a b, Dumps.dumps (JObj d) = a +:+ Dumps.dumps v +:+ b.
Proof.
  intros Hk. cbn [Dumps.dumps].
  match goal with
  | |- context [?g d +:+ "}"] => set (go := g)
  end.
  assert (G : exists a b, go d = a +:+ Dumps.dumps v +:+ b).
  { induction d as [| [k' x] d IH]; [done |].
    destruct Hk as [[= -> ->] | Hk].
    - destruct d as [| kv d].
      + exists (Dumps.dumps_str k +:+ ": "), EmptyString.
        cbn [go]. by rewrite !append_assoc, append_empty_r.
      + exists (Dumps.dumps_str k +:+ ": "), (", " +:+ go (kv :: d)).
        change (go ((k, v) :: kv :: d))
          with (Dumps.dumps_str k +:+ ": " +:+ Dumps.dumps v +:+ ", " +:+ go (kv :: d)).
        by rewrite !append_assoc.
    - destruct (IH Hk) as (a & b & E).
      destruct d as [| kv d]; [done |].
      exists (Dumps.dumps_str k' +:+ ": " +:+ Dumps.dumps x +:+ ", " +:+ a), b.
      change (go ((k', x) :: kv :: d))
        with (Dumps.dumps_str k' +:+ ": " +:+ Dumps.dumps x +:+ ", " +:+ go (kv :: d)).
      rewrite E. by rewrite !append_assoc. }
  destruct G as (a & b & ->).
  exists ("{" +:+ a), (b +:+ "}"). by rewrite !append_assoc.
Qed.

Lemma plain_name_mentioned pat e :
  wf_entity e = true -> plain (text "name" e) = true ->
  name_matches pat e = true -> mentions pat e = true.
Proof.
  intros (d & -> & _ & Hn & _)%wf_entity_inv Hp Hm.
  unfold name_matches in Hm. unfold mentions.
  unfold text, field, has_str in *. cbn [Py.getitem] in *.
  destruct (Py.assoc "name" d) as [[| | | s | |] |] eqn:E; try discriminate.
  cbn in Hp, Hm.
  destruct (dumps_obj_value _ _ _ (assoc_in _ _ _ E)) as (a & b & ->).
  cbn [Dumps.dumps]. unfold Dumps.dumps_str. rewrite (escape_plain _ Hp).
  apply (occurs_lower _ s); [| done].
  exists (a +:+ Dumps.quote), (Dumps.quote +:+ b). by rewrite !append_assoc.
Qed.

(** X6. Every entity that [find_entity] finds for a pattern and whose
    name consists of printable ASCII characters other than the double
    quote and the backslash is among the results of [search] for the same
    pattern. *)
Theorem search_finds_what_find_entity_finds repr kg h ents rels pat :
  loaded kg h ents rels ->
  exists found hits,
    returns (find_entity kg pat) h found h /\
    returns (search repr kg pat) h hits h /\
    forall e, In e found -> plain (text "name" e) = true -> In (entity_hit e) hits.
Proof.
  intros L. do 2 eexists.
  split; [apply (returns_find_entity _ _ _ _ _ L) |].
  split; [apply (returns_search _ _ _ _ _ _ L) |].
  intros e [He Hm]%filter_In Hp. apply in_or_app. left.
  apply in_map, filter_In. split; [done |].
  apply plain_name_mentioned; auto. eapply wf_in; eauto. apply L.
Qed.

Lemma search_finds_what_find_entity_finds_witness :
  exists found hits,
    returns (find_entity Example.kg2 "ali")
      [Example.ents_dup; Example.rels_dup] found [Example.ents_dup; Example.rels_dup] /\
    returns (search (fun _ => EmptyString) Example.kg2 "ali")
      [Example.ents_dup; Example.rels_dup] hits [Example.ents_dup; Example.rels_dup] /\
    forall e, In e found -> plain (text "name" e) = true -> In (entity_hit e) hits.
Proof.
  apply (search_finds_what_find_entity_finds (fun _ => EmptyString) Example.kg2
           [Example.ents_dup; Example.rels_dup] Example.ents_dup Example.rels_dup "ali").
  apply loaded_two; reflexivity.
Defined.

(** ** Terms outside printable ASCII *)

Lemma printable_app a b : printable (a +:+ b) = printable a && printable b.
Proof.
  induction a as [| c a IH]; [done |].
  rewrite append_cons. cbn [printable]. by rewrite IH, andb_assoc.
Qed.

Lemma lower_char_printable c :
  printable_char (Str.lower_char c) = printable_char c.
Proof. by destruct c as [[] [] [] [] [] [] [] []]. Qed.

Lemma lower_printable s : printable (Str.lower s) = printable s.
Proof.
  induction s as [| c s IH]; [done |].
  cbn [Str.lower printable]. by rewrite lower_char_printable, IH.
Qed.

Lemma escape_char_printable c : printable (Dumps.escape_char c) = true.
Proof. by destruct c as [[] [] [] [] [] [] [] []]. Qed.

Lemma escape_printable s : printable (Dumps.escape s) = true.
Proof.
  induction s as [| c s IH]; [done |].
  cbn [Dumps.escape]. by rewrite printable_app, escape_char_printable, IH.
Qed.

Lemma dumps_str_printable s : printable (Dumps.dumps_str s) = true.
Proof.
  unfold Dumps.dumps_str. by rewrite !printable_app, escape_printable.
Qed.

Lemma dumps_int_printable n : printable (Dumps.dumps_int n) = true.
Proof.
  unfold Dumps.dumps_int.
  assert (G : forall d, printable (NilEmpty.string_of_uint d) = true).
  { induction d; cbn; auto. }
  assert (G' : forall d, printable (NilZero.string_of_uint d) = true).
  { intros d. destruct d; try apply G. reflexivity. }
  destruct (Z.to_int n) as [d | d]; cbn [NilZero.string_of_int printable];
    by rewrite ?G'.
Qed.

(** [json.dumps] writes printable ASCII only *)
Lemma dumps_printable : forall v, printable (Dumps.dumps v) = true.
Proof.
  fix IH 1. intros [| [] | n | s | l | d]; cbn [Dumps.dumps]; try reflexivity.
  - apply dumps_int_printable.
  - apply dumps_str_printable.
  - match goal with
    | |- context [?g l +:+ "]"] => set (go := g)
    end.
    rewrite !printable_app. cbn [printable andb].
    assert (G : printable (go l) = true); [| by rewrite G].
    induction l as [| x l IHl]; [done |].
    destruct l as [| y l]; [apply IH |].
    change (go (x :: y :: l)) with (Dumps.dumps x +:+ ", " +:+ go (y :: l)).
    by rewrite !printable_app, IH, IHl.
  - match goal with
    | |- context [?g d +:+ "}"] => set (go := g)
    end.
    rewrite !printable_app. cbn [printable andb].
    assert (G : printable (go d) = true); [| by rewrite G].
    induction d as [| [k x] d IHd]; [done |].
    destruct d as [| kv d].
    + cbn [go]. by rewrite !printable_app, dumps_str_printable, IH.
    + change (go ((k, x) :: kv :: d))
        with (Dumps.dumps_str k +:+ ": " +:+ Dumps.dumps x +:+ ", " +:+ go (kv :: d)).
      by rewrite !printable_app, dumps_str_printable, IH, IHd.
Qed.

Lemma unprintable_not_mentioned term x :
  printable term = false -> mentions term x = false.
Proof.
  intros Hp. unfold mentions.
  destruct (Str.contains _ _) eqn:E; [| done].
  apply contains_spec in E as (a & b & E).
  pose proof (lower_printable (Dumps.dumps x)) as P.
  rewrite dumps_printable, E, !printable_app, lower_printable, Hp in P.
  by rewrite andb_false_r in P.
Qed.

Lemma for_each_skip {A} (l : list A) (body : A -> prog unit) h :
  (forall x, In x l -> body x h = Ok tt h []) -> for_each l body h = Ok tt h [].
Proof.
  induction l as [| x l IH]; intros Hb; [done |].
  cbn [for_each]. rewrite (bind_ok _ _ _ _ _ _ (Hb x (or_introl eq_refl))).
  rewrite IH; [done |]. intros y Hy. apply Hb. by right.
Qed.

(** X7. A search term with a character outside printable ASCII (a
    control character, or a character with a code point from 127 to 255)
    matches nothing, whatever the document holds: [search] compares it
    with the text [json.dumps] writes, where every such character is an
    escape sequence.  It prints the heading and "No results found". *)
Theorem search_term_outside_ascii repr kg h ents rels term :
  has_seq kg h "entities" ents -> has_seq kg h "relationships" rels ->
  printable term = false ->
  search repr kg term h
  = Ok [] h
      [[Lit nl; Lit "Search results for '"; Val (JStr (Str.lower term)); Lit "':"];
       rule 40; [Lit "  No results found"]].
Proof.
  intros He Hr Hp. unfold search, scoped. cbv zeta.
  rewrite (bind_ok _ _ _ _ _ _ eq_refl).
  assert (E1 : search_entities kg (Str.lower term) (length h) (h ++ [[]])
               = Ok tt (h ++ [[]]) []).
  { unfold search_entities.
    rewrite (bind_ok _ _ _ _ _ _ (iter_ok _ _ _ _ (has_seq_app _ _ _ _ _ He))).
    rewrite for_each_skip; [done |]. intros x _.
    change (Str.contains (Str.lower term) (Str.lower (Dumps.dumps x)))
      with (mentions term x).
    by rewrite unprintable_not_mentioned. }
  assert (E2 : search_relationships kg (Str.lower term) (length h) (h ++ [[]])
               = Ok tt (h ++ [[]]) []).
  { unfold search_relationships.
    rewrite (bind_ok _ _ _ _ _ _ (iter_ok _ _ _ _ (has_seq_app _ _ _ _ _ Hr))).
    rewrite for_each_skip; [done |]. intros x _.
    change (Str.contains (Str.lower term) (Str.lower (Dumps.dumps x)))
      with (mentions term x).
    by rewrite unprintable_not_mentioned. }
  rewrite (bind_ok _ _ _ _ _ _ E1), (bind_ok _ _ _ _ _ _ E2).
  do 2 rewrite (bind_ok _ _ _ _ _ _ eq_refl).
  unfold bind, read. rewrite lookup_local. cbn.
  by rewrite take_app_length.
Qed.

Lemma search_term_outside_ascii_witness :
  search (fun _ => EmptyString) Example.kg2 Accent.key
    [Accent.ents; []]
  = Ok [] [Accent.ents; []]
      [[Lit nl; Lit "Search results for '"; Val (JStr (Str.lower Accent.key)); Lit "':"];
       rule 40; [Lit "  No results found"]].
Proof.
  apply (search_term_outside_ascii (fun _ => EmptyString) Example.kg2
           [Accent.ents; []] Accent.ents []); reflexivity.
Defined.

(** ** A name that is not a string *)

Lemma bind_raise {A B} (m : prog A) (k : A -> prog B) h e h1 o :
  m h = Raise e h1 o -> bind m k h = Raise e h1 o.
Proof. intros H. unfold bind. by rewrite H. Qed.

Lemma collect_loop_raises name (es : list json) h :
  forallb nameable es = false ->
  forall cur, exists cur',
    for_each es (fun entity =>
      let* nm := lift (Py.get entity "name" (JStr EmptyString)) in
      let* low := lift (Py.lower nm) in
      if Str.contains name low then append (length h) entity else ret tt)
      (h ++ [cur])
    = Raise AttributeError (h ++ [cur']) [].
Proof.
  induction es as [| x es IH]; [done |]. cbn [forallb for_each]. intros Hn cur.
  destruct (nameable x) eqn:Ex.
  - cbn [andb] in Hn.
    assert (exists s, Py.get x "name" (JStr EmptyString) = Done (JStr s)) as [s Es].
    { destruct x as [| | | | | d]; try discriminate. cbn in *.
      destruct (Py.assoc "name" d) as [[| | | s | |] |]; try discriminate; eauto. }
    match goal with
    | |- context [bind ?m _] =>
        assert (exists c, m (h ++ [cur]) = Ok tt (h ++ [c]) []) as [c Ec]
    end.
    { rewrite (bind_ok _ _ _ _ _ _ (lift_ok _ _ _ Es)). cbn.
      destruct (Str.contains name (Str.lower s)).
      - exists (cur ++ [x]). unfold append. by rewrite alter_local.
      - by exists cur. }
    rewrite (bind_ok _ _ _ _ _ _ Ec).
    destruct (IH Hn c) as [c' ->]. by exists c'.
  - exists cur. apply bind_raise.
    destruct x as [| | | | | d]; try done. cbn in Ex |- *.
    unfold bind. cbn.
    by destruct (Py.assoc "name" d) as [[| | | s | |] |].
Qed.

Lemma collect_by_name_raises kg h ents name :
  has_seq kg h "entities" ents -> forallb nameable ents = false ->
  exists cur, collect_by_name kg name h = Raise AttributeError (h ++ [cur]) [].
Proof.
  intros He Hn. unfold collect_by_name.
  rewrite (bind_ok _ _ _ _ _ _ eq_refl).
  rewrite (bind_ok _ _ _ _ _ _ (iter_ok _ _ _ _ (has_seq_app _ _ _ _ _ He))).
  destruct (collect_loop_raises name ents h Hn []) as [cur E].
  exists cur. by rewrite (bind_raise _ _ _ _ _ _ E).
Qed.

(** X8. If one member of the entity sequence is not a mapping, or has a
    [name] that is not a string (null, a number, a list, a mapping), then
    [find_entity] and [find_related] raise [AttributeError] for every
    pattern, before anything is printed, also when the pattern matches
    another entity only. *)
Theorem find_raises_on_non_string_name kg h ents pat :
  has_seq kg h "entities" ents -> forallb nameable ents = false ->
  find_entity kg pat h = Raise AttributeError h [] /\
  find_related kg pat h = Raise AttributeError h [].
Proof.
  intros He Hn.
  destruct (collect_by_name_raises kg h ents (Str.lower pat) He Hn) as [cur E].
  unfold find_entity, find_related, scoped. cbv zeta.
  rewrite !(bind_raise _ _ _ _ _ _ E). by rewrite take_app_length.
Qed.

Lemma find_raises_on_non_string_name_witness :
  find_entity Example.kg2 "alice"
    [[Example.alice; JObj [("id", JStr "e7"); ("name", JNull)]]; []]
  = Raise AttributeError
      [[Example.alice; JObj [("id", JStr "e7"); ("name", JNull)]]; []] [] /\
  find_related Example.kg2 "alice"
    [[Example.alice; JObj [("id", JStr "e7"); ("name", JNull)]]; []]
  = Raise AttributeError
      [[Example.alice; JObj [("id", JStr "e7"); ("name", JNull)]]; []] [].
Proof.
  apply (find_raises_on_non_string_name Example.kg2
           [[Example.alice; JObj [("id", JStr "e7"); ("name", JNull)]]; []]
           [Example.alice; JObj [("id", JStr "e7"); ("name", JNull)]] "alice");
    reflexivity.
Defined.

(** ** The command line *)

Lemma call_ok {A} doc (q : kgdoc -> prog A) :
  wf_doc doc = true ->
  (forall kg h ents rels, loaded kg h ents rels -> extras_ok kg = true ->
     exists r, returns (q kg) h r h) ->
  exists h o, call (JObj doc) q [] = Ok tt h o.
Proof.
  intros (kg & h & ents & rels & E & _ & _ & L & Hx)%wf_doc_loaded Hq.
  destruct (Hq kg h ents rels L Hx) as (r & o & Eq).
  exists h, o. unfold call. rewrite (bind_ok _ _ _ _ _ _ E).
  rewrite (bind_ok _ _ _ _ _ _ Eq). cbn. by rewrite app_nil_r.
Qed.

Lemma dispatch_ok order repr doc command args :
  set_order order -> wf_doc doc = true ->
  exists h o, Main.dispatch order repr (JObj doc) command args [] = Ok tt h o.
Proof.
  intros Ho Hw. unfold Main.dispatch.
  repeat match goal with
         | |- context [String.eqb ?a ?b] => destruct (String.eqb a b)
         | |- context [match ?l with [] => _ | _ :: _ => _ end] => destruct l
         end;
    try (by do 2 eexists);
    apply call_ok; auto; intros kg h ents rels L Hx; eexists.
  - apply (returns_find_entity _ _ _ _ _ L).
  - apply (returns_find_related _ _ _ _ _ L).
  - apply (returns_list_types _ _ _ _ _ Ho L).
  - apply (returns_list_entities_by_type _ _ _ _ _ L).
  - apply (returns_search _ _ _ _ _ _ L).
  - apply (returns_show_info _ _ _ _ L Hx).
Qed.

(** X9. On a document that follows the data model (entities and
    relationships are sequences of well-formed mappings, [notes] is absent
    or has a length, [metadata] is absent or a mapping), [main] returns
    for every command and every argument list: no exception escapes and
    [sys.exit] is not called. *)
Theorem main_returns_on_well_formed_document order repr doc command args kg_path :
  set_order order -> wf_doc doc = true ->
  snd (Main.main order repr (Main.Parsed (JObj doc)) command args kg_path)
  = Main.Returned.
Proof.
  intros Ho Hw. unfold Main.main. cbn [Main.load_knowledge_graph].
  by destruct (dispatch_ok order repr doc command args Ho Hw) as (h & o & ->).
Qed.

Lemma main_returns_on_well_formed_document_witness :
  snd (Main.main (fun l => l) (fun _ => EmptyString)
         (Main.Parsed (JObj Example.doc_a)) "find" ["related"; "alice"]
         "data/merged_kg.json")
  = Main.Returned.
Proof.
  apply (main_returns_on_well_formed_document (fun l => l) (fun _ => EmptyString)
           Example.doc_a "find" ["related"; "alice"] "data/merged_kg.json").
  - intros l. apply Permutation_refl.
  - reflexivity.
Defined.



(** ** A type that cannot be a member of a set *)

Lemma set_add_local h cur v :
  Py.hashable v = true ->
  set_add (length h) v (h ++ [cur])
  = Ok tt (h ++ [if existsb (Py.eqb v) cur then cur else cur ++ [v]]) [].
Proof.
  intros Hv. unfold set_add, bind, read. rewrite Hv, lookup_local. cbn.
  destruct (existsb (Py.eqb v) cur); [done |].
  unfold append. by rewrite alter_local.
Qed.

Lemma set_loop_raises dflt (xs : list json) h :
  Py.hashable dflt = true ->
  forallb is_mapping xs = true -> forallb type_hashable xs = false ->
  forall cur, exists cur',
    for_each xs (fun x =>
      let* t := lift (Py.get x "type" dflt) in
      set_add (length h) t) (h ++ [cur])
    = Raise TypeError (h ++ [cur']) [].
Proof.
  intros Hd. induction xs as [| x xs IH]; [done |].
  cbn [forallb for_each]. intros [Hx Hm]%andb_prop Hn cur.
  destruct x as [| | | | | d]; try discriminate.
  unfold type_hashable at 1, field in Hn. cbn [Py.getitem Py.get] in Hn |- *.
  assert (Eb : forall v, Py.hashable v = true ->
            (let* t := ret v in set_add (length h) t) (h ++ [cur])
            = Ok tt (h ++ [if existsb (Py.eqb v) cur then cur else cur ++ [v]]) []).
  { intros v Hv.
    rewrite (bind_ok _ _ _ _ _ _ (eq_refl : ret v (h ++ [cur]) = Ok v (h ++ [cur]) [])).
    by rewrite (set_add_local _ _ _ Hv). }
  destruct (Py.assoc "type" d) as [v |]; cbn [lift].
  - destruct (Py.hashable v) eqn:Hv; cbn [andb] in Hn.
    + rewrite (bind_ok _ _ _ _ _ _ (Eb v Hv)).
      destruct (IH Hm Hn (if existsb (Py.eqb v) cur then cur else cur ++ [v]))
        as [c' ->].
      by exists c'.
    + exists cur. apply bind_raise.
      rewrite (bind_ok _ _ _ _ _ _ (eq_refl : ret v (h ++ [cur]) = Ok v (h ++ [cur]) [])).
      unfold set_add. by rewrite Hv.
  - cbn [Py.hashable andb] in Hn.
    rewrite (bind_ok _ _ _ _ _ _ (Eb dflt Hd)).
    destruct (IH Hm Hn (if existsb (Py.eqb dflt) cur then cur else cur ++ [dflt]))
      as [c' ->].
    by exists c'.
Qed.

Lemma len_quiet v h n h1 : returns (Kg.len v) h n h1 -> Kg.len v h = Ok n h [].
Proof.
  intros [o H]. destruct v as [j | a]; cbn in *.
  - destruct (Py.len j); cbn in *; [| done]. by injection H as <- <- <-.
  - unfold bind, read in *. cbn in *. by injection H as <- <- <-.
Qed.

(** X11. If every entity is a mapping and the [type] of one of them is a
    list or a mapping, [list_types] raises [TypeError] before it prints
    anything, and so does [show_info] (when the lengths of the
    relationships and of the notes can be taken): both put the types
    into a set. *)
Theorem unhashable_type_raises order kg h ents rels :
  has_seq kg h "entities" ents -> has_seq kg h "relationships" rels ->
  extras_ok kg = true ->
  forallb is_mapping ents = true -> forallb type_hashable ents = false ->
  list_types order kg h = Raise TypeError h [] /\
  show_info kg h = Raise TypeError h [].
Proof.
  intros He Hr Hx Hm Hn. split.
  - unfold list_types, scoped, collect_types.
    destruct (set_loop_raises (JStr "unknown") ents h eq_refl Hm Hn []) as [c E].
    erewrite bind_raise; [by rewrite take_app_length |].
    rewrite (bind_ok _ _ _ _ _ _ eq_refl).
    rewrite (bind_ok _ _ _ _ _ _ (iter_ok _ _ _ _ (has_seq_app _ _ _ _ _ He))).
    by rewrite (bind_raise _ _ _ _ _ _ E).
  - unfold show_info, scoped.
    rewrite (bind_ok _ _ _ _ _ _ (len_quiet _ _ _ _ (returns_len _ _ _ _ He))).
    rewrite (bind_ok _ _ _ _ _ _ (len_quiet _ _ _ _ (returns_len _ _ _ _ Hr))).
    rewrite (bind_ok _ _ _ _ _ _ (len_quiet _ _ _ _ (returns_notes_len _ _ Hx))).
    destruct (set_loop_raises JNull ents h eq_refl Hm Hn []) as [c E].
    erewrite bind_raise; [by rewrite take_app_length |].
    unfold type_set.
    rewrite (bind_ok _ _ _ _ _ _ (iter_ok _ _ _ _ He)).
    rewrite (bind_ok _ _ _ _ _ _ eq_refl).
    by rewrite (bind_raise _ _ _ _ _ _ E).
Qed.

Lemma unhashable_type_raises_witness :
  list_types (fun l => l) Example.kg2
    [[Example.alice; JObj [("id", JStr "e7"); ("type", JArr [JStr "person"])]]; []]
  = Raise TypeError
      [[Example.alice; JObj [("id", JStr "e7"); ("type", JArr [JStr "person"])]]; []] [] /\
  show_info Example.kg2
    [[Example.alice; JObj [("id", JStr "e7"); ("type", JArr [JStr "person"])]]; []]
  = Raise TypeError
      [[Example.alice; JObj [("id", JStr "e7"); ("type", JArr [JStr "person"])]]; []] [].
Proof.
  apply (unhashable_type_raises (fun l => l) Example.kg2
           [[Example.alice; JObj [("id", JStr "e7"); ("type", JArr [JStr "person"])]]; []]
           [Example.alice; JObj [("id", JStr "e7"); ("type", JArr [JStr "person"])]] []);
    reflexivity.
Defined.

(** ** A pattern that matches no name *)

Lemma collect_loop_skips name (es : list json) h :
  forallb nameable es = true ->
  (forall e, In e es -> Str.contains name (Str.lower (text "name" e)) = false) ->
  for_each es (fun entity =>
    let* nm := lift (Py.get entity "name" (JStr EmptyString)) in
    let* low := lift (Py.lower nm) in
    if Str.contains name low then append (length h) entity else ret tt)
    (h ++ [[]])
  = Ok tt (h ++ [[]]) [].
Proof.
  intros Hn Hm. apply for_each_skip. intros x Hx.
  pose proof (wf_in _ _ _ Hn Hx) as Nx. specialize (Hm x Hx).
  destruct x as [| | | | | d]; try discriminate.
  unfold text, field in Hm. cbn in Nx, Hm |- *.
  destruct (Py.assoc "name" d) as [[| | | s | |] |]; try discriminate;
    cbn in Hm |- *; unfold bind; cbn; by rewrite Hm.
Qed.

(** X12. When every entity is a mapping whose [name] is absent or a
    string and no name contains the pattern, [find_entity] and
    [find_related] print one line, "No entities found matching" with the
    pattern in lower case between quotes, and return without a result;
    an absent name counts as the empty name. *)
Theorem no_match_is_reported kg h ents pat :
  has_seq kg h "entities" ents -> forallb nameable ents = true ->
  (forall e, In e ents -> name_matches pat e = false) ->
  find_entity kg pat h
  = Ok [] h [[Lit "No entities found matching '"; Val (JStr (Str.lower pat)); Lit "'"]] /\
  find_related kg pat h
  = Ok [] h [[Lit "No entities found matching '"; Val (JStr (Str.lower pat)); Lit "'"]].
Proof.
  intros He Hn Hm.
  assert (E : collect_by_name kg (Str.lower pat) h = Ok (length h) (h ++ [[]]) []).
  { unfold collect_by_name.
    rewrite (bind_ok _ _ _ _ _ _ eq_refl).
    rewrite (bind_ok _ _ _ _ _ _ (iter_ok _ _ _ _ (has_seq_app _ _ _ _ _ He))).
    by rewrite (bind_ok _ _ _ _ _ _ (collect_loop_skips _ _ _ Hn Hm)). }
  unfold find_entity, find_related, scoped. cbv zeta.
  rewrite !(bind_ok _ _ _ _ _ _ E).
  unfold bind, read. rewrite lookup_local. cbn.
  by rewrite take_app_length.
Qed.

Lemma no_match_is_reported_witness :
  find_entity Example.kg2 "Bob" [Example.ents_a; Example.rels_a]
  = Ok [] [Example.ents_a; Example.rels_a]
      [[Lit "No entities found matching '"; Val (JStr (Str.lower "Bob")); Lit "'"]] /\
  find_related Example.kg2 "Bob" [Example.ents_a; Example.rels_a]
  = Ok [] [Example.ents_a; Example.rels_a]
      [[Lit "No entities found matching '"; Val (JStr (Str.lower "Bob")); Lit "'"]].
Proof.
  apply (no_match_is_reported Example.kg2 [Example.ents_a; Example.rels_a]
           Example.ents_a "Bob").
  - reflexivity.
  - reflexivity.
  - intros e [<- | [<- | []]]; reflexivity.
Defined.

(** ** A pattern inside another *)

Lemma contains_trans a b c :
  Str.contains a b = true -> Str.contains b c = true -> Str.contains a c = true.
Proof.
  rewrite !contains_spec. intros (x & y & ->) (u & v & ->).
  exists (u +:+ x), (y +:+ v). by rewrite !append_assoc.
Qed.

(** X13. If a pattern occurs in another one, both in lower case, then
    every entity [find_entity] finds for the longer pattern is found for
    the shorter one, and every result of [search] for the longer term is
    a result for the shorter one. *)
Theorem shorter_pattern_finds_more repr kg h ents rels long short :
  loaded kg h ents rels ->
  Str.contains (Str.lower short) (Str.lower long) = true ->
  exists found found' hits hits',
    returns (find_entity kg long) h found h /\
    returns (find_entity kg short) h found' h /\
    returns (search repr kg long) h hits h /\
    returns (search repr kg short) h hits' h /\
    (forall e, In e found -> In e found') /\
    (forall x, In x hits -> In x hits').
Proof.
  intros L Hc. do 4 eexists.
  split; [apply (returns_find_entity _ _ _ _ _ L) |].
  split; [apply (returns_find_entity _ _ _ _ _ L) |].
  split; [apply (returns_search _ _ _ _ _ _ L) |].
  split; [apply (returns_search _ _ _ _ _ _ L) |].
  assert (Hm : forall x, mentions long x = true -> mentions short x = true).
  { intros x. unfold mentions. by apply contains_trans. }
  split.
  - intros e [He Hn]%filter_In. apply filter_In. split; [done |].
    unfold name_matches in *. by eapply contains_trans.
  - intros x [(e & <- & [He Hx]%filter_In)%in_map_iff | Hx]%in_app_or;
      apply in_or_app.
    + left. apply in_map, filter_In. auto.
    + right. unfold rel_hits in *.
      apply in_flat_map in Hx as (rel & Hrel & Hx). apply in_flat_map.
      exists rel. split; [done |].
      destruct (mentions long rel) eqn:E; [| done]. by rewrite (Hm _ E).
Qed.

Lemma shorter_pattern_finds_more_witness :
  exists found found' hits hits',
    returns (find_entity Example.kg2 "Alice")
      [Example.ents_dup; Example.rels_dup] found [Example.ents_dup; Example.rels_dup] /\
    returns (find_entity Example.kg2 "LI")
      [Example.ents_dup; Example.rels_dup] found' [Example.ents_dup; Example.rels_dup] /\
    returns (search (fun _ => EmptyString) Example.kg2 "Alice")
      [Example.ents_dup; Example.rels_dup] hits [Example.ents_dup; Example.rels_dup] /\
    returns (search (fun _ => EmptyString) Example.kg2 "LI")
      [Example.ents_dup; Example.rels_dup] hits' [Example.ents_dup; Example.rels_dup] /\
    (forall e, In e found -> In e found') /\
    (forall x, In x hits -> In x hits').
Proof.
  apply (shorter_pattern_finds_more (fun _ => EmptyString) Example.kg2
           [Example.ents_dup; Example.rels_dup] Example.ents_dup Example.rels_dup
           "Alice" "LI").
  - apply loaded_two; reflexivity.
  - reflexivity.
Defined.

(** ** A missing key *)

Lemma bind_ok_raise {A B} (m : prog A) (k : A -> prog B) h a h1 e h2 o :
  m h = Ok a h1 [] -> k a h1 = Raise e h2 o -> bind m k h = Raise e h2 o.
Proof. intros H1 H2. unfold bind. by rewrite H1, H2. Qed.

Lemma scoped_raise {A} (m : prog A) h e k o :
  m h = Raise e (h ++ k) o -> scoped m h = Raise e h o.
Proof. intros H. unfold scoped. by rewrite H, take_app_length. Qed.

Lemma get_str_or_absent k e :
  str_or_absent k e = true ->
  Py.get e k (JStr EmptyString) = Done (JStr (text k e)).
Proof.
  destruct e as [| | | | | d]; try discriminate.
  unfold text, field. cbn.
  by destruct (Py.assoc k d) as [[| | | s | |] |].
Qed.

Lemma collect_loop_ok pat (es : list json) h :
  forallb nameable es = true ->
  forall cur,
    for_each es (fun entity =>
      let* nm := lift (Py.get entity "name" (JStr EmptyString)) in
      let* low := lift (Py.lower nm) in
      if Str.contains (Str.lower pat) low then append (length h) entity else ret tt)
      (h ++ [cur])
    = Ok tt (h ++ [cur ++ List.filter (name_matches pat) es]) [].
Proof.
  induction es as [| x es IH]; intros Hn cur.
  - cbn. by rewrite app_nil_r.
  - cbn [forallb] in Hn. apply andb_prop in Hn as [Hx Hn].
    cbn [for_each List.filter].
    match goal with
    | |- context [bind ?m _] =>
        assert (Eb : m (h ++ [cur])
                     = Ok tt (h ++ [if name_matches pat x then cur ++ [x] else cur]) [])
    end.
    { rewrite (bind_ok _ _ _ _ _ _ (lift_ok _ _ _ (get_str_or_absent "name" x Hx))).
      cbn. unfold name_matches.
      destruct (Str.contains _ _); [| done].
      unfold append. by rewrite alter_local. }
    rewrite (bind_ok _ _ _ _ _ _ Eb).
    destruct (name_matches pat x); rewrite (IH Hn); cbn;
      by rewrite <- ?app_assoc.
Qed.

Lemma collect_by_name_ok kg h ents pat :
  has_seq kg h "entities" ents -> forallb nameable ents = true ->
  collect_by_name kg (Str.lower pat) h
  = Ok (length h) (h ++ [List.filter (name_matches pat) ents]) [].
Proof.
  intros He Hn. unfold collect_by_name.
  rewrite (bind_ok _ _ _ _ _ _ eq_refl).
  rewrite (bind_ok _ _ _ _ _ _ (iter_ok _ _ _ _ (has_seq_app _ _ _ _ _ He))).
  by rewrite (bind_ok _ _ _ _ _ _ (collect_loop_ok _ _ _ Hn [])).
Qed.

(** X14. An entity without [type], which [list_types] lists under
    "unknown", makes [find_entity] and [find_related] raise [KeyError]
    when it is the first entity whose name matches the pattern; nothing
    is printed before. *)
Theorem find_needs_type kg h ents pat e rest :
  has_seq kg h "entities" ents -> forallb nameable ents = true ->
  List.filter (name_matches pat) ents = e :: rest ->
  lacks "name" e = false -> lacks "type" e = true ->
  find_entity kg pat h = Raise KeyError h [] /\
  find_related kg pat h = Raise KeyError h [].
Proof.
  intros He Hn Hm Hname Hty.
  pose proof (collect_by_name_ok kg h ents pat He Hn) as E. rewrite Hm in E.
  destruct e as [| | | | | d]; try discriminate. cbn in Hname, Hty.
  destruct (Py.assoc "name" d) as [n |] eqn:En; [| done].
  destruct (Py.assoc "type" d) eqn:Et; [done |].
  assert (Gn : Py.getitem (JObj d) "name" = Done n) by (cbn; by rewrite En).
  assert (Gt : Py.getitem (JObj d) "type" = Fail KeyError) by (cbn; by rewrite Et).
  unfold find_entity, find_related. cbv zeta.
  split; apply (scoped_raise _ _ _ [JObj d :: rest]);
    (eapply bind_ok_raise; [apply E |]);
    (eapply bind_ok_raise; [unfold read; by rewrite lookup_local |]);
    cbn [default for_each for_fold].
  - do 2 apply bind_raise.
    eapply bind_ok_raise; [by apply lift_ok |].
    apply bind_raise. by rewrite Gt.
  - apply bind_raise. unfold related_of. apply bind_raise.
    eapply bind_ok_raise; [by apply lift_ok |].
    apply bind_raise. by rewrite Gt.
Qed.

Lemma find_needs_type_witness :
  find_entity Example.kg2 "bob"
    [[Example.alice; JObj [("id", JStr "e7"); ("name", JStr "Bob")]]; []]
  = Raise KeyError
      [[Example.alice; JObj [("id", JStr "e7"); ("name", JStr "Bob")]]; []] [] /\
  find_related Example.kg2 "bob"
    [[Example.alice; JObj [("id", JStr "e7"); ("name", JStr "Bob")]]; []]
  = Raise KeyError
      [[Example.alice; JObj [("id", JStr "e7"); ("name", JStr "Bob")]]; []] [].
Proof.
  apply (find_needs_type Example.kg2
           [[Example.alice; JObj [("id", JStr "e7"); ("name", JStr "Bob")]]; []]
           [Example.alice; JObj [("id", JStr "e7"); ("name", JStr "Bob")]] "bob"
           (JObj [("id", JStr "e7"); ("name", JStr "Bob")]) []);
    reflexivity.
Defined.

Lemma bind_print_raise {B} ln (k : unit -> prog B) h e h2 o :
  k tt h = Raise e h2 o -> bind (print ln) k h = Raise e h2 (ln :: o).
Proof. intros H. unfold bind, print. by rewrite H. Qed.

Lemma for_each_raise_some {A} (l : list A) (body : A -> prog unit) h e :
  (forall x, In x l ->
     (exists o, body x h = Ok tt h o) \/ (exists o, body x h = Raise e h o)) ->
  (exists x, In x l /\ exists o, body x h = Raise e h o) ->
  exists o, for_each l body h = Raise e h o.
Proof.
  induction l as [| x l IH]; intros Hall (y & Hy & Hr); [done |].
  cbn [for_each].
  destruct (Hall x (or_introl eq_refl)) as [[o1 E1] | [o1 E1]].
  - destruct IH as [o2 E2].
    { intros z Hz. apply Hall. by right. }
    { destruct Hy as [<- | Hy]; [| by exists y].
      destruct Hr as [o Hr]. congruence. }
    exists (o1 ++ o2). unfold bind. by rewrite E1, E2.
  - exists o1. by apply bind_raise.
Qed.

Lemma type_loop_ok ty (es : list json) h :
  forallb (str_or_absent "type") es = true ->
  forall cur,
    for_each es (fun entity =>
      let* t := lift (Py.get entity "type" (JStr EmptyString)) in
      let* low := lift (Py.lower t) in
      if String.eqb low (Str.lower ty) then append (length h) entity else ret tt)
      (h ++ [cur])
    = Ok tt (h ++ [cur ++ List.filter (type_matches ty) es]) [].
Proof.
  induction es as [| x es IH]; intros Hn cur.
  - cbn. by rewrite app_nil_r.
  - cbn [forallb] in Hn. apply andb_prop in Hn as [Hx Hn].
    cbn [for_each List.filter].
    match goal with
    | |- context [bind ?m _] =>
        assert (Eb : m (h ++ [cur])
                     = Ok tt (h ++ [if type_matches ty x then cur ++ [x] else cur]) [])
    end.
    { rewrite (bind_ok _ _ _ _ _ _ (lift_ok _ _ _ (get_str_or_absent "type" x Hx))).
      cbn. unfold type_matches.
      destruct (String.eqb _ _); [| done].
      unfold append. by rewrite alter_local. }
    rewrite (bind_ok _ _ _ _ _ _ Eb).
    destruct (type_matches ty x); rewrite (IH Hn); cbn;
      by rewrite <- ?app_assoc.
Qed.

(** X15. An entity without [name] is sorted as if its name were empty
    (line 191) but is printed with [entity['name']] (line 195): when an
    entity of the listed type has no name, [list_entities_by_type] raises
    [KeyError] after it has printed the heading. *)
Theorem list_entities_by_type_needs_name kg h ents ty e :
  has_seq kg h "entities" ents ->
  forallb (str_or_absent "type") ents = true -> forallb nameable ents = true ->
  In e ents -> type_matches ty e = true -> lacks "name" e = true ->
  exists o,
    list_entities_by_type kg ty h
    = Raise KeyError h
        ([Lit nl; Lit "Entities of type '"; Val (JStr (Str.lower ty)); Lit "':"]
         :: rule 40 :: o).
Proof.
  intros He Ht Hn Hin Hm Hl.
  assert (Hms : forall x, In x (List.filter (type_matches ty) ents) ->
                          nameable x = true).
  { intros x [Hx _]%filter_In. by eapply wf_in. }
  assert (Hne : In e (List.filter (type_matches ty) ents)) by by apply filter_In.
  assert (Hl1 := type_loop_ok ty ents h Ht []).
  destruct (List.filter (type_matches ty) ents) as [| x l]; [done |].
  set (ms := x :: l) in *.
  set (ordered := sort_str (text "name") ms).
  assert (Hord : forall x, In x ordered -> nameable x = true).
  { intros y Hy. apply Hms.
    eapply Permutation_in; [symmetry; apply sort_str_perm | done]. }
  assert (Hbody : exists o,
    for_each ordered (fun entity =>
      let* source_file := lift (Py.get entity "source_file" (JStr "unknown")) in
      let* n := lift (Py.getitem entity "name") in
      print [Lit "  - "; Val n; Lit " (from "; Val source_file; Lit ")"])
      (h ++ [ordered])
    = Raise KeyError (h ++ [ordered]) o).
  { apply for_each_raise_some.
    - intros y Hy%Hord. destruct y as [| | | | | d]; try discriminate.
      cbn [Py.get Py.getitem]. cbn in Hy.
      destruct (Py.assoc "source_file" d), (Py.assoc "name" d) as [[| | | s | |] |];
        try discriminate; (by left; eexists) || (by right; eexists).
    - exists e. split.
      + eapply Permutation_in; [apply sort_str_perm | done].
      + destruct e as [| | | | | d]; try discriminate.
        cbn [Py.get Py.getitem]. cbn in Hl.
        destruct (Py.assoc "source_file" d), (Py.assoc "name" d);
          try discriminate; by eexists. }
  destruct Hbody as [o Eo]. exists o.
  assert (Es : sort_in_place (length h)
                 (fun x => Py.get x "name" (JStr EmptyString)) (h ++ [ms])
               = Ok tt (h ++ [ordered]) []).
  { unfold sort_in_place, read.
    rewrite (bind_ok _ _ _ _ _ _ eq_refl). rewrite lookup_local. cbv beta.
    cbn [default].
    rewrite (bind_ok _ _ _ _ _ _
               (lift_ok _ _ _ (by_key_sort_str (text "name") _ ms
                  (fun x Hx => get_str_or_absent "name" x (Hms x Hx))))).
    unfold store. by rewrite insert_local. }
  unfold list_entities_by_type. cbv zeta.
  apply (scoped_raise _ _ _ [ordered]).
  eapply bind_ok_raise; [reflexivity |].
  eapply bind_ok_raise; [apply iter_ok, has_seq_app, He |].
  eapply bind_ok_raise; [apply Hl1 |].
  eapply bind_ok_raise; [unfold read; by rewrite lookup_local |].
  cbn [default app]. unfold ms at 1. cbv iota.
  do 2 apply bind_print_raise.
  eapply bind_ok_raise; [apply Es |].
  eapply bind_ok_raise; [unfold read; by rewrite lookup_local |].
  cbn [default]. by apply bind_raise.
Qed.

Lemma list_entities_by_type_needs_name_witness :
  exists o,
    list_entities_by_type Example.kg2 "Person"
      [[Example.alice; JObj [("id", JStr "e7"); ("type", JStr "person")]]; []]
    = Raise KeyError
        [[Example.alice; JObj [("id", JStr "e7"); ("type", JStr "person")]]; []]
        ([Lit nl; Lit "Entities of type '"; Val (JStr (Str.lower "Person")); Lit "':"]
         :: rule 40 :: o).
Proof.
  apply (list_entities_by_type_needs_name Example.kg2
           [[Example.alice; JObj [("id", JStr "e7"); ("type", JStr "person")]]; []]
           [Example.alice; JObj [("id", JStr "e7"); ("type", JStr "person")]]
           "Person" (JObj [("id", JStr "e7"); ("type", JStr "person")])).
  - reflexivity.
  - reflexivity.
  - reflexivity.
  - right. left. reflexivity.
  - reflexivity.
  - reflexivity.
Defined.

(** ** What [find_related] prints *)

Lemma bind_quiet_eq {A B} (m : prog A) (k : A -> prog B) h a h1 r :
  m h = Ok a h1 [] -> k a h1 = r -> bind m k h = r.
Proof. intros H1 <-. unfold bind. rewrite H1. by destruct (k a h1). Qed.

Lemma bind_print_ok {B} ln (k : unit -> prog B) h b h2 o :
  k tt h = Ok b h2 o -> bind (print ln) k h = Ok b h2 (ln :: o).
Proof. intros H. unfold bind, print. by rewrite H. Qed.

Lemma bind_ok_ok {A B} (m : prog A) (k : A -> prog B) h a h1 o1 b h2 o2 :
  m h = Ok a h1 o1 -> k a h1 = Ok b h2 o2 -> bind m k h = Ok b h2 (o1 ++ o2).
Proof. intros H1 H2. unfold bind. by rewrite H1, H2. Qed.

Lemma for_each_ok {A} (l : list A) (body : A -> prog unit)
    (H : list A -> heap) (out : A -> list line) :
  (forall done x rest, l = done ++ x :: rest ->
     body x (H done) = Ok tt (H (done ++ [x])) (out x)) ->
  for_each l body (H []) = Ok tt (H l) (flat_map out l).
Proof.
  intros Hb.
  assert (G : forall rest done, l = done ++ rest ->
            for_each rest body (H done) = Ok tt (H l) (flat_map out rest)).
  { induction rest as [| x rest IH]; intros done E; cbn [for_each flat_map].
    - rewrite app_nil_r in E. by subst.
    - eapply bind_ok_ok; [by eapply Hb |].
      apply IH. by rewrite <- app_assoc. }
  by apply (G l []).
Qed.

Lemma for_fold_ok {A S} (l : list A) (body : S -> A -> prog S)
    (St : list A -> S) (H : list A -> heap) (out : A -> list line) :
  (forall done x rest, l = done ++ x :: rest ->
     body (St done) x (H done) = Ok (St (done ++ [x])) (H (done ++ [x])) (out x)) ->
  for_fold l (St []) body (H []) = Ok (St l) (H l) (flat_map out l).
Proof.
  intros Hb.
  assert (G : forall rest done, l = done ++ rest ->
            for_fold rest (St done) body (H done)
            = Ok (St l) (H l) (flat_map out rest)).
  { induction rest as [| x rest IH]; intros done E; cbn [for_fold flat_map].
    - rewrite app_nil_r in E. by subst.
    - eapply bind_ok_ok; [by eapply Hb |].
      apply IH. by rewrite <- app_assoc. }
  by apply (G l []).
Qed.

Lemma flat_map_nothing {A B} (l : list A) : flat_map (fun _ => @nil B) l = [].
Proof. by induction l. Qed.

Lemma wf_nameable ents : forallb wf_entity ents = true -> forallb nameable ents = true.
Proof.
  induction ents as [| e ents IH]; [done |]. cbn [forallb].
  intros [He Hw]%andb_prop. rewrite (IH Hw), andb_true_r.
  apply wf_entity_inv in He as (d & -> & _ & Hn & _). unfold has_str in Hn. cbn.
  by destruct (Py.assoc "name" d) as [[] |].
Qed.

Lemma read_local_ok h l : read (length h) (h ++ [l]) = Ok l (h ++ [l]) [].
Proof. unfold read. by rewrite lookup_local. Qed.

Lemma flat_map_single {A B} (f : A -> B) (l : list A) :
  flat_map (fun x => [f x]) l = map f l.
Proof. induction l; cbn; by f_equal. Qed.

Lemma collect_related_ok kg h ents rels entity cur mine other direction :
  loaded kg h ents rels -> wf_entity entity = true ->
  endpoint mine -> endpoint other ->
  collect_related kg entity (length h) mine other direction (h ++ [cur])
  = Ok tt (h ++ [cur ++ links ents rels entity mine other direction]) [].
Proof.
  intros L He Hm Ho. unfold collect_related.
  eapply bind_quiet_eq; [apply iter_ok, has_seq_app, L |].
  pose proof (for_each_ok rels
    (fun rel =>
       let* end_id := lift (Py.getitem rel mine) in
       let* eid := lift (Py.getitem entity "id") in
       if Py.eqb end_id eid then
         let* found := next_entity kg rel other in
         if Py.truthy found then
           let* ty := lift (Py.getitem rel "type") in
           append (length h) (related_item found ty direction)
         else ret tt
       else ret tt)
    (fun done => h ++ [cur ++ links ents done entity mine other direction])
    (fun _ => [])) as G.
  cbn [links flat_map] in G. rewrite app_nil_r, flat_map_nothing in G.
  apply G. clear G.
  intros done rel rest E.
  pose proof (wf_middle _ _ _ _ _ (ld_wf_rels _ _ _ _ L) E) as Hr.
  destruct (wf_rel_endpoint _ _ Hr Hm) as [Hg _].
  eapply bind_quiet_eq; [by apply lift_ok |].
  eapply bind_quiet_eq; [by apply lift_ok, wf_entity_id |].
  rewrite links_snoc.
  destruct (Py.eqb (field mine rel) (field "id" entity)).
  - eapply bind_quiet_eq;
      [eapply next_entity_ok; eauto using loaded_app |].
    rewrite resolve_truthy by apply L.
    destruct (resolve ents (field other rel)) as [x |]; cbn [default].
    + eapply bind_quiet_eq; [by apply lift_ok, wf_rel_type |].
      rewrite app_assoc. unfold append. by rewrite alter_local.
    + by rewrite app_nil_r.
  - by rewrite app_nil_r.
Qed.

Lemma print_related_ok x ty direction h :
  wf_entity x = true ->
  print_related (related_item x ty direction) h
  = Ok tt h [related_line (related_item x ty direction)].
Proof.
  intros W. unfold print_related.
  do 3 (eapply bind_quiet_eq; [by apply lift_ok |]).
  eapply bind_quiet_eq; [by apply lift_ok, wf_entity_name |].
  eapply bind_quiet_eq; [by apply lift_ok |].
  eapply bind_quiet_eq; [by apply lift_ok, wf_entity_type |].
  apply wf_entity_inv in W as (d & -> & _ & Hn & Ht & _).
  unfold related_line, related_item.
  change (field "direction" (JObj _)) with (JStr direction).
  change (field "relationship" (JObj _)) with ty.
  change (field "entity" (JObj _)) with (JObj d).
  rewrite (has_str_field _ _ Hn), (has_str_field _ _ Ht).
  by destruct (Py.eqb _ _).
Qed.

Lemma related_of_ok kg h ents rels entity :
  loaded kg h ents rels -> wf_entity entity = true ->
  related_of kg entity h
  = Ok (sort_str item_name (collected ents rels entity))
       (h ++ [sort_str item_name (collected ents rels entity)])
       (related_block (entity, sort_str item_name (collected ents rels entity))).
Proof.
  intros L He. unfold related_of, related_block. cbn [fst snd].
  pose proof He as (d & Ed & _ & Hn & Ht & _)%wf_entity_inv.
  assert (Fn : field "name" entity = JStr (text "name" entity)).
  { subst. by apply has_str_field. }
  assert (Ft : field "type" entity = JStr (text "type" entity)).
  { subst. by apply has_str_field. }
  rewrite Fn, Ft. clear d Ed Hn Ht Fn Ft.
  eapply bind_quiet_eq; [by apply lift_ok, wf_entity_name |].
  eapply bind_quiet_eq; [by apply lift_ok, wf_entity_type |].
  do 2 apply bind_print_ok.
  eapply bind_quiet_eq; [reflexivity |].
  eapply bind_quiet_eq;
    [eapply collect_related_ok; eauto; unfold endpoint; auto |].
  eapply bind_quiet_eq;
    [eapply collect_related_ok; eauto; unfold endpoint; auto |].
  cbn [app]. fold (collected ents rels entity).
  eapply bind_quiet_eq; [apply read_local_ok |].
  assert (Hk : forall item, In item (collected ents rels entity) ->
            neighbor_name item = Done (JStr (item_name item))).
  { intros item (x & ty & dr & Hx & ->)%collected_item.
    eapply neighbor_name_item; eauto. apply L. }
  assert (Hp : forall item h', In item (collected ents rels entity) ->
            print_related item h' = Ok tt h' [related_line item]).
  { intros item h' (x & ty & dr & Hx & ->)%collected_item.
    apply print_related_ok. eapply wf_in; eauto. apply L. }
  assert (Hs : match sort_str item_name (collected ents rels entity) with
               | [] => collected ents rels entity = []
               | _ :: _ => collected ents rels entity <> []
               end).
  { pose proof (sort_str_perm item_name (collected ents rels entity)) as P.
    destruct (sort_str item_name _) eqn:Es.
    - by apply Permutation_sym, Permutation_nil in P.
    - intros En. rewrite En in P. by apply Permutation_nil in P. }
  destruct (collected ents rels entity) as [| i0 items] eqn:E.
  - cbn [sort_str]. by apply bind_print_ok.
  - assert (Hne : i0 :: items <> []) by done.
    rewrite <- E in *. clear E.
    eapply bind_quiet_eq.
    { unfold sort_in_place.
      eapply bind_quiet_eq; [apply read_local_ok |].
          eapply bind_quiet_eq;
        [apply lift_ok, (by_key_sort_str item_name), Hk |].
      unfold store. by rewrite insert_local. }
    eapply bind_quiet_eq; [apply read_local_ok |].
      set (sorted := sort_str item_name (collected ents rels entity)) in *.
    assert (Eo : for_each sorted print_related (h ++ [sorted])
                 = Ok tt (h ++ [sorted]) (flat_map (fun x => [related_line x]) sorted)).
    { apply (for_each_ok sorted print_related (fun _ => h ++ [sorted])
               (fun x => [related_line x])).
      intros done x rest Ex. apply Hp.
      apply (Permutation_in _ (Permutation_sym (sort_str_perm item_name _))).
      fold sorted. rewrite Ex. apply in_elt. }
    rewrite (bind_ok _ _ _ _ _ _ Eo). cbn [ret].
    rewrite app_nil_r, flat_map_single.
    by destruct sorted.
Qed.

Lemma scoped_ok {A} (m : prog A) h a k o :
  m h = Ok a (h ++ k) o -> scoped m h = Ok a h o.
Proof. intros H. unfold scoped. by rewrite H, take_app_length. Qed.

Lemma flat_map_of_map {A B C} (f : B -> list C) (g : A -> B) (l : list A) :
  flat_map f (map g l) = flat_map (fun x => f (g x)) l.
Proof. induction l; cbn; by f_equal. Qed.

(** X16. [find_related] prints what it collects: for a pattern that
    matches no name the one line "No entities found matching"; otherwise,
    for each matched entity in load order, a heading with its name and
    type, a rule, and one line for each triple of its sorted list, in
    that order, with the arrows to the right for an outgoing and to the
    left for an incoming triple, or "No related entities found" when the
    list is empty. *)
Theorem find_related_prints_its_triples kg h ents rels pat :
  loaded kg h ents rels ->
  exists res,
    res = map (fun e => (e, sort_str item_name (collected ents rels e)))
              (List.filter (name_matches pat) ents) /\
    find_related kg pat h
    = Ok res h
        match res with
        | [] => [[Lit "No entities found matching '"; Val (JStr (Str.lower pat));
                  Lit "'"]]
        | _ => flat_map related_block res
        end.
Proof.
  intros L. eexists. split; [reflexivity |].
  unfold find_related. cbv zeta.
  set (ms := List.filter (name_matches pat) ents).
  set (sorted := fun e => sort_str item_name (collected ents rels e)).
  apply (scoped_ok _ _ _ ([ms] ++ map sorted ms)).
  eapply bind_quiet_eq;
    [apply collect_by_name_ok; [apply L | apply wf_nameable, L] |].
  fold ms. eapply bind_quiet_eq; [apply read_local_ok |].
  assert (Hm : forall e, In e ms -> wf_entity e = true).
  { intros e [He _]%filter_In. eapply wf_in; eauto. apply L. }
  destruct ms as [| e0 es] eqn:E.
  - by apply bind_print_ok.
  - rewrite <- E in *.
    assert (Hout : flat_map (fun e => related_block (e, sorted e)) ms
                   = match map (fun e => (e, sorted e)) ms with
                     | [] => [[Lit "No entities found matching '";
                               Val (JStr (Str.lower pat)); Lit "'"]]
                     | _ => flat_map related_block (map (fun e => (e, sorted e)) ms)
                     end).
    { rewrite flat_map_of_map. by rewrite E. }
    clear E e0 es.
    assert (G : for_fold ms []
                  (fun acc entity =>
                     let* r := related_of kg entity in ret (acc ++ [(entity, r)]))
                  (h ++ [ms])
                = Ok (map (fun e => (e, sorted e)) ms) (h ++ [ms] ++ map sorted ms)
                     (flat_map (fun e => related_block (e, sorted e)) ms)).
    { pose proof (for_fold_ok ms
        (fun acc entity => let* r := related_of kg entity in ret (acc ++ [(entity, r)]))
        (fun done => map (fun e => (e, sorted e)) done)
        (fun done => h ++ [ms] ++ map sorted done)
        (fun e => related_block (e, sorted e))) as G.
      cbn [map] in G. apply G. clear G.
      intros done x rest Ex.
      rewrite (bind_ok _ _ _ _ _ _
                 (related_of_ok kg (h ++ [ms] ++ map sorted done) ents rels x
                    (loaded_app _ _ _ _ _ L) (Hm x ltac:(rewrite Ex; apply in_elt)))).
      cbn [ret]. rewrite app_nil_r, !map_app. cbn [map].
      by rewrite <- !app_assoc. }
    rewrite G. f_equal. exact Hout.
Qed.

Lemma find_related_prints_its_triples_witness :
  exists res,
    res = map (fun e => (e, sort_str item_name
                              (collected Example.ents_dup Example.rels_dup e)))
              (List.filter (name_matches "ali") Example.ents_dup) /\
    find_related Example.kg2 "ali" [Example.ents_dup; Example.rels_dup]
    = Ok res [Example.ents_dup; Example.rels_dup]
        match res with
        | [] => [[Lit "No entities found matching '"; Val (JStr (Str.lower "ali"));
                  Lit "'"]]
        | _ => flat_map related_block res
        end.
Proof.
  apply (find_related_prints_its_triples Example.kg2
           [Example.ents_dup; Example.rels_dup] Example.ents_dup Example.rels_dup "ali").
  apply loaded_two; reflexivity.
Defined.

(** ** What [list_entities_by_type] prints *)

Lemma named_nameable e : named e = true -> nameable e = true.
Proof.
  destruct e as [| | | | | d]; try discriminate. unfold named, has_str. cbn.
  by destruct (Py.assoc "name" d) as [[] |].
Qed.

(** X17. When every entity is a mapping with a string [name] and a [type]
    that is absent or a string, [list_entities_by_type] prints, after the
    heading and a rule, one line for each entity of the type, in the
    sorted order, with the name and the source file, "unknown" when the
    entity has no [source_file]; when no entity has the type it prints
    the one line "No entities found of type", with the type in lower
    case. *)
Theorem list_entities_by_type_prints kg h ents ty :
  has_seq kg h "entities" ents ->
  forallb (str_or_absent "type") ents = true -> forallb named ents = true ->
  exists res,
    res = sort_str (text "name") (List.filter (type_matches ty) ents) /\
    list_entities_by_type kg ty h
    = Ok res h
        match res with
        | [] => [[Lit "No entities found of type '"; Val (JStr (Str.lower ty));
                  Lit "'"]]
        | _ =>
            [Lit nl; Lit "Entities of type '"; Val (JStr (Str.lower ty)); Lit "':"]
            :: rule 40 :: map entity_line res
        end.
Proof.
  intros He Ht Hn. eexists. split; [reflexivity |].
  assert (Hms : forall x, In x (List.filter (type_matches ty) ents) ->
                          named x = true).
  { intros x [Hx _]%filter_In. by eapply wf_in. }
  assert (Hl1 := type_loop_ok ty ents h Ht []).
  destruct (List.filter (type_matches ty) ents) as [| x l] eqn:Ems.
  - unfold list_entities_by_type. cbv zeta. apply (scoped_ok _ _ _ [[]]).
    eapply bind_quiet_eq; [reflexivity |].
    eapply bind_quiet_eq; [apply iter_ok, has_seq_app, He |].
    eapply bind_quiet_eq; [apply Hl1 |].
    eapply bind_quiet_eq; [apply read_local_ok |].
    by apply bind_print_ok.
  - set (ms := x :: l) in *.
    set (ordered := sort_str (text "name") ms).
    assert (Hord : forall y, In y ordered -> named y = true).
    { intros y Hy. apply Hms.
      apply (Permutation_in _ (Permutation_sym (sort_str_perm (text "name") _))).
      done. }
    assert (Es : sort_in_place (length h)
                   (fun x => Py.get x "name" (JStr EmptyString)) (h ++ [ms])
                 = Ok tt (h ++ [ordered]) []).
    { unfold sort_in_place.
      eapply bind_quiet_eq; [apply read_local_ok |].
      eapply bind_quiet_eq;
        [apply lift_ok, (by_key_sort_str (text "name")) |].
      - intros y Hy. by apply get_str_or_absent, named_nameable, Hms.
      - unfold store. by rewrite insert_local. }
    assert (Eo : for_each ordered (fun entity =>
                   let* source_file :=
                     lift (Py.get entity "source_file" (JStr "unknown")) in
                   let* n := lift (Py.getitem entity "name") in
                   print [Lit "  - "; Val n; Lit " (from "; Val source_file; Lit ")"])
                   (h ++ [ordered])
                 = Ok tt (h ++ [ordered]) (flat_map (fun e => [entity_line e]) ordered)).
    { apply (for_each_ok ordered _ (fun _ => h ++ [ordered])
               (fun e => [entity_line e])).
      intros done y rest Ey.
      assert (Hy : named y = true) by (apply Hord; rewrite Ey; apply in_elt).
      destruct y as [| | | | | d]; try discriminate. cbn in Hy.
      unfold entity_line, field_or.
      rewrite (has_str_field _ _ Hy).
      destruct (Py.get (JObj d) "source_file" (JStr "unknown")) as [sf |] eqn:Esf;
        [| cbn in Esf; by destruct (Py.assoc "source_file" d)].
      eapply bind_quiet_eq; [by apply lift_ok |].
      eapply bind_quiet_eq; [by apply lift_ok, has_str_getitem |].
      done. }
    unfold list_entities_by_type. cbv zeta. apply (scoped_ok _ _ _ [ordered]).
    eapply bind_quiet_eq; [reflexivity |].
    eapply bind_quiet_eq; [apply iter_ok, has_seq_app, He |].
    eapply bind_quiet_eq; [apply Hl1 |].
    eapply bind_quiet_eq; [apply read_local_ok |].
    cbn [app]. unfold ms at 1. cbv iota.
    assert (Hne : ordered <> []).
    { intros En. pose proof (sort_str_perm (text "name") ms) as P.
      fold ordered in P. rewrite En in P.
      by apply Permutation_sym, Permutation_nil in P. }
    etransitivity;
      [| apply (f_equal (Ok ordered (h ++ [ordered])));
         instantiate (1 := [Lit nl; Lit "Entities of type '";
                            Val (JStr (Str.lower ty)); Lit "':"]
                           :: rule 40 :: map entity_line ordered);
         by destruct ordered].
    do 2 apply bind_print_ok.
    eapply bind_quiet_eq; [apply Es |].
    eapply bind_quiet_eq; [apply read_local_ok |].
    rewrite (bind_ok _ _ _ _ _ _ Eo). cbn [ret].
    by rewrite app_nil_r, flat_map_single.
Qed.

Lemma list_entities_by_type_prints_witness :
  exists res,
    res = sort_str (text "name")
            (List.filter (type_matches "Person")
               [Example.alicia; JObj [("name", JStr "Al"); ("type", JStr "person")]]) /\
    list_entities_by_type Example.kg2 "Person"
      [[Example.alicia; JObj [("name", JStr "Al"); ("type", JStr "person")]]; []]
    = Ok res [[Example.alicia; JObj [("name", JStr "Al"); ("type", JStr "person")]]; []]
        match res with
        | [] => [[Lit "No entities found of type '"; Val (JStr (Str.lower "Person"));
                  Lit "'"]]
        | _ =>
            [Lit nl; Lit "Entities of type '"; Val (JStr (Str.lower "Person")); Lit "':"]
            :: rule 40 :: map entity_line res
        end.
Proof.
  apply (list_entities_by_type_prints Example.kg2
           [[Example.alicia; JObj [("name", JStr "Al"); ("type", JStr "person")]]; []]
           [Example.alicia; JObj [("name", JStr "Al"); ("type", JStr "person")]]
           "Person"); reflexivity.
Defined.

(** ** What [list_types] prints and counts *)

Lemma type_default x :
  str_or_absent "type" x = true ->
  Py.get x "type" (JStr "unknown") = Done (type_or_unknown x) /\
  Py.get x "type" JNull = Done (field "type" x) /\
  (exists s, type_or_unknown x = JStr s) /\
  (if lacks "type" x then field "type" x = JNull
   else field "type" x = type_or_unknown x).
Proof.
  destruct x as [| | | | | d]; try discriminate.
  unfold type_or_unknown, field. cbn.
  destruct (Py.assoc "type" d) as [[| | | s | |] |]; try discriminate; eauto 10.
Qed.

Lemma collect_types_ok kg h key xs :
  has_seq kg h key xs -> forallb (str_or_absent "type") xs = true ->
  collect_types kg key h
  = Ok (length h) (h ++ [distinct (map type_or_unknown xs)]) [].
Proof.
  intros Hs Ht. unfold collect_types.
  eapply bind_quiet_eq; [reflexivity |].
  eapply bind_quiet_eq; [by apply iter_ok, has_seq_app |].
  eapply bind_quiet_eq; [| reflexivity].
  pose proof (for_each_ok xs
    (fun x => let* t := lift (Py.get x "type" (JStr "unknown")) in
              set_add (length h) t)
    (fun done => h ++ [distinct (map type_or_unknown done)])
    (fun _ => [])) as G.
  rewrite flat_map_nothing in G. apply G. clear G.
  intros done x rest E.
  destruct (type_default x (wf_middle _ _ _ _ _ Ht E)) as (Eg & _ & [s Es] & _).
  eapply bind_quiet_eq; [by apply lift_ok |].
  rewrite map_app. cbn [map]. rewrite distinct_snoc.
  apply set_add_local. by rewrite Es.
Qed.

Lemma count_type_ok t xs :
  forallb (str_or_absent "type") xs = true -> count_type t xs = Done (count_of t xs).
Proof.
  unfold count_of. induction xs as [| x xs IH]; [done |].
  cbn [forallb]. intros [Hx Ht]%andb_prop.
  destruct (type_default x Hx) as (_ & Eg & _).
  cbn [count_type]. rewrite Eg, (IH Ht). cbn [rbind List.filter].
  by destruct (Py.eqb _ _).
Qed.

Lemma print_types_ok order kg h key what xs members a :
  set_order order ->
  has_seq kg h key xs -> forallb (str_or_absent "type") xs = true ->
  h !! a = Some members -> (forall t, In t members -> exists s, t = JStr s) ->
  print_types order kg a key what h
  = Ok (map (fun t => (t, count_of t xs)) (sort_str str_of (order members))) h
       (map (type_line what)
          (map (fun t => (t, count_of t xs)) (sort_str str_of (order members)))).
Proof.
  intros Ho Hs Ht Ha Hm. unfold print_types.
  eapply bind_quiet_eq; [unfold read; by rewrite Ha |].
  eapply bind_quiet_eq.
  { apply lift_ok, (by_key_sort_str str_of).
    intros x Hx. destruct (Hm x) as [s ->]; [| done].
    eapply Permutation_in; [apply Ho | done]. }
  set (ts := sort_str str_of (order members)).
  rewrite map_map, <- flat_map_single.
  pose proof (for_fold_ok ts
    (fun acc t =>
       let* xs := Kg.iter (Kg.get kg key (JArr [])) in
       let* count := lift (count_type t xs) in
       print [Lit "  - "; Val t; Lit " ("; Val (JNum (Z.of_nat count));
              Lit (" " +:+ what +:+ ")")] ;;
       ret (acc ++ [(t, count)]))
    (fun done => map (fun t => (t, count_of t xs)) done)
    (fun _ => h)
    (fun t => [type_line what (t, count_of t xs)])) as G.
  apply G. clear G. intros done t rest E.
  eapply bind_quiet_eq; [by apply iter_ok |].
  eapply bind_quiet_eq; [by apply lift_ok, count_type_ok |].
  apply bind_print_ok. by rewrite map_app.
Qed.

Lemma members_strs xs t :
  forallb (str_or_absent "type") xs = true ->
  In t (distinct (map type_or_unknown xs)) -> exists s, t = JStr s.
Proof.
  intros Ht (x & <- & Hx)%distinct_in%in_map_iff.
  by destruct (type_default x (wf_in _ _ _ Ht Hx)) as (_ & _ & H & _).
Qed.

Lemma no_indicator (D : list json) :
  (forall t, In t D -> exists s, t = JStr s) ->
  list_sum (map (fun t => if Py.eqb JNull t then 1 else 0)%nat D) = 0%nat.
Proof.
  induction D as [| t D IH]; intros Hs; [done |].
  cbn [map]. rewrite list_sum_cons, IH by (intros u Hu; apply Hs; by right).
  by destruct (Hs t (or_introl eq_refl)) as [s ->].
Qed.

Lemma count_sum_has_type xs D :
  forallb (str_or_absent "type") xs = true -> NoDup D ->
  (forall t, In t D -> exists s, t = JStr s) ->
  (forall x, In x xs -> In (type_or_unknown x) D) ->
  list_sum (map (fun t => count_of t xs) D) = length (List.filter has_type xs).
Proof.
  intros Ht Hn Hs. induction xs as [| x xs IH]; intros Hc.
  - clear. induction D as [| t D IH]; [done |].
    cbn [map]. by rewrite list_sum_cons, IH.
  - cbn [forallb] in Ht. apply andb_prop in Ht as [Hx Ht].
    assert (E : forall t, count_of t (x :: xs)
              = ((if Py.eqb (field "type" x) t then 1 else 0)
                 + count_of t xs)%nat).
    { intros t. unfold count_of. cbn [List.filter]. by destruct (Py.eqb _ t). }
    erewrite map_ext by apply E.
    assert (S : forall (f g : json -> nat) l,
              list_sum (map (fun t => f t + g t)%nat l)
              = (list_sum (map f l) + list_sum (map g l))%nat).
    { intros f g l. induction l as [| t l IHl]; [done |].
      cbn [map]. rewrite !list_sum_cons, IHl. lia. }
    rewrite S, (IH Ht) by (intros y Hy; apply Hc; by right).
    cbn [List.filter]. unfold has_type at 2.
    destruct (type_default x Hx) as (_ & _ & [s Es] & Hf).
    destruct (lacks "type" x); cbn [negb length].
    + by rewrite Hf, no_indicator.
    + rewrite Hf, Es, sum_indicator; [done | done |].
      rewrite <- Es. apply Hc. by left.
Qed.

Lemma type_counts_sum order xs :
  set_order order -> forallb (str_or_absent "type") xs = true ->
  total (type_counts order xs) = length (List.filter has_type xs).
Proof.
  intros Ho Ht. unfold total, type_counts. rewrite map_map. cbn [snd].
  set (tys := map type_or_unknown xs).
  assert (Hs : forall t, In t tys -> exists s, t = JStr s).
  { intros t (x & <- & Hx)%in_map_iff.
    by destruct (type_default x (wf_in _ _ _ Ht Hx)) as (_ & _ & H & _). }
  destruct (distinct_spec tys Hs) as [Hn Hi].
  rewrite (list_sum_perm _ (map (fun t => count_of t xs) (distinct tys))).
  - apply count_sum_has_type; auto.
    + intros t Hd. apply Hs. by apply Hi.
    + intros x Hx. apply Hi. by apply in_map.
  - apply Permutation_map.
    eapply Permutation_trans; [symmetry; apply sort_str_perm | apply Ho].
Qed.

(** X18. When the [type] of every entity and relationship is absent or a
    string, [list_types] prints two headed lists with one line for each
    type in ascending order, an absent type listed as "unknown", with a
    count that is the number of members whose [type] is that string.  The
    counts of a list sum to the number of its members that have a [type]:
    a member without one is counted in no line, not in that of "unknown"
    either. *)
Theorem list_types_prints order kg h ents rels :
  set_order order ->
  has_seq kg h "entities" ents -> has_seq kg h "relationships" rels ->
  forallb (str_or_absent "type") ents = true ->
  forallb (str_or_absent "type") rels = true ->
  list_types order kg h
  = Ok (type_counts order ents, type_counts order rels) h
      ([Lit nl; Lit "Entity Types:"] :: rule 40 ::
       map (type_line "entities") (type_counts order ents) ++
       [Lit nl; Lit "Relationship Types:"] :: rule 40 ::
       map (type_line "relationships") (type_counts order rels)) /\
  total (type_counts order ents) = length (List.filter has_type ents) /\
  total (type_counts order rels) = length (List.filter has_type rels).
Proof.
  intros Ho He Hr Te Tr.
  split; [| split; by apply type_counts_sum].
  unfold list_types.
  set (s1 := distinct (map type_or_unknown ents)).
  set (s2 := distinct (map type_or_unknown rels)).
  apply (scoped_ok _ _ _ ([s1] ++ [s2])).
  eapply bind_quiet_eq; [by apply collect_types_ok |].
  eapply bind_quiet_eq; [apply collect_types_ok; [by apply has_seq_app | done] |].
  fold s1 s2.
  do 2 apply bind_print_ok.
  eapply bind_ok_ok.
  { apply print_types_ok with (members := s1) (xs := ents); auto.
    - rewrite <- app_assoc. by apply has_seq_app.
    - apply lookup_app_l_Some, lookup_local.
    - intros t. by apply members_strs. }
  do 2 apply bind_print_ok.
  etransitivity.
  { eapply bind_ok_ok; [| reflexivity].
    apply print_types_ok with (members := s2) (xs := rels); auto.
    - rewrite <- app_assoc. by apply has_seq_app.
    - apply lookup_local.
    - intros t. by apply members_strs. }
  by rewrite app_nil_r, <- app_assoc.
Qed.

Lemma list_types_prints_witness :
  list_types (fun l => l) Example.kg2
    [[Example.alice; JObj [("id", JStr "e7"); ("name", JStr "Bob")]]; Example.rels_a]
  = Ok (type_counts (fun l => l)
          [Example.alice; JObj [("id", JStr "e7"); ("name", JStr "Bob")]],
        type_counts (fun l => l) Example.rels_a)
      [[Example.alice; JObj [("id", JStr "e7"); ("name", JStr "Bob")]]; Example.rels_a]
      ([Lit nl; Lit "Entity Types:"] :: rule 40 ::
       map (type_line "entities")
         (type_counts (fun l => l)
            [Example.alice; JObj [("id", JStr "e7"); ("name", JStr "Bob")]]) ++
       [Lit nl; Lit "Relationship Types:"] :: rule 40 ::
       map (type_line "relationships") (type_counts (fun l => l) Example.rels_a)) /\
  total (type_counts (fun l => l)
           [Example.alice; JObj [("id", JStr "e7"); ("name", JStr "Bob")]])
  = length (List.filter has_type
              [Example.alice; JObj [("id", JStr "e7"); ("name", JStr "Bob")]]) /\
  total (type_counts (fun l => l) Example.rels_a)
  = length (List.filter has_type Example.rels_a).
Proof.
  apply (list_types_prints (fun l => l) Example.kg2
           [[Example.alice; JObj [("id", JStr "e7"); ("name", JStr "Bob")]]; Example.rels_a]
           [Example.alice; JObj [("id", JStr "e7"); ("name", JStr "Bob")]]
           Example.rels_a).
  - intros l. apply Permutation_refl.
  - reflexivity.
  - reflexivity.
  - reflexivity.
  - reflexivity.
Defined.

(** ** What [find_entity] prints *)

Lemma print_properties_ok e h :
  wf_entity e = true ->
  print_properties e h
  = Ok tt h ([Lit nl; Lit "Properties:"] :: map property_line (properties_of e)).
Proof.
  intros (d & -> & _ & _ & _ & _ & _ & Hp)%wf_entity_inv.
  apply props_ok_items in Hp as (kvs & Hg & Hl).
  unfold print_properties, properties_of, field_or. rewrite Hg.
  apply bind_print_ok.
  eapply bind_quiet_eq; [by apply lift_ok |].
  eapply bind_quiet_eq; [by apply lift_ok |].
  rewrite <- flat_map_single.
  apply (for_each_ok kvs _ (fun _ => h) (fun kv => [property_line kv])).
  intros done kv rest E.
  assert (Hkv : In kv kvs) by (rewrite E; apply in_elt).
  specialize (Hl kv Hkv). unfold property_line.
  destruct (snd kv); try reflexivity.
  destruct (join_strs ", " l Hl) as [s Hs]. rewrite Hs.
  eapply bind_quiet_eq; [by apply lift_ok |]. reflexivity.
Qed.

Lemma has_str_key d k : has_str d k = true -> has_key d k = true.
Proof. unfold has_str, has_key. by destruct (Py.assoc k d). Qed.

Lemma print_entity_ok kg h ents rels e :
  loaded kg h ents rels -> wf_entity e = true ->
  (let* n := lift (Py.getitem e "name") in
   let* t := lift (Py.getitem e "type") in
   print [Lit nl; Val n; Lit " ("; Val t; Lit ")"] ;;
   print (rule 40) ;;
   let* i := lift (Py.getitem e "id") in
   print [Lit "ID: "; Val i] ;;
   let* sf := lift (Py.getitem e "source_file") in
   print [Lit "Source: "; Val sf] ;;
   let* c := lift (Py.getitem e "confidence") in
   print [Lit "Confidence: "; Val c] ;;
   print_properties e ;;
   print_relationships kg e) h
  = Ok tt h (entity_block ents rels e).
Proof.
  intros L He. unfold entity_block.
  pose proof He as (d & -> & Hi & Hn & Ht & Hsf & Hc & _)%wf_entity_inv.
  eapply bind_quiet_eq; [by apply lift_ok, has_key_getitem, has_str_key |].
  eapply bind_quiet_eq; [by apply lift_ok, has_key_getitem, has_str_key |].
  do 2 apply bind_print_ok.
  eapply bind_quiet_eq; [by apply lift_ok, has_key_getitem, has_str_key |].
  apply bind_print_ok.
  eapply bind_quiet_eq; [by apply lift_ok, has_key_getitem |].
  apply bind_print_ok.
  eapply bind_quiet_eq; [by apply lift_ok, has_key_getitem |].
  apply bind_print_ok.
  eapply bind_ok_ok; [by apply print_properties_ok |].
  by apply print_relationships_lines.
Qed.

(** X19. On a well-formed document [find_entity] prints, for each entity
    whose name matches, in load order: a heading with the name and the
    type, a rule, the id, the source file and the confidence, one line
    for each property in the order of the mapping (a list value as its
    members joined with ", "), and the relationship lines of the entity,
    or "No relationships found"; for a pattern that matches no name it
    prints the one line "No entities found matching". *)
Theorem find_entity_prints kg h ents rels pat :
  loaded kg h ents rels ->
  exists found,
    found = List.filter (name_matches pat) ents /\
    find_entity kg pat h
    = Ok found h
        match found with
        | [] => [[Lit "No entities found matching '"; Val (JStr (Str.lower pat));
                  Lit "'"]]
        | _ => flat_map (entity_block ents rels) found
        end.
Proof.
  intros L. eexists. split; [reflexivity |].
  unfold find_entity. cbv zeta.
  set (ms := List.filter (name_matches pat) ents).
  apply (scoped_ok _ _ _ [ms]).
  eapply bind_quiet_eq;
    [apply collect_by_name_ok; [apply L | apply wf_nameable, L] |].
  fold ms. eapply bind_quiet_eq; [apply read_local_ok |].
  assert (Hm : forall e, In e ms -> wf_entity e = true).
  { intros e [He _]%filter_In. eapply wf_in; eauto. apply L. }
  destruct ms as [| e0 es] eqn:E.
  - by apply bind_print_ok.
  - rewrite <- E in *.
    clear E e0 es.
    etransitivity; [eapply bind_ok_ok; [| reflexivity] | by rewrite app_nil_r].
    apply (for_each_ok ms _ (fun _ => h ++ [ms]) (entity_block ents rels)).
    intros done x rest Ex.
    apply print_entity_ok; [by apply loaded_app |].
    apply Hm. rewrite Ex. apply in_elt.
Qed.

Lemma find_entity_prints_witness :
  exists found,
    found = List.filter (name_matches "ac") Example.ents_a /\
    find_entity Example.kg2 "ac" [Example.ents_a; Example.rels_c]
    = Ok found [Example.ents_a; Example.rels_c]
        match found with
        | [] => [[Lit "No entities found matching '"; Val (JStr (Str.lower "ac"));
                  Lit "'"]]
        | _ => flat_map (entity_block Example.ents_a Example.rels_c) found
        end.
Proof.
  apply (find_entity_prints Example.kg2 [Example.ents_a; Example.rels_c]
           Example.ents_a Example.rels_c "ac").
  apply loaded_two; reflexivity.
Defined.

(** ** What [show_info] prints *)

Lemma type_set_ok kg h key xs :
  has_seq kg h key xs -> forallb (str_or_absent "type") xs = true ->
  type_set kg key h
  = Ok (length h) (h ++ [distinct (map (field "type") xs)]) [].
Proof.
  intros Hs Ht. unfold type_set.
  eapply bind_quiet_eq; [by apply iter_ok |].
  eapply bind_quiet_eq; [reflexivity |].
  eapply bind_quiet_eq; [| reflexivity].
  pose proof (for_each_ok xs
    (fun x => let* t := lift (Py.get x "type" JNull) in set_add (length h) t)
    (fun done => h ++ [distinct (map (field "type") done)])
    (fun _ => [])) as G.
  rewrite flat_map_nothing in G. apply G. clear G.
  intros done x rest E.
  destruct (type_default x (wf_middle _ _ _ _ _ Ht E)) as (_ & Eg & [s Es] & Hf).
  eapply bind_quiet_eq; [by apply lift_ok |].
  rewrite map_app. cbn [map]. rewrite distinct_snoc.
  apply set_add_local.
  destruct (lacks "type" x); rewrite Hf; [done | by rewrite Es].
Qed.

Lemma metadata_items_ok kg h :
  extras_ok kg = true ->
  Kg.items (Kg.get kg "metadata" (JObj [])) h = Ok (metadata_of kg) h [].
Proof.
  unfold extras_ok, metadata_of, Kg.get. intros [_ H]%andb_prop.
  destruct (Py.assoc "metadata" kg) as [[j | a] |]; try discriminate; [| done].
  by destruct j.
Qed.

(** X20. When the [type] of every entity and relationship is absent or a
    string, [notes] has a length and [metadata] is a mapping (or either
    is absent), [show_info] prints the heading, a rule, the number of
    entities, of relationships and of notes, the number of distinct
    values of [type] among the entities and among the relationships, an
    absent [type] counting as one value, and one line for each entry of
    the metadata in the order of the mapping. *)
Theorem show_info_prints kg h ents rels :
  has_seq kg h "entities" ents -> has_seq kg h "relationships" rels ->
  extras_ok kg = true ->
  forallb (str_or_absent "type") ents = true ->
  forallb (str_or_absent "type") rels = true ->
  exists i,
    show_info kg h = Ok i h (info_lines i (metadata_of kg)) /\
    entity_count i = length ents /\ rel_count i = length rels /\
    note_count i = notes_len kg h /\
    entity_type_count i = length (distinct (map (field "type") ents)) /\
    rel_type_count i = length (distinct (map (field "type") rels)).
Proof.
  intros He Hr Hx Te Tr.
  set (s1 := distinct (map (field "type") ents)).
  set (s2 := distinct (map (field "type") rels)).
  exists {| entity_count := length ents; rel_count := length rels;
            note_count := notes_len kg h; entity_type_count := length s1;
            rel_type_count := length s2 |}.
  split; [| done].
  unfold show_info, info_lines. cbn [entity_count rel_count note_count
                                     entity_type_count rel_type_count].
  apply (scoped_ok _ _ _ ([s1] ++ [s2])).
  eapply bind_quiet_eq; [apply (len_quiet _ _ _ _ (returns_len _ _ _ _ He)) |].
  eapply bind_quiet_eq; [apply (len_quiet _ _ _ _ (returns_len _ _ _ _ Hr)) |].
  eapply bind_quiet_eq; [apply (len_quiet _ _ _ _ (returns_notes_len _ _ Hx)) |].
  eapply bind_quiet_eq; [by apply type_set_ok |].
  eapply bind_quiet_eq; [apply type_set_ok; [by apply has_seq_app | done] |].
  fold s1 s2.
  do 5 apply bind_print_ok.
  eapply bind_quiet_eq.
  { unfold read. by rewrite (lookup_app_l_Some _ _ _ _ (lookup_local h s1)). }
  apply bind_print_ok.
  eapply bind_quiet_eq; [apply read_local_ok |].
  do 2 apply bind_print_ok.
  eapply bind_quiet_eq; [by apply metadata_items_ok |].
  etransitivity; [eapply bind_ok_ok; [| reflexivity] |].
  - apply (for_each_ok (metadata_of kg) _ (fun _ => (h ++ [s1]) ++ [s2])
             (fun kv => [[Lit "  - "; Val (JStr (fst kv)); Lit ": "; Val (snd kv)]])).
    done.
  - by rewrite app_nil_r, flat_map_single, <- app_assoc.
Qed.

Lemma show_info_prints_witness :
  exists i,
    show_info
      [("entities", ListAt 0%nat); ("relationships", ListAt 1%nat);
       ("metadata", Imm (JObj [("version", JNum 2)]))]
      [[Example.alice; JObj [("id", JStr "e7"); ("name", JStr "Bob")]]; Example.rels_a]
    = Ok i
        [[Example.alice; JObj [("id", JStr "e7"); ("name", JStr "Bob")]]; Example.rels_a]
        (info_lines i
           (metadata_of
              [("entities", ListAt 0%nat); ("relationships", ListAt 1%nat);
               ("metadata", Imm (JObj [("version", JNum 2)]))])) /\
    entity_count i
    = length [Example.alice; JObj [("id", JStr "e7"); ("name", JStr "Bob")]] /\
    rel_count i = length Example.rels_a /\
    note_count i
    = notes_len
        [("entities", ListAt 0%nat); ("relationships", ListAt 1%nat);
         ("metadata", Imm (JObj [("version", JNum 2)]))]
        [[Example.alice; JObj [("id", JStr "e7"); ("name", JStr "Bob")]]; Example.rels_a] /\
    entity_type_count i
    = length (distinct (map (field "type")
                [Example.alice; JObj [("id", JStr "e7"); ("name", JStr "Bob")]])) /\
    rel_type_count i = length (distinct (map (field "type") Example.rels_a)).
Proof.
  apply (show_info_prints
           [("entities", ListAt 0%nat); ("relationships", ListAt 1%nat);
            ("metadata", Imm (JObj [("version", JNum 2)]))]
           [[Example.alice; JObj [("id", JStr "e7"); ("name", JStr "Bob")]]; Example.rels_a]
           [Example.alice; JObj [("id", JStr "e7"); ("name", JStr "Bob")]]
           Example.rels_a); reflexivity.
Defined.

(** ** What [search] prints *)

Lemma search_entities_ok kg h ents rels term cur :
  loaded kg h ents rels ->
  search_entities kg (Str.lower term) (length h) (h ++ [cur])
  = Ok tt (h ++ [cur ++ map entity_hit (List.filter (mentions term) ents)]) [].
Proof.
  intros L. unfold search_entities.
  eapply bind_quiet_eq; [apply iter_ok, has_seq_app, L |].
  pose proof (for_each_ok ents
    (fun entity =>
       if Str.contains (Str.lower term) (Str.lower (Dumps.dumps entity)) then
         append (length h) (JObj [("type", JStr "entity"); ("data", entity)])
       else ret tt)
    (fun done => h ++ [cur ++ map entity_hit (List.filter (mentions term) done)])
    (fun _ => [])) as G.
  cbn [List.filter map] in G. rewrite app_nil_r, flat_map_nothing in G.
  apply G. clear G.
  intros done e rest E. rewrite List.filter_app, map_app. cbn [List.filter].
  change (Str.contains (Str.lower term) (Str.lower (Dumps.dumps e)))
    with (mentions term e).
  destruct (mentions term e); cbn [map].
  - rewrite app_assoc. unfold append. by rewrite alter_local.
  - by rewrite !app_nil_r.
Qed.

Lemma search_relationships_ok kg h ents rels term cur :
  loaded kg h ents rels ->
  search_relationships kg (Str.lower term) (length h) (h ++ [cur])
  = Ok tt (h ++ [cur ++ rel_hits ents rels term]) [].
Proof.
  intros L. unfold search_relationships.
  eapply bind_quiet_eq; [apply iter_ok, has_seq_app, L |].
  pose proof (for_each_ok rels
    (fun rel =>
       if Str.contains (Str.lower term) (Str.lower (Dumps.dumps rel)) then
         let* source := next_entity kg rel "source" in
         let* target := next_entity kg rel "target" in
         if Py.truthy source && Py.truthy target then
           append (length h)
             (JObj [("type", JStr "relationship"); ("data", rel);
                    ("source", source); ("target", target)])
         else ret tt
       else ret tt)
    (fun done => h ++ [cur ++ rel_hits ents done term])
    (fun _ => [])) as G.
  cbn [rel_hits flat_map] in G. rewrite app_nil_r, flat_map_nothing in G.
  apply G. clear G.
  intros done rel rest E.
  pose proof (wf_middle _ _ _ _ _ (ld_wf_rels _ _ _ _ L) E) as Hr.
  rewrite rel_hits_snoc. unfold mentions.
  destruct (Str.contains _ _).
  - eapply bind_quiet_eq;
      [eapply next_entity_ok; eauto using loaded_app; by left |].
    eapply bind_quiet_eq;
      [eapply next_entity_ok; eauto using loaded_app; by right |].
    rewrite !resolve_truthy by apply L.
    destruct (resolve ents (field "source" rel)) as [s |],
             (resolve ents (field "target" rel)) as [t |]; cbn [default andb];
      try (by rewrite app_nil_r).
    rewrite app_assoc. unfold append. by rewrite alter_local.
  - by rewrite app_nil_r.
Qed.

Lemma print_entity_hit_ok repr term e h :
  wf_entity e = true ->
  print_result repr term (entity_hit e) h
  = Ok tt h (result_block repr term (entity_hit e)).
Proof.
  intros W. pose proof W as (d & -> & _ & Hn & Ht & Hsf & _ & Hp)%wf_entity_inv.
  apply props_ok_items in Hp as (kvs & Hg & _).
  unfold print_result, result_block, entity_hit.
  change (field "type" (JObj [("type", JStr "entity"); ("data", JObj d)]))
    with (JStr "entity").
  change (field "data" (JObj [("type", JStr "entity"); ("data", JObj d)]))
    with (JObj d).
  change (Py.eqb (JStr "entity") (JStr "entity")) with true. cbv iota zeta.
  unfold properties_of, field_or. rewrite Hg, (has_key_get _ _ _ Hsf).
  rewrite (has_str_field _ _ Hn), (has_str_field _ _ Ht).
  eapply bind_quiet_eq; [by apply lift_ok |].
  change (Py.eqb (JStr "entity") (JStr "entity")) with true. cbv iota.
  eapply bind_quiet_eq; [by apply lift_ok |].
  eapply bind_quiet_eq; [by apply lift_ok, has_str_getitem |].
  eapply bind_quiet_eq; [by apply lift_ok, has_str_getitem |].
  apply bind_print_ok.
  eapply bind_quiet_eq; [by apply lift_ok, has_key_get |].
  apply bind_print_ok.
  eapply bind_quiet_eq; [by apply lift_ok |].
  eapply bind_quiet_eq; [by apply lift_ok |].
  destruct (matching_props repr term kvs) as [| kv shown]; [done |].
  apply bind_print_ok. rewrite <- flat_map_single.
  by apply (for_each_ok (kv :: shown) _ (fun _ => h)
              (fun kv => [[Lit "    - "; Val (JStr (fst kv)); Lit ": ";
                           Val (snd kv)]])).
Qed.

Lemma print_rel_hit_ok repr term rel s t h :
  wf_rel rel = true -> wf_entity s = true -> wf_entity t = true ->
  print_result repr term (rel_hit rel s t) h
  = Ok tt h (result_block repr term (rel_hit rel s t)).
Proof.
  intros Wr Ws Wt. pose proof (wf_rel_type _ Wr) as Hty.
  pose proof Wr as (d & -> & _)%wf_rel_inv.
  pose proof Ws as (ds & -> & _ & Hsn & _)%wf_entity_inv.
  pose proof Wt as (dt & -> & _ & Htn & _)%wf_entity_inv.
  destruct (get_obj d "source_file" (JStr "unknown")) as [sf Hsf].
  destruct (get_obj d "confidence" (JStr "unknown")) as [c Hc].
  unfold print_result, result_block, rel_hit.
  change (field "type" (JObj (("type", JStr "relationship") :: _)))
    with (JStr "relationship").
  change (field "data" (JObj [("type", JStr "relationship"); ("data", JObj d);
                              ("source", JObj ds); ("target", JObj dt)]))
    with (JObj d).
  change (field "source" (JObj [("type", JStr "relationship"); ("data", JObj d);
                                ("source", JObj ds); ("target", JObj dt)]))
    with (JObj ds).
  change (field "target" (JObj [("type", JStr "relationship"); ("data", JObj d);
                                ("source", JObj ds); ("target", JObj dt)]))
    with (JObj dt).
  change (Py.eqb (JStr "relationship") (JStr "entity")) with false.
  cbv iota zeta. unfold field_or. rewrite Hsf, Hc.
  rewrite (has_str_field _ _ Hsn), (has_str_field _ _ Htn).
  eapply bind_quiet_eq; [by apply lift_ok |].
  change (Py.eqb (JStr "relationship") (JStr "entity")) with false.
  change (Py.eqb (JStr "relationship") (JStr "relationship")) with true.
  cbv iota.
  do 3 (eapply bind_quiet_eq; [by apply lift_ok |]).
  eapply bind_quiet_eq; [by apply lift_ok, has_str_getitem |].
  eapply bind_quiet_eq; [by apply lift_ok |].
  eapply bind_quiet_eq; [by apply lift_ok, has_str_getitem |].
  apply bind_print_ok.
  eapply bind_quiet_eq; [by apply lift_ok |].
  apply bind_print_ok.
  eapply bind_quiet_eq; [by apply lift_ok |].
  reflexivity.
Qed.

(** X21. On a well-formed document [search] prints a heading that quotes
    the term in lower case, a rule, and then "No results found", or for
    each result in order: for an entity its name, type and source file
    ("unknown" when absent) and, when there are any, the properties whose
    name or value contains the term; for a relationship the names of the
    resolved source and target around its type, its source file and its
    confidence ("unknown" when absent). *)
Theorem search_prints repr kg h ents rels term :
  loaded kg h ents rels ->
  exists hits,
    hits = map entity_hit (List.filter (mentions term) ents) ++
           rel_hits ents rels term /\
    search repr kg term h
    = Ok hits h
        ([Lit nl; Lit "Search results for '"; Val (JStr (Str.lower term)); Lit "':"]
         :: rule 40
         :: match hits with
            | [] => [[Lit "  No results found"]]
            | _ => flat_map (result_block repr (Str.lower term)) hits
            end).
Proof.
  intros L. eexists. split; [reflexivity |].
  unfold search. cbv zeta.
  set (rs := map entity_hit _ ++ _).
  apply (scoped_ok _ _ _ [rs]).
  eapply bind_quiet_eq; [reflexivity |].
  eapply bind_quiet_eq; [by eapply search_entities_ok |].
  eapply bind_quiet_eq; [by eapply search_relationships_ok |].
  cbn [app]. fold rs.
  do 2 apply bind_print_ok.
  eapply bind_quiet_eq; [apply read_local_ok |].
  assert (Hp : forall x, In x rs ->
            print_result repr (Str.lower term) x (h ++ [rs])
            = Ok tt (h ++ [rs]) (result_block repr (Str.lower term) x)).
  { intros x [H | H]%in_app_or.
    - apply in_map_iff in H as (e & <- & [He _]%filter_In).
      apply print_entity_hit_ok. eapply wf_in; eauto. apply L.
    - apply rel_hits_item in H as (rel & s & t & Hrel & _ & Rs & Rt & ->).
      apply print_rel_hit_ok.
      + eapply wf_in; eauto. apply L.
      + eapply wf_in; eauto using resolve_in. apply L.
      + eapply wf_in; eauto using resolve_in. apply L. }
  destruct rs as [| r0 rs'] eqn:E.
  - by apply bind_print_ok.
  - rewrite <- E in *. clear E r0 rs'.
    etransitivity; [eapply bind_ok_ok; [| reflexivity] | by rewrite app_nil_r].
    apply (for_each_ok rs _ (fun _ => h ++ [rs]) (result_block repr (Str.lower term))).
    intros done x rest Ex. apply Hp. rewrite Ex. apply in_elt.
Qed.

Lemma search_prints_witness :
  exists hits,
    hits = map entity_hit (List.filter (mentions "E1") Example.ents_a) ++
           rel_hits Example.ents_a Example.rels_c "E1" /\
    search (fun _ => EmptyString) Example.kg2 "E1" [Example.ents_a; Example.rels_c]
    = Ok hits [Example.ents_a; Example.rels_c]
        ([Lit nl; Lit "Search results for '"; Val (JStr (Str.lower "E1")); Lit "':"]
         :: rule 40
         :: match hits with
            | [] => [[Lit "  No results found"]]
            | _ => flat_map (result_block (fun _ => EmptyString) (Str.lower "E1")) hits
            end).
Proof.
  apply (search_prints (fun _ => EmptyString) Example.kg2
           [Example.ents_a; Example.rels_c] Example.ents_a Example.rels_c "E1").
  apply loaded_two; reflexivity.
Defined.

(** ** A list property with a member that is not a string *)

Lemma join_fail sep l : forallb is_strb l = false -> Py.join sep l = Fail TypeError.
Proof.
  induction l as [| x l IH]; [done |].
  destruct x as [| | | s | |]; try (by destruct l).
  cbn [forallb is_strb andb]. intros Hl.
  destruct l as [| y l]; [done |].
  change (Py.join sep (JStr s :: y :: l))
    with (let? r := Py.join sep (y :: l) in Done (s +:+ sep +:+ r)).
  by rewrite (IH Hl).
Qed.

Lemma print_properties_raises e h kvs :
  Py.get e "properties" (JObj []) = Done (JObj kvs) ->
  existsb mixed_list kvs = true ->
  exists o, print_properties e h = Raise TypeError h ([Lit nl; Lit "Properties:"] :: o).
Proof.
  intros Hg (kv & Hkv & Hmx)%existsb_exists.
  assert (G : exists o,
    for_each kvs (fun kv =>
      match snd kv with
      | JArr l =>
          let* s := lift (Py.join ", " l) in
          print [Lit "  - "; Val (JStr (fst kv)); Lit ": "; Val (JStr s)]
      | v => print [Lit "  - "; Val (JStr (fst kv)); Lit ": "; Val v]
      end) h
    = Raise TypeError h o).
  { apply for_each_raise_some.
    - intros x _. destruct (snd x) as [| | | | l |]; try (by left; eexists).
      destruct (Py.join ", " l) as [s | []] eqn:Ej.
      + left. eexists. eapply bind_quiet_eq; [by apply lift_ok |]. reflexivity.
      + exfalso. clear -Ej. induction l as [| y l IH]; [done |].
        destruct y as [| | | s | |]; try (by destruct l).
        destruct l as [| z l]; [done |].
        change (Py.join ", " (JStr s :: z :: l))
          with (let? r := Py.join ", " (z :: l) in Done (s +:+ ", " +:+ r)) in Ej.
        destruct (Py.join ", " (z :: l)) as [r | []]; try done; by apply IH.
      + exfalso. clear -Ej. induction l as [| y l IH]; [done |].
        destruct y as [| | | s | |]; try (by destruct l).
        destruct l as [| z l]; [done |].
        change (Py.join ", " (JStr s :: z :: l))
          with (let? r := Py.join ", " (z :: l) in Done (s +:+ ", " +:+ r)) in Ej.
        destruct (Py.join ", " (z :: l)) as [r | []]; try done; by apply IH.
      + right. eexists. by apply bind_raise.
    - exists kv. split; [done |]. unfold mixed_list in Hmx.
      destruct (snd kv) as [| | | | l |]; try discriminate.
      apply negb_true_iff in Hmx. eexists. apply bind_raise.
      by rewrite (join_fail _ _ Hmx). }
  destruct G as [o Eo]. exists o. unfold print_properties.
  apply bind_print_raise.
  eapply bind_quiet_eq; [by apply lift_ok |].
  eapply bind_quiet_eq; [by apply lift_ok |].
  exact Eo.
Qed.

(** X22. A property whose value is a list with a member that is not a
    string makes [find_entity] raise [TypeError] when it belongs to the
    first entity that matches the pattern: the list is joined with
    [', '.join(value)] (line 73).  The heading of the entity, its id,
    source and confidence and the line "Properties:" are printed
    before. *)
Theorem find_entity_joins_list_properties kg h ents pat e rest kvs :
  has_seq kg h "entities" ents -> forallb nameable ents = true ->
  List.filter (name_matches pat) ents = e :: rest ->
  shown_keys e = true ->
  Py.get e "properties" (JObj []) = Done (JObj kvs) ->
  existsb mixed_list kvs = true ->
  exists o,
    find_entity kg pat h
    = Raise TypeError h
        ([Lit nl; Val (field "name" e); Lit " ("; Val (field "type" e); Lit ")"]
         :: rule 40
         :: [Lit "ID: "; Val (field "id" e)]
         :: [Lit "Source: "; Val (field "source_file" e)]
         :: [Lit "Confidence: "; Val (field "confidence" e)]
         :: [Lit nl; Lit "Properties:"] :: o).
Proof.
  intros He Hn Hm Hk Hg Hx.
  pose proof (collect_by_name_ok kg h ents pat He Hn) as E. rewrite Hm in E.
  destruct (print_properties_raises e (h ++ [e :: rest]) kvs Hg Hx) as [o Eo].
  exists o.
  destruct e as [| | | | | d]; try discriminate. cbn [shown_keys forallb] in Hk.
  repeat (apply andb_prop in Hk as [? Hk]).
  unfold find_entity. cbv zeta.
  apply (scoped_raise _ _ _ [JObj d :: rest]).
  eapply bind_quiet_eq; [apply E |].
  eapply bind_quiet_eq; [apply read_local_ok |].
  cbv iota. cbn [for_each].
  do 2 apply bind_raise.
  eapply bind_quiet_eq; [by apply lift_ok, has_key_getitem |].
  eapply bind_quiet_eq; [by apply lift_ok, has_key_getitem |].
  do 2 apply bind_print_raise.
  eapply bind_quiet_eq; [by apply lift_ok, has_key_getitem |].
  apply bind_print_raise.
  eapply bind_quiet_eq; [by apply lift_ok, has_key_getitem |].
  apply bind_print_raise.
  eapply bind_quiet_eq; [by apply lift_ok, has_key_getitem |].
  apply bind_print_raise.
  by apply bind_raise.
Qed.

Lemma find_entity_joins_list_properties_witness :
  exists o,
    find_entity Example.kg2 "bob"
      [[JObj [("id", JStr "e7"); ("name", JStr "Bob"); ("type", JStr "person");
              ("source_file", JStr "n.md"); ("confidence", JNum 1);
              ("properties", JObj [("years", JArr [JNum 2019; JNum 2020])])]]; []]
    = Raise TypeError
        [[JObj [("id", JStr "e7"); ("name", JStr "Bob"); ("type", JStr "person");
                ("source_file", JStr "n.md"); ("confidence", JNum 1);
                ("properties", JObj [("years", JArr [JNum 2019; JNum 2020])])]]; []]
        ([Lit nl; Val (JStr "Bob"); Lit " ("; Val (JStr "person"); Lit ")"]
         :: rule 40
         :: [Lit "ID: "; Val (JStr "e7")]
         :: [Lit "Source: "; Val (JStr "n.md")]
         :: [Lit "Confidence: "; Val (JNum 1)]
         :: [Lit nl; Lit "Properties:"] :: o).
Proof.
  apply (find_entity_joins_list_properties Example.kg2
           [[JObj [("id", JStr "e7"); ("name", JStr "Bob"); ("type", JStr "person");
                   ("source_file", JStr "n.md"); ("confidence", JNum 1);
                   ("properties", JObj [("years", JArr [JNum 2019; JNum 2020])])]]; []]
           [JObj [("id", JStr "e7"); ("name", JStr "Bob"); ("type", JStr "person");
                  ("source_file", JStr "n.md"); ("confidence", JNum 1);
                  ("properties", JObj [("years", JArr [JNum 2019; JNum 2020])])]]
           "bob"
           (JObj [("id", JStr "e7"); ("name", JStr "Bob"); ("type", JStr "person");
                  ("source_file", JStr "n.md"); ("confidence", JNum 1);
                  ("properties", JObj [("years", JArr [JNum 2019; JNum 2020])])])
           [] [("years", JArr [JNum 2019; JNum 2020])]); reflexivity.
Defined.

(** ** [main] and the operations *)

Lemma call_ended {A} doc (q : kgdoc -> prog A) kg h :
  load_knowledge_graph doc [] = Ok kg h [] ->
  ended (call (JObj doc) q []) = ended (q kg h).
Proof.
  intros E. unfold call. rewrite (bind_ok _ _ _ _ _ _ E).
  unfold bind. destruct (q kg h) as [a h1 o | e h1 o]; cbn; [| done].
  by rewrite app_nil_r.
Qed.

Lemma main_ended order repr v command args kg_path :
  Main.main order repr (Main.Parsed v) command args kg_path
  = ended (Main.dispatch order repr v command args []).
Proof. unfold Main.main. cbn. by destruct (Main.dispatch _ _ _ _ _ _). Qed.

(** X23. For a file that holds a JSON object, whatever its members,
    [main] loads it and runs the operation the command names on the
    loaded document, with the words after the sub-command joined by one
    space as the name or the term ([list entities] takes the first word
    only); it prints what the operation prints and nothing else, and it
    ends as the operation ends. *)
Theorem main_runs_the_operation order repr doc kg_path :
  exists kg h,
    load_knowledge_graph doc [] = Ok kg h [] /\
    (forall w ws,
       Main.main order repr (Main.Parsed (JObj doc)) "find" ("entity" :: w :: ws) kg_path
       = ended (find_entity kg (String.concat " " (w :: ws)) h)) /\
    (forall w ws,
       Main.main order repr (Main.Parsed (JObj doc)) "find" ("related" :: w :: ws) kg_path
       = ended (find_related kg (String.concat " " (w :: ws)) h)) /\
    (forall ws,
       Main.main order repr (Main.Parsed (JObj doc)) "list" ("types" :: ws) kg_path
       = ended (list_types order kg h)) /\
    (forall w ws,
       Main.main order repr (Main.Parsed (JObj doc)) "list" ("entities" :: w :: ws) kg_path
       = ended (list_entities_by_type kg w h)) /\
    (forall w ws,
       Main.main order repr (Main.Parsed (JObj doc)) "search" (w :: ws) kg_path
       = ended (search repr kg (String.concat " " (w :: ws)) h)) /\
    (forall ws,
       Main.main order repr (Main.Parsed (JObj doc)) "info" ws kg_path
       = ended (show_info kg h)).
Proof.
  destruct (load_spec doc []) as (kg & h & E & _). cbn [app] in E.
  exists kg, h. split; [done |].
  repeat split; intros; rewrite main_ended; unfold Main.dispatch;
    cbn [String.eqb Ascii.eqb Bool.eqb]; by rewrite (call_ended doc _ kg h E).
Qed.

(** X24. A command line that names no operation is answered without a
    look at the document, whatever the file holds once it parses: too
    few arguments, an unknown sub-command or an unknown command print an
    error line and a usage line, [help] prints the text at the head of
    the module, and [main] returns. *)
Theorem main_reports_bad_arguments order repr v kg_path :
  (forall args, (length args < 2)%nat ->
     Main.main order repr (Main.Parsed v) "find" args kg_path
     = ([[Lit "Error: 'find' command requires at least 2 arguments"];
         [Lit "Usage: find entity <name> or find related <name>"]],
        Main.Returned)) /\
  (forall sub w ws, sub <> "entity" -> sub <> "related" ->
     Main.main order repr (Main.Parsed v) "find" (sub :: w :: ws) kg_path
     = ([[Lit "Error: Unknown sub-command '"; Val (JStr sub); Lit "' for 'find'"];
         [Lit "Usage: find entity <name> or find related <name>"]],
        Main.Returned)) /\
  Main.main order repr (Main.Parsed v) "list" [] kg_path
  = ([[Lit "Error: 'list' command requires a sub-command"];
      [Lit "Usage: list types or list entities <type>"]],
     Main.Returned) /\
  Main.main order repr (Main.Parsed v) "list" ["entities"] kg_path
  = ([[Lit "Error: 'list entities' requires an entity type"];
      [Lit "Usage: list entities <type>"]],
     Main.Returned) /\
  (forall sub ws, sub <> "types" -> sub <> "entities" ->
     Main.main order repr (Main.Parsed v) "list" (sub :: ws) kg_path
     = ([[Lit "Error: Unknown sub-command '"; Val (JStr sub); Lit "' for 'list'"];
         [Lit "Usage: list types or list entities <type>"]],
        Main.Returned)) /\
  Main.main order repr (Main.Parsed v) "search" [] kg_path
  = ([[Lit "Error: 'search' command requires a search term"];
      [Lit "Usage: search <term>"]],
     Main.Returned) /\
  (forall args,
     Main.main order repr (Main.Parsed v) "help" args kg_path
     = ([[Lit Main.module_doc]], Main.Returned)) /\
  (forall command args,
     ~ In command ["find"; "list"; "search"; "info"; "help"] ->
     Main.main order repr (Main.Parsed v) command args kg_path
     = ([[Lit "Error: Unknown command '"; Val (JStr command); Lit "'"];
         [Lit "Use 'help' to see available commands"]],
        Main.Returned)).
Proof.
  repeat split; intros; rewrite main_ended; unfold Main.dispatch.
  - by destruct args as [| a [| b args]]; [| | cbn in *; lia].
  - cbn [String.eqb Ascii.eqb Bool.eqb].
    by rewrite (proj2 (String.eqb_neq sub "entity")),
               (proj2 (String.eqb_neq sub "related")).
  - cbn [String.eqb Ascii.eqb Bool.eqb].
    by rewrite (proj2 (String.eqb_neq sub "types")),
               (proj2 (String.eqb_neq sub "entities")).
  - rewrite !(proj2 (String.eqb_neq command _)); [done | ..];
      intros ->; apply H; cbn; auto 10.
Qed.

Lemma main_reports_bad_arguments_witness :
  Main.main (fun l => l) (fun _ => EmptyString) (Main.Parsed (JNum 7))
    "find" ["entity"] "kg.json"
  = ([[Lit "Error: 'find' command requires at least 2 arguments"];
      [Lit "Usage: find entity <name> or find related <name>"]],
     Main.Returned) /\
  Main.main (fun l => l) (fun _ => EmptyString) (Main.Parsed (JNum 7))
    "find" ["entities"; "alice"] "kg.json"
  = ([[Lit "Error: Unknown sub-command '"; Val (JStr "entities"); Lit "' for 'find'"];
      [Lit "Usage: find entity <name> or find related <name>"]],
     Main.Returned) /\
  Main.main (fun l => l) (fun _ => EmptyString) (Main.Parsed (JNum 7))
    "list" ["type"] "kg.json"
  = ([[Lit "Error: Unknown sub-command '"; Val (JStr "type"); Lit "' for 'list'"];
      [Lit "Usage: list types or list entities <type>"]],
     Main.Returned) /\
  Main.main (fun l => l) (fun _ => EmptyString) (Main.Parsed (JNum 7))
    "show" [] "kg.json"
  = ([[Lit "Error: Unknown command '"; Val (JStr "show"); Lit "'"];
      [Lit "Use 'help' to see available commands"]],
     Main.Returned).
Proof.
  destruct (main_reports_bad_arguments (fun l => l) (fun _ => EmptyString)
              (JNum 7) "kg.json")
    as (H1 & H2 & _ & _ & H5 & _ & _ & H8).
  split; [apply H1; cbn; lia |].
  split; [apply H2; discriminate |].
  split; [apply H5; discriminate |].
  apply H8. cbn. intros [H | [H | [H | [H | [H | []]]]]]; discriminate.
Defined.

(** ** [list_types] and [list_entities_by_type] *)

Lemma filter_length_le {A} (f g : A -> bool) (l : list A) :
  (forall x, In x l -> f x = true -> g x = true) ->
  (length (List.filter f l) <= length (List.filter g l))%nat.
Proof.
  induction l as [| x l IH]; intros Hfg; [done |]. cbn [List.filter].
  assert (IH' := IH (fun y Hy => Hfg y (or_intror Hy))).
  pose proof (Hfg x (or_introl eq_refl)) as Hx.
  destruct (f x); [rewrite Hx by done |]; destruct (g x); cbn [length]; lia.
Qed.

(** X25. On a well-formed document, for every type that [list_types]
    lists with a count, [list_entities_by_type] with that type returns
    every entity of the type, so at least as many entities as the
    count, which is at least 1: it compares types in lower case,
    [list_types] as they are written. *)
Theorem listed_type_has_its_entities order kg h ents rels :
  set_order order -> loaded kg h ents rels ->
  exists ec rc, returns (list_types order kg) h (ec, rc) h /\
    forall t n, In (t, n) ec ->
      exists res, returns (list_entities_by_type kg (str_of t)) h res h /\
        (1 <= n <= length res)%nat /\
        forall e, In e ents -> field "type" e = t -> In e res.
Proof.
  intros Ho L.
  assert (Te : forall x, In x ents -> typed x).
  { intros x Hx. eapply wf_entity_typed, wf_in; eauto. apply L. }
  destruct (type_counts_facts order ents Ho Te) as (_ & _ & E3 & _).
  do 2 eexists. split; [apply (returns_list_types _ _ _ _ _ Ho L) |].
  intros t n Hin. destruct (E3 t n Hin) as (Hn & -> & x & Hx & Et).
  eexists. split; [apply (returns_list_entities_by_type _ _ _ _ _ L) |].
  assert (Hsub : forall e, In e ents -> Py.eqb (field "type" e) t = true ->
                           type_matches (str_of t) e = true).
  { intros e He Hb. rewrite (typed_field e (Te e He)) in Hb.
    apply eqb_str_eq in Hb as ->. cbn [str_of].
    unfold type_matches. apply String.eqb_refl. }
  split; [split; [done |] |].
  - rewrite <- (Permutation_length (sort_str_perm (text "name") _)).
    unfold count_of. by apply filter_length_le.
  - intros e He Ee. apply (Permutation_in _ (sort_str_perm (text "name") _)).
    apply filter_In. split; [done |]. apply Hsub; [done |].
    rewrite Ee, <- Et, (typed_field x (Te x Hx)). by apply eqb_str_eq.
Qed.

Lemma listed_type_has_its_entities_witness :
  exists ec rc,
    returns (list_types (fun l => l) Example.kg2)
      [Example.ents_dup; Example.rels_dup] (ec, rc) [Example.ents_dup; Example.rels_dup] /\
    forall t n, In (t, n) ec ->
      exists res,
        returns (list_entities_by_type Example.kg2 (str_of t))
          [Example.ents_dup; Example.rels_dup] res [Example.ents_dup; Example.rels_dup] /\
        (1 <= n <= length res)%nat /\
        forall e, In e Example.ents_dup -> field "type" e = t -> In e res.
Proof.
  apply (listed_type_has_its_entities (fun l => l) Example.kg2
           [Example.ents_dup; Example.rels_dup] Example.ents_dup Example.rels_dup).
  - intros l. apply Permutation_refl.
  - apply loaded_two; reflexivity.
Defined.

(** ** From the file to the output of [info] *)

Lemma wf_entity_str_type e : wf_entity e = true -> str_or_absent "type" e = true.
Proof.
  intros (d & -> & _ & _ & Ht & _)%wf_entity_inv. unfold has_str in Ht. cbn.
  by destruct (Py.assoc "type" d) as [[] |].
Qed.

Lemma wf_rel_str_type r : wf_rel r = true -> str_or_absent "type" r = true.
Proof.
  intros (d & -> & _ & _ & Ht)%wf_rel_inv. unfold has_str in Ht. cbn.
  by destruct (Py.assoc "type" d) as [[] |].
Qed.

Lemma forallb_impl {A} (f g : A -> bool) (l : list A) :
  (forall x, f x = true -> g x = true) -> forallb f l = true -> forallb g l = true.
Proof.
  intros Hfg. induction l as [| x l IH]; [done |]. cbn [forallb].
  intros [Hx Hl]%andb_prop. by rewrite (Hfg x Hx), (IH Hl).
Qed.

(** X26. For a file that holds a document that follows the data model,
    the command [info] prints the number of members of the document's
    entity sequence, of its relationship sequence and of its notes, the
    numbers of distinct types, and one line for each entry of the
    document's metadata, and [main] returns. *)
Theorem main_info_end_to_end order repr doc ents rels ws kg_path :
  wf_doc doc = true ->
  doc_seq doc "entities" = Done ents -> doc_seq doc "relationships" = Done rels ->
  exists i,
    Main.main order repr (Main.Parsed (JObj doc)) "info" ws kg_path
    = (info_lines i
         match Py.assoc "metadata" doc with
         | Some (JObj kvs) => kvs
         | _ => []
         end,
       Main.Returned) /\
    entity_count i = length ents /\ rel_count i = length rels /\
    note_count i
    = match Py.assoc "notes" doc with
      | Some (JObj d) => length d
      | Some (JArr l) => length l
      | Some (JStr s) => String.length s
      | _ => O
      end /\
    entity_type_count i = length (distinct (map (field "type") ents)) /\
    rel_type_count i = length (distinct (map (field "type") rels)).
Proof.
  intros Hw He Hr.
  destruct (wf_doc_loaded doc Hw) as (kg & h & ents' & rels' & E & He' & Hr' & L & Hx).
  rewrite He in He'. rewrite Hr in Hr'. injection He' as <-. injection Hr' as <-.
  destruct (load_spec doc []) as (kg' & h' & E' & Hk). cbn [app] in E'.
  rewrite E in E'. injection E' as <- <-.
  destruct (show_info_prints kg h ents rels (ld_ents _ _ _ _ L) (ld_rels _ _ _ _ L) Hx)
    as (i & Ei & H1 & H2 & H3 & H4 & H5).
  { eapply forallb_impl; [apply wf_entity_str_type | apply L]. }
  { eapply forallb_impl; [apply wf_rel_str_type | apply L]. }
  exists i.
  assert (Em : metadata_of kg = match Py.assoc "metadata" doc with
                                | Some (JObj kvs) => kvs
                                | _ => []
                                end).
  { unfold metadata_of, Kg.get. pose proof (Hk "metadata") as Hm.
    destruct (Py.assoc "metadata" doc) as [[| | | | l | d] |];
      try (by rewrite Hm); by destruct Hm as (a & -> & _). }
  assert (En : notes_len kg h = match Py.assoc "notes" doc with
                                | Some (JObj d) => length d
                                | Some (JArr l) => length l
                                | Some (JStr s) => String.length s
                                | _ => O
                                end).
  { unfold notes_len, Kg.get. pose proof (Hk "notes") as Hm.
    destruct (Py.assoc "notes" doc) as [[| | | s | l | d] |];
      try (by rewrite Hm).
    destruct Hm as (a & -> & Ha). cbn [app] in Ha. by rewrite Ha. }
  split; [| by rewrite <- En].
  rewrite main_ended. unfold Main.dispatch. cbn [String.eqb Ascii.eqb Bool.eqb].
  by rewrite (call_ended doc _ kg h E), Ei, Em.
Qed.

Lemma main_info_end_to_end_witness :
  exists i,
    Main.main (fun l => l) (fun _ => EmptyString)
      (Main.Parsed (JObj (Example.doc_a ++ [("metadata", JObj [("version", JNum 2)])])))
      "info" [] "data/merged_kg.json"
    = (info_lines i
         match Py.assoc "metadata"
                 (Example.doc_a ++ [("metadata", JObj [("version", JNum 2)])]) with
         | Some (JObj kvs) => kvs
         | _ => []
         end,
       Main.Returned) /\
    entity_count i = length Example.ents_a /\
    rel_count i = length Example.rels_a /\
    note_count i
    = match Py.assoc "notes"
              (Example.doc_a ++ [("metadata", JObj [("version", JNum 2)])]) with
      | Some (JObj d) => length d
      | Some (JArr l) => length l
      | Some (JStr s) => String.length s
      | _ => O
      end /\
    entity_type_count i = length (distinct (map (field "type") Example.ents_a)) /\
    rel_type_count i = length (distinct (map (field "type") Example.rels_a)).
Proof.
  apply (main_info_end_to_end (fun l => l) (fun _ => EmptyString)
           (Example.doc_a ++ [("metadata", JObj [("version", JNum 2)])])
           Example.ents_a Example.rels_a [] "data/merged_kg.json"); reflexivity.
Defined.
